(** * JMSListener test HTTP servers: a shallow embedding

    Two Python scripts live under [TestHttpServer/]:

    - [test-http-server.py], the echo logger ([JMSMessageHandler],
      [run_test_server]);
    - [transaction-test-server.py], the fault-injection server
      ([TransactionTestHandler], [create_handler], [main]).

    Both subclass [http.server.BaseHTTPRequestHandler].  The handlers are
    embedded as computations in a state-and-exception monad over an explicit
    world (pseudo-random generator, clock, and the trace of what the process
    printed and wrote).  The pieces of the Python runtime the scripts call
    but do not define ([int], [bytes.decode], [json.loads], the generator
    behind [random], what [read] can allocate and what [print] can write)
    are an interface, [Runtime]; every theorem holds for every
    implementation of it, and a small executable implementation,
    [Reference.runtime], is used to run the handlers on concrete requests.

    A request carries the connection it came on: the stream its body is
    read from, and whether the client still takes what is written to it.
    Standard output is taken to be open and to encode UTF-8; the sockets
    have no timeout, as [http.server] leaves them. *)

From Stdlib Require Import String Ascii List ZArith Bool Lia Floats Uint63.
Import ListNotations.

Local Open Scope string_scope.
Local Open Scope list_scope.
Local Open Scope Z_scope.

Set Implicit Arguments.
Set Warnings "-register-all,-inexact-float".

(* ===================================================================== *)
(** * Python values, exceptions and formatted text *)
(* ===================================================================== *)

Module Py.

(** What [json.loads] can return, and what the scripts put in the
    dictionaries they hand to [json.dumps].  A [dict] keeps its keys in
    insertion order. *)
Inductive value : Type :=
| PyNone
| PyBool (b : bool)
| PyInt (z : Z)
| PyFloat (f : float)
| PyStr (s : string)
| PyList (l : list value)
| PyDict (d : list (string * value)).

(** [type(v).__name__]. *)
Definition type_name (v : value) : string :=
  match v with
  | PyNone => "NoneType"
  | PyBool _ => "bool"
  | PyInt _ => "int"
  | PyFloat _ => "float"
  | PyStr _ => "str"
  | PyList _ => "list"
  | PyDict _ => "dict"
  end.

(** [bool(v)], the test an [if v:] performs. *)
Definition truthy (v : value) : bool :=
  match v with
  | PyNone => false
  | PyBool b => b
  | PyInt z => negb (z =? 0)
  | PyFloat f => negb (PrimFloat.eqb f 0)
  | PyStr s => negb (String.eqb s EmptyString)
  | PyList l => match l with [] => false | _ => true end
  | PyDict d => match d with [] => false | _ => true end
  end.

(** Lookup in the key/value pairs of a dict. *)
Fixpoint lookup (d : list (string * value)) (key : string) : option value :=
  match d with
  | [] => None
  | (k, v) :: rest => if String.eqb k key then Some v else lookup rest key
  end.

(** [d.get(key, default)] on a dict. *)
Definition dict_get (d : list (string * value)) (key : string)
           (default : value) : value :=
  match lookup d key with
  | Some v => v
  | None => default
  end.

(** The exception classes that occur, with the part of the built-in
    hierarchy that the [except] clauses of the scripts distinguish. *)
Inductive exn_class : Type :=
| BaseException
| Exception
| KeyboardInterrupt
| SystemExit
| ValueError
| UnicodeDecodeError
| JSONDecodeError
| UnicodeEncodeError
| OverflowError
| RecursionError
| MemoryError
| NotImplementedError
| OSError
| BrokenPipeError
| AttributeError
| KeyError
| TypeError
| IndexError
| NameError
| UnboundLocalError.

Definition exn_class_eqb (a b : exn_class) : bool :=
  match a, b with
  | BaseException, BaseException | Exception, Exception
  | KeyboardInterrupt, KeyboardInterrupt | SystemExit, SystemExit
  | ValueError, ValueError | UnicodeDecodeError, UnicodeDecodeError
  | UnicodeEncodeError, UnicodeEncodeError
  | JSONDecodeError, JSONDecodeError | OverflowError, OverflowError
  | RecursionError, RecursionError | OSError, OSError
  | MemoryError, MemoryError | BrokenPipeError, BrokenPipeError
  | NotImplementedError, NotImplementedError
  | AttributeError, AttributeError | KeyError, KeyError
  | TypeError, TypeError | IndexError, IndexError | NameError, NameError
  | UnboundLocalError, UnboundLocalError => true
  | _, _ => false
  end.

(** The direct base class ([UnicodeError], [ArithmeticError],
    [RuntimeError], [LookupError] and [ConnectionError] are skipped: no
    clause names them). *)
Definition base (c : exn_class) : option exn_class :=
  match c with
  | BaseException => None
  | Exception | KeyboardInterrupt | SystemExit => Some BaseException
  | ValueError | OverflowError | RecursionError | MemoryError
  | NotImplementedError | OSError | AttributeError | KeyError | TypeError
  | IndexError | NameError => Some Exception
  | UnicodeDecodeError | UnicodeEncodeError | JSONDecodeError =>
      Some ValueError
  | BrokenPipeError => Some OSError
  | UnboundLocalError => Some NameError
  end.

Fixpoint issubclass_upto (fuel : nat) (c target : exn_class) : bool :=
  exn_class_eqb c target ||
  match fuel, base c with
  | S fuel', Some b => issubclass_upto fuel' b target
  | _, _ => false
  end.

(** [issubclass(c, target)]; no chain is longer than four steps. *)
Definition issubclass : exn_class -> exn_class -> bool := issubclass_upto 4.

(** A raised exception: its class and [str(e)]. *)
Record exn : Type := { cls : exn_class; msg : string }.

(** [isinstance(e, target)], the test of [except target:]. *)
Definition isinstance (e : exn) (target : exn_class) : bool :=
  issubclass (cls e) target.

(** A line handed to [print], or a value built by an f-string, kept as its
    pieces: literal text, [{v}] (which is [str(v)]) and [{v:spec}]. *)
Inductive piece : Type :=
| Text (s : string)
| Fmt (v : value)
| FmtSpec (v : value) (spec : string).

Definition line : Type := list piece.

(** [None], a [bool], an [int] or a [float]. *)
Definition is_scalar (v : value) : bool :=
  match v with
  | PyNone | PyBool _ | PyInt _ | PyFloat _ => true
  | _ => false
  end.

(** A [str] of ASCII characters only. *)
Fixpoint ascii_only (s : string) : bool :=
  match s with
  | EmptyString => true
  | String c rest => (nat_of_ascii c <? 128)%nat && ascii_only rest
  end.

End Py.
Export Py.

(* ===================================================================== *)
(** * The runtime the scripts run on *)
(* ===================================================================== *)

(** The library functions the scripts call and do not define.  An error
    result is the exception the call raises. *)
Class Runtime : Type := {
  (** [int(s)] on a [str]. *)
  rt_int : string -> exn + Z;
  (** [b.decode('utf-8')]. *)
  rt_decode : list Byte.byte -> exn + string;
  (** [json.loads(s)]. *)
  rt_loads : string -> exn + value;
  (** The state of the generator behind the [random] module, *)
  rng : Type;
  (** [random.random()]: the next float and the next state, *)
  rt_random : rng -> float * rng;
  (** and the index [random.choice] draws for a sequence of length [n]. *)
  rt_randbelow : nat -> rng -> nat * rng;
  rt_randbelow_lt :
    forall n g, (0 < n)%nat -> (fst (rt_randbelow n g) < n)%nat;
  (** [sys.maxsize], the largest length [read] takes. *)
  rt_maxsize : Z;
  rt_maxsize_pos : 0 < rt_maxsize;
  (** The exception [read(n)] raises when it cannot get a buffer of [n]
      bytes for data that has not arrived yet ([MemoryError], or
      [OverflowError] next to [sys.maxsize]), if it cannot. *)
  rt_alloc : Z -> option exn;
  (** [print(f"{v}")]: the exception raised when [str(v)] cannot be
      formatted or written to standard output (a [str] that holds a lone
      surrogate, which UTF-8 does not encode), if it cannot be. *)
  rt_unprintable : value -> option exn;
  (** Numbers, [None] and ASCII text are always written; *)
  rt_prints_scalar : forall v, is_scalar v = true -> rt_unprintable v = None;
  rt_prints_ascii :
    forall s, ascii_only s = true -> rt_unprintable (PyStr s) = None;
  (** and what [print] raises is an [Exception], and no [JSONDecodeError]. *)
  rt_print_raises :
    forall v e, rt_unprintable v = Some e ->
      isinstance e Exception = true /\ isinstance e JSONDecodeError = false
}.

(** A reading of the system clock: the fields of [datetime.now()] and the
    value of [int(time.time() * 1000)] at that moment. *)
Record datetime : Type := {
  year : Z; month : Z; day : Z;
  hour : Z; minute : Z; second : Z; microsecond : Z
}.

Record Instant : Type := { local : datetime; epoch_millis : Z }.

(** What the process does that can be seen from outside, in order. *)
Inductive event : Type :=
| Print (l : line)                       (* print(...) *)
| Sleep (ms : Z)                         (* time.sleep(ms / 1000.0) *)
| SendResponse (code : Z)                (* status line, Server and Date *)
| SendHeader (keyword text : string)
| EndHeaders
| WriteJson (payload : value)            (* wfile.write(json.dumps(payload).encode('utf-8')) *)
| SendError (code : Z) (message : string)(* the error response of the base class *)
| HandleError (e : exn)                  (* socketserver reports e and drops the connection *)
| Bind (host : string) (port : Z)        (* HTTPServer((host, port), ...) *)
| Shutdown                               (* httpd.shutdown() *)
| ServerClose.                           (* httpd.server_close() *)

Record World {R : Runtime} : Type := {
  entropy : rng;
  clock : nat -> Instant;
  ticks : nat;
  events : list event
}.

(** A running piece of code: the memory it owns and the world around it. *)
Record Proc {R : Runtime} (L : Type) : Type := { mem : L; world : World }.

Arguments Build_Proc {R L} _ _.
Arguments mem {R L} _.
Arguments world {R L} _.

(** ** Computations that may raise

    A raised exception keeps the state reached so far, as in Python. *)
Inductive result (A : Type) : Type :=
| Returned (a : A)
| Raised (e : exn).

Arguments Returned {A} _.
Arguments Raised {A} _.

Definition Comp (S A : Type) : Type := S -> result A * S.

Definition ret {S A} (a : A) : Comp S A := fun s => (Returned a, s).

Definition bind {S A B} (c : Comp S A) (k : A -> Comp S B) : Comp S B :=
  fun s =>
    match c s with
    | (Returned a, s') => k a s'
    | (Raised e, s') => (Raised e, s')
    end.

Definition raise {S A} (e : exn) : Comp S A := fun s => (Raised e, s).

(** [try: body  except target as e: handler e]. *)
Definition try_except {S A} (body : Comp S A) (target : exn_class)
           (handler : exn -> Comp S A) : Comp S A :=
  fun s =>
    match body s with
    | (Returned a, s') => (Returned a, s')
    | (Raised e, s') =>
        if isinstance e target then handler e s' else (Raised e, s')
    end.

(** The result of a library call, raised or returned. *)
Definition lift {S A} (r : exn + A) : Comp S A :=
  match r with
  | inl e => raise e
  | inr a => ret a
  end.

(** [for x in xs: body x]. *)
Fixpoint for_each {S A} (xs : list A) (body : A -> Comp S unit) : Comp S unit :=
  match xs with
  | [] => ret tt
  | x :: rest => bind (body x) (fun _ => for_each rest body)
  end.

Declare Scope comp_scope.
Delimit Scope comp_scope with comp.
Notation "x <- c ;; k" := (bind c (fun x => k))
  (at level 61, c at next level, right associativity) : comp_scope.
Notation "c ;; k" := (bind c (fun _ => k))
  (at level 61, right associativity) : comp_scope.
Local Open Scope comp_scope.

Section WorldOperations.
Context {R : Runtime} {L : Type}.

Definition emit (e : event) : Comp (Proc L) unit :=
  fun p =>
    let w := world p in
    (Returned tt,
     Build_Proc (mem p)
       {| entropy := entropy w; clock := clock w; ticks := ticks w;
          events := events w ++ [e] |}).

(** What goes wrong when the line is formatted and written, if anything
    does: the first value in it that cannot be written.  Literal text,
    the text of an exception, a request line and a time always can. *)
Fixpoint print_error (l : line) : option exn :=
  match l with
  | [] => None
  | Text _ :: rest => print_error rest
  | Fmt v :: rest | FmtSpec v _ :: rest =>
      match rt_unprintable v with
      | Some e => Some e
      | None => print_error rest
      end
  end.

(** [print(f"...")]: the whole line is written, or nothing is and the
    exception is raised. *)
Definition print (l : line) : Comp (Proc L) unit :=
  match print_error l with
  | Some e => raise e
  | None => emit (Print l)
  end.

Definition read_clock : Comp (Proc L) Instant :=
  fun p =>
    let w := world p in
    (Returned (clock w (ticks w)),
     Build_Proc (mem p)
       {| entropy := entropy w; clock := clock w; ticks := S (ticks w);
          events := events w |}).

Definition draw {A} (f : rng -> A * rng) : Comp (Proc L) A :=
  fun p =>
    let w := world p in
    (Returned (fst (f (entropy w))),
     Build_Proc (mem p)
       {| entropy := snd (f (entropy w)); clock := clock w; ticks := ticks w;
          events := events w |}).

Definition get_mem : Comp (Proc L) L := fun p => (Returned (mem p), p).

Definition set_mem (m : L) : Comp (Proc L) unit :=
  fun p => (Returned tt, Build_Proc m (world p)).

End WorldOperations.

(* ===================================================================== *)
(** * The standard modules the scripts import *)
(* ===================================================================== *)

(** Text helpers: the double quote, [s * n], [s[:-n]], zero-padded decimals
    and lower case. *)
Definition dquote : string := String (ascii_of_nat 34) EmptyString.

Fixpoint repeat_string (s : string) (n : nat) : string :=
  match n with
  | O => EmptyString
  | S n' => String.append s (repeat_string s n')
  end.

Definition drop_last (n : nat) (s : string) : string :=
  String.substring 0 (String.length s - n) s.

Definition digit (n : Z) : string :=
  String (ascii_of_nat (48 + Z.to_nat (n mod 10))) EmptyString.

(** The last [width] decimal digits of [n], most significant first. *)
Fixpoint zero_pad (width : nat) (n : Z) : string :=
  match width with
  | O => EmptyString
  | S w => String.append (zero_pad w (n / 10)) (digit n)
  end.

Definition lower_ascii (c : ascii) : ascii :=
  let n := nat_of_ascii c in
  if ((65 <=? n) && (n <=? 90))%nat then ascii_of_nat (n + 32) else c.

Fixpoint lower (s : string) : string :=
  match s with
  | EmptyString => EmptyString
  | String c rest => String (lower_ascii c) (lower rest)
  end.

Definition concat_strings (parts : list string) : string :=
  fold_right String.append EmptyString parts.

Module datetime_.

(** [dt.strftime('%Y-%m-%d %H:%M:%S.%f')]. *)
Definition strftime_full (dt : datetime) : string :=
  concat_strings
    [zero_pad 4 (year dt); "-"; zero_pad 2 (month dt); "-";
     zero_pad 2 (day dt); " "; zero_pad 2 (hour dt); ":";
     zero_pad 2 (minute dt); ":"; zero_pad 2 (second dt); ".";
     zero_pad 6 (microsecond dt)].

(** [dt.strftime('%H:%M:%S')]. *)
Definition strftime_hms (dt : datetime) : string :=
  concat_strings
    [zero_pad 2 (hour dt); ":"; zero_pad 2 (minute dt); ":";
     zero_pad 2 (second dt)].

(** [str(dt)]: the microseconds are left out when they are zero. *)
Definition str (dt : datetime) : string :=
  concat_strings
    [zero_pad 4 (year dt); "-"; zero_pad 2 (month dt); "-";
     zero_pad 2 (day dt); " "; strftime_hms dt;
     if microsecond dt =? 0 then EmptyString
     else String.append "." (zero_pad 6 (microsecond dt))].

(** [datetime.now()]. *)
Definition now {R : Runtime} {L} : Comp (Proc L) datetime :=
  i <- read_clock ;; ret (local i).

End datetime_.

Module time.

(** [time.sleep(ms / 1000.0)], for a delay the platform's clock can hold. *)
Definition sleep_ms {R : Runtime} {L} (ms : Z) : Comp (Proc L) unit :=
  emit (Sleep ms).

(** [int(time.time() * 1000)]. *)
Definition time_millis {R : Runtime} {L} : Comp (Proc L) Z :=
  i <- read_clock ;; ret (epoch_millis i).

End time.

Module random.

(** [random.random()]. *)
Definition random {R : Runtime} {L} : Comp (Proc L) float := draw rt_random.

(** [random.choice(seq)]: [seq[randbelow(len(seq))]]. *)
Definition choice {R : Runtime} {L A} (seq : list A) : Comp (Proc L) A :=
  match seq with
  | [] => raise {| cls := IndexError;
                   msg := "Cannot choose from an empty sequence" |}
  | x :: _ =>
      i <- draw (rt_randbelow (List.length seq)) ;;
      ret (nth i seq x)
  end.

End random.

Module json.

(** [json.loads(s)]. *)
Definition loads {R : Runtime} {S} (s : string) : Comp S value :=
  lift (rt_loads s).

End json.

(** The exception of a method call on a value that has no such method. *)
Definition no_attribute (v : value) (name : string) : exn :=
  {| cls := AttributeError;
     msg := concat_strings
              ["'"; type_name v; "' object has no attribute '"; name; "'"] |}.

(** [v.get(key, default)]: only a dict has the method. *)
Definition method_get {S} (v : value) (key : string) (default : value)
  : Comp S value :=
  match v with
  | PyDict d => ret (dict_get d key default)
  | _ => raise (no_attribute v "get")
  end.

(** [v.items()]: only a dict has the method. *)
Definition method_items {S} (v : value) : Comp S (list (string * value)) :=
  match v with
  | PyDict d => ret d
  | _ => raise (no_attribute v "items")
  end.

(** [v[key]] for a key the caller has just seen through [get]. *)
Definition subscript {S} (v : value) (key : string) : Comp S value :=
  match v with
  | PyDict d =>
      match lookup d key with
      | Some x => ret x
      | None => raise {| cls := KeyError; msg := key |}
      end
  | _ => raise {| cls := TypeError;
                  msg := concat_strings
                           ["'"; type_name v; "' object is not subscriptable"] |}
  end.

(* ===================================================================== *)
(** * http.server: what a handler method sees and can call *)
(* ===================================================================== *)

(** The stream the request body is read from: the bytes the client sends
    after the headers before it stops sending, or the exception reading
    the connection raises. *)
Inductive Rfile : Type :=
| Incoming (data : list Byte.byte)
| Broken (e : exn).

(** The stream the response is written to: the client takes what is
    written, or writing raises (the client has gone: [BrokenPipeError],
    [ConnectionResetError]). *)
Inductive Wfile : Type :=
| Accepting
| Failing (e : exn).

(** One parsed request, as the attributes of the handler instance. *)
Record Request : Type := {
  command : string;
  path : string;
  request_version : string;
  headers : list (string * string);
  rfile : Rfile;
  wfile : Wfile
}.

Definition requestline (req : Request) : string :=
  concat_strings [command req; " "; path req; " "; request_version req].

(** [self.headers.get(name)]: header names compare without case, the first
    match wins. *)
Fixpoint headers_get (hs : list (string * string)) (name : string)
  : option string :=
  match hs with
  | [] => None
  | (k, v) :: rest =>
      if String.eqb (lower k) (lower name) then Some v else headers_get rest name
  end.

Section BaseHTTPRequestHandler.
Context {R : Runtime} {L : Type}.

(** [self.rfile.read(n)] on the buffered reader of the socket.  The length
    is checked first: below -1 it is a [ValueError], above [sys.maxsize] an
    [OverflowError].  Reading nothing does not touch the connection; -1
    reads all there is; [n] bytes that have arrived are returned as they
    are; for more than has arrived a buffer of [n] bytes is allocated
    before the connection is read to its end. *)
Definition rfile_read (f : Rfile) (n : Z) : exn + list Byte.byte :=
  if n <? -1 then
    inl {| cls := ValueError;
           msg := "read length must be non-negative or -1" |}
  else if rt_maxsize <? n then
    inl {| cls := OverflowError;
           msg := "cannot fit 'int' into an index-sized integer" |}
  else if n =? 0 then inr []
  else if n =? -1 then
    match f with
    | Incoming data => inr data
    | Broken e => inl e
    end
  else
    match f with
    | Incoming data =>
        if n <=? Z.of_nat (List.length data) then inr (firstn (Z.to_nat n) data)
        else
          match rt_alloc n with
          | Some e => inl e
          | None => inr data
          end
    | Broken e =>
        match rt_alloc n with
        | Some e' => inl e'
        | None => inl e
        end
    end.

(** The subclass's [log_message(format, *args)]; the argument is
    [format % args]. *)
Variable log_message : line -> Comp (Proc L) unit.
Variable req : Request.

(** [int(self.headers.get('Content-Length', 0))]. *)
Definition content_length_header : Comp (Proc L) Z :=
  match headers_get (headers req) "Content-Length" with
  | None => ret 0
  | Some s => lift (rt_int s)
  end.

Definition log_request (code : Z) : Comp (Proc L) unit :=
  log_message [Text dquote; Text (requestline req); Text dquote; Text " ";
               Fmt (PyInt code); Text " "; Text "-"].

Definition log_error (l : line) : Comp (Proc L) unit := log_message l.

(** [self.wfile.write(...)]: the bytes reach the client, or the write
    raises. *)
Definition write (e : event) : Comp (Proc L) unit :=
  match wfile req with
  | Accepting => emit e
  | Failing x => raise x
  end.

(** A line put in the headers buffer.  [end_headers] writes the buffer
    out: the line is in the trace, where it was put, when the client takes
    that write, and it never reaches the client when that write fails. *)
Definition buffer (e : event) : Comp (Proc L) unit :=
  match wfile req with
  | Accepting => emit e
  | Failing _ => ret tt
  end.

Definition send_response (code : Z) : Comp (Proc L) unit :=
  log_request code ;; buffer (SendResponse code).

Definition send_header (keyword text : string) : Comp (Proc L) unit :=
  buffer (SendHeader keyword text).

Definition end_headers : Comp (Proc L) unit := write EndHeaders.

(** [self.wfile.write(json.dumps(v).encode('utf-8'))]. *)
Definition write_json (v : value) : Comp (Proc L) unit := write (WriteJson v).

(** [self.send_error(code, message)]: logged twice, then the status line,
    [Connection: close] and the HTML page quoting [code] and [message]
    are written. *)
Definition send_error (code : Z) (message : string) : Comp (Proc L) unit :=
  log_error [Text "code "; Fmt (PyInt code); Text ", message "; Text message] ;;
  log_request code ;;
  write (SendError code message).

(** [handle_one_request] once the request line and headers are parsed:
    the method named [do_<command>] runs, and a command without one is
    answered 501. *)
Definition handle_one_request (do_POST do_PUT : Comp (Proc L) unit)
  : Comp (Proc L) unit :=
  if String.eqb (command req) "POST" then do_POST
  else if String.eqb (command req) "PUT" then do_PUT
  else send_error 501 (concat_strings
                         ["Unsupported method ('"; command req; "')"]).

End BaseHTTPRequestHandler.

(** [serve_forever]: for every connection the server calls
    [RequestHandlerClass(request, client_address, self)], so each one gets
    a handler instance of its own (socketserver's [finish_request]); an
    [Exception] that escapes it is reported by [handle_error] and the loop
    goes on.  Neither script changes [protocol_version], which stays
    HTTP/1.0: a connection carries one request.  The run ends when the
    operator interrupts the process. *)
Fixpoint serve_forever {R : Runtime}
         (RequestHandlerClass : Request -> Comp World unit)
         (incoming : list Request) : Comp World unit :=
  match incoming with
  | [] => raise {| cls := KeyboardInterrupt; msg := EmptyString |}
  | req :: rest =>
      fun w =>
        match RequestHandlerClass req w with
        | (Returned _, w') => serve_forever RequestHandlerClass rest w'
        | (Raised e, w') =>
            if isinstance e Exception then
              serve_forever RequestHandlerClass rest
                {| entropy := entropy w'; clock := clock w'; ticks := ticks w';
                   events := events w' ++ [HandleError e] |}
            else (Raised e, w')
        end
  end.

(** Code that has no memory of its own runs directly on the world. *)
Definition on_world {R : Runtime} (c : Comp (Proc unit) unit) : Comp World unit :=
  fun w => let (r, p) := c (Build_Proc tt w) in (r, world p).

(** [print(...)] and the other effects of a script outside any handler. *)
Definition say {R : Runtime} (l : line) : Comp World unit := on_world (print l).
Definition tell {R : Runtime} (e : event) : Comp World unit := on_world (emit e).

(* ===================================================================== *)
(** * transaction-test-server.py: the fault-injection server *)
(* ===================================================================== *)

Module TransactionTestServer.
Section WithRuntime.
Context {R : Runtime}.

(** The attributes [__init__] gives a handler instance. *)
Record TransactionTestHandler : Type := {
  fail_rate : float;
  delay_ms : Z;
  request_count : Z
}.

(** The instance and the one local variable of [do_POST] that is read
    before it is surely assigned: [None] while [timestamp] is unbound. *)
Record Frame : Type := {
  self : TransactionTestHandler;
  timestamp : option string
}.

Definition get_self : Comp (Proc Frame) TransactionTestHandler :=
  f <- get_mem ;; ret (self f).

(** [self.request_count += 1]. *)
Definition increment_request_count : Comp (Proc Frame) unit :=
  f <- get_mem ;;
  set_mem {| self := {| fail_rate := fail_rate (self f);
                        delay_ms := delay_ms (self f);
                        request_count := request_count (self f) + 1 |};
             timestamp := timestamp f |}.

(** [timestamp = ts]. *)
Definition assign_timestamp (ts : string) : Comp (Proc Frame) unit :=
  f <- get_mem ;; set_mem {| self := self f; timestamp := Some ts |}.

(** An occurrence of the name [timestamp] in an expression. *)
Definition load_timestamp : Comp (Proc Frame) string :=
  f <- get_mem ;;
  match timestamp f with
  | Some ts => ret ts
  | None =>
      raise {| cls := UnboundLocalError;
               msg := "cannot access local variable 'timestamp' where it is not associated with a value" |}
  end.

(** A call of [do_POST] starts with [timestamp] unbound. *)
Definition enter_frame : Comp (Proc Frame) unit :=
  f <- get_mem ;; set_mem {| self := self f; timestamp := None |}.

(** [log_message]: the body is [pass]. *)
Definition log_message (_ : line) : Comp (Proc Frame) unit := ret tt.

Definition failure_types : list (Z * string) :=
  [ (500, "Internal Server Error");
    (503, "Service Unavailable");
    (502, "Bad Gateway");
    (504, "Gateway Timeout") ].

(** [do_POST], lines 37-45: read the request body and take the message id
    out of it. *)
Definition read_message_id (req : Request) : Comp (Proc Frame) value :=
  (* Read request body *)
  content_length <- content_length_header req ;;
  raw <- lift (rfile_read (rfile req) content_length) ;;
  request_body <- lift (rt_decode raw) ;;
  (* Parse JSON if possible *)
  try_except
    (message_data <- json.loads request_body ;;
     method_get message_data "messageId" (PyStr "unknown"))
    JSONDecodeError
    (fun _ => ret (PyStr "unknown")).

(** [do_POST], lines 50-72: the branch taken when [should_fail] holds. *)
Definition failure_response (req : Request) (message_id : value)
  : Comp (Proc Frame) unit :=
  (* Simulate various types of failures *)
  choice <- random.choice failure_types ;;
  let status_code := fst choice in
  let status_message := snd choice in
  ts <- load_timestamp ;;
  me <- get_self ;;
  print [Text "["; Text ts; Text "] FAILURE ";
         Fmt (PyInt (request_count me)); Text ": ";
         Fmt (PyInt status_code); Text " "; Text status_message;
         Text " for message "; Fmt message_id] ;;
  send_response log_message req status_code ;;
  send_header req "Content-Type" "application/json" ;;
  end_headers req ;;
  ts <- load_timestamp ;;
  me <- get_self ;;
  write_json req
    (PyDict [ ("error", PyStr status_message);
              ("timestamp", PyStr ts);
              ("messageId", message_id);
              ("requestCount", PyInt (request_count me)) ]).

(** [do_POST], lines 75-90: the other branch. *)
Definition success_response (req : Request) (message_id : value)
  : Comp (Proc Frame) unit :=
  (* Success response *)
  ts <- load_timestamp ;;
  me <- get_self ;;
  print [Text "["; Text ts; Text "] SUCCESS ";
         Fmt (PyInt (request_count me)); Text ": Message ";
         Fmt message_id; Text " processed successfully"] ;;
  send_response log_message req 200 ;;
  send_header req "Content-Type" "application/json" ;;
  end_headers req ;;
  ts <- load_timestamp ;;
  me <- get_self ;;
  write_json req
    (PyDict [ ("status", PyStr "success");
              ("timestamp", PyStr ts);
              ("messageId", message_id);
              ("requestCount", PyInt (request_count me));
              ("message", PyStr "Message processed successfully") ]).

(** [do_POST], lines 92-104: the body of [except Exception as e]. *)
Definition exception_response (req : Request) (e : exn)
  : Comp (Proc Frame) unit :=
  ts <- load_timestamp ;;
  me <- get_self ;;
  print [Text "["; Text ts; Text "] ERROR ";
         Fmt (PyInt (request_count me));
         Text ": Exception processing request: "; Text (msg e)] ;;
  send_response log_message req 500 ;;
  send_header req "Content-Type" "application/json" ;;
  end_headers req ;;
  ts <- load_timestamp ;;
  me <- get_self ;;
  write_json req
    (PyDict [ ("error", PyStr (String.append "Server exception: " (msg e)));
              ("timestamp", PyStr ts);
              ("requestCount", PyInt (request_count me)) ]).

Definition do_POST (req : Request) : Comp (Proc Frame) unit :=
  enter_frame ;;
  increment_request_count ;;
  (* Add artificial delay if configured *)
  me <- get_self ;;
  (if 0 <? delay_ms me then time.sleep_ms (delay_ms me) else ret tt) ;;
  (* Determine if this request should fail *)
  r <- random.random ;;
  me <- get_self ;;
  let should_fail := PrimFloat.ltb r (fail_rate me) in
  try_except
    (message_id <- read_message_id req ;;
     now <- datetime_.now ;;
     assign_timestamp (drop_last 3 (datetime_.strftime_full now)) ;;
     if should_fail then failure_response req message_id
     else success_response req message_id)
    Exception
    (exception_response req).

(** Delegate PUT requests to POST handler. *)
Definition do_PUT (req : Request) : Comp (Proc Frame) unit := do_POST req.

(** [TransactionTestHandler(request, client_address, server,
    fail_rate=..., delay_ms=...)]: the attributes are set, then the base
    class's [__init__] serves the request of the connection. *)
Definition __init__ (req : Request) (fail_rate0 : float) (delay_ms0 : Z)
  : Comp World unit :=
  fun w =>
    let me := {| fail_rate := fail_rate0; delay_ms := delay_ms0;
                 request_count := 0 |} in
    let (r, p) :=
      handle_one_request log_message req (do_POST req) (do_PUT req)
        (Build_Proc {| self := me; timestamp := None |} w) in
    (r, world p).

Definition create_handler (fail_rate0 : float) (delay_ms0 : Z)
  : Request -> Comp World unit :=
  fun req => __init__ req fail_rate0 delay_ms0.

(** The namespace [parser.parse_args()] returns. *)
Record Args : Type := {
  port : Z;
  args_fail_rate : float;
  args_delay_ms : Z;
  demo : bool
}.

(** [sys.exit(1)]. *)
Definition sys_exit_1 {S} : Comp S unit :=
  raise {| cls := SystemExit; msg := "1" |}.

Definition main (args : Args) (incoming : list Request) : Comp World unit :=
  args <-
    (if demo args then
       say [Text "Demo mode: 30% failure rate, 500ms delay"] ;;
       ret {| port := port args; args_fail_rate := 0.3%float;
              args_delay_ms := 500; demo := demo args |}
     else ret args) ;;
  (* Validate fail rate *)
  (if negb (PrimFloat.leb 0 (args_fail_rate args)
            && PrimFloat.leb (args_fail_rate args) 1)
   then
     say [Text "Error: fail-rate must be between 0.0 and 1.0"] ;;
     sys_exit_1
   else ret tt) ;;
  let handler := create_handler (args_fail_rate args) (args_delay_ms args) in
  try_except
    (tell (Bind "localhost" (port args)) ;;
     say [Text "Transaction Rollback Test Server starting..."] ;;
     say [Text "  Port: "; Fmt (PyInt (port args))] ;;
     say [Text "  Failure Rate: ";
          FmtSpec (PyFloat (args_fail_rate args)) ".1%"] ;;
     say [Text "  Delay: "; Fmt (PyInt (args_delay_ms args)); Text "ms"] ;;
     say [Text "  URL: http://localhost:"; Fmt (PyInt (port args));
          Text "/api/jms-messages"] ;;
     say [] ;;
     say [Text "This server will simulate HTTP callback failures to test JMS transaction rollback."] ;;
     say [Text "Configure your JMS listener with:"] ;;
     say [Text "  http.callback.url=http://localhost:";
          Fmt (PyInt (port args)); Text "/api/jms-messages"] ;;
     say [Text "  jms.session.transacted=true"] ;;
     say [] ;;
     say [Text "Press Ctrl+C to stop..."] ;;
     say [] ;;
     serve_forever handler incoming)
    KeyboardInterrupt
    (fun _ =>
       say [Text (String (ascii_of_nat 10) "Shutting down server...")] ;;
       tell Shutdown ;;
       tell ServerClose ;;
       say [Text "Server stopped."]).

End WithRuntime.
End TransactionTestServer.

(* ===================================================================== *)
(** * test-http-server.py: the echo logger *)
(* ===================================================================== *)

Module TestHttpServer.
Section WithRuntime.
Context {R : Runtime}.

(** [JMSMessageHandler] adds no attribute of its own. *)
Definition JMSMessageHandler : Type := unit.

Definition rule (n : nat) : string := repeat_string "=" n.

(** Custom logging to reduce noise. *)
Definition log_message (l : line) : Comp (Proc JMSMessageHandler) unit :=
  now <- datetime_.now ;;
  print ([Text "["; Text (datetime_.strftime_hms now); Text "] "] ++ l).

(** [do_POST], lines 20-40: log the received message. *)
Definition log_received (message_data : value)
  : Comp (Proc JMSMessageHandler) unit :=
  print [Text (String (ascii_of_nat 10) (rule 50))] ;;
  now <- datetime_.now ;;
  print [Text "HTTP Callback Received at "; Text (datetime_.str now)] ;;
  print [Text (rule 50)] ;;
  v <- method_get message_data "messageId" (PyStr "N/A") ;;
  print [Text "Message ID: "; Fmt v] ;;
  v <- method_get message_data "messageType" (PyStr "N/A") ;;
  print [Text "Message Type: "; Fmt v] ;;
  v <- method_get message_data "contentType" (PyStr "N/A") ;;
  print [Text "Content Type: "; Fmt v] ;;
  v <- method_get message_data "content" (PyStr "N/A") ;;
  print [Text "Content: "; Fmt v] ;;
  v <- method_get message_data "correlationId" PyNone ;;
  (if truthy v then
     c <- subscript message_data "correlationId" ;;
     print [Text "Correlation ID: "; Fmt c]
   else ret tt) ;;
  v <- method_get message_data "properties" PyNone ;;
  (if truthy v then
     print [Text "Properties:"] ;;
     props <- subscript message_data "properties" ;;
     items <- method_items props ;;
     for_each items
       (fun kv => print [Text "  "; Fmt (PyStr (fst kv)); Text ": ";
                         Fmt (snd kv)])
   else ret tt) ;;
  v <- method_get message_data "jmsTimestamp" (PyStr "N/A") ;;
  print [Text "JMS Timestamp: "; Fmt v] ;;
  v <- method_get message_data "priority" (PyStr "N/A") ;;
  print [Text "Priority: "; Fmt v] ;;
  v <- method_get message_data "deliveryMode" (PyStr "N/A") ;;
  print [Text "Delivery Mode: "; Fmt v] ;;
  print [Text (rule 50)].

(** [do_POST], lines 42-54: send the success response. *)
Definition send_success (req : Request) (message_data : value)
  : Comp (Proc JMSMessageHandler) unit :=
  send_response log_message req 200 ;;
  send_header req "Content-type" "application/json" ;;
  end_headers req ;;
  message_id <- method_get message_data "messageId" PyNone ;;
  millis <- time.time_millis ;;
  write_json req
    (PyDict [ ("status", PyStr "success");
              ("message", PyStr "Message processed successfully");
              ("messageId", message_id);
              ("timestamp", PyInt millis) ]).

Definition do_POST (req : Request) : Comp (Proc JMSMessageHandler) unit :=
  try_except
    ((* Get content length *)
     content_length <- content_length_header req ;;
     (* Read the POST data *)
     post_data <- lift (rfile_read (rfile req) content_length) ;;
     (* Parse JSON *)
     try_except
       (text <- lift (rt_decode post_data) ;;
        message_data <- json.loads text ;;
        log_received message_data ;;
        send_success req message_data)
       JSONDecodeError
       (fun e =>
          print [Text "ERROR: Invalid JSON received: "; Text (msg e)] ;;
          send_error log_message req 400 "Invalid JSON"))
    Exception
    (fun e =>
       print [Text "ERROR: Exception processing request: "; Text (msg e)] ;;
       send_error log_message req 500 "Internal server error").

(** Handle PUT requests the same way as POST. *)
Definition do_PUT (req : Request) : Comp (Proc JMSMessageHandler) unit :=
  do_POST req.

(** [JMSMessageHandler(request, client_address, server)]: the inherited
    [__init__] serves the request of the connection. *)
Definition __init__ (req : Request) : Comp World unit :=
  on_world
    (handle_one_request log_message req (do_POST req) (do_PUT req)).


End WithRuntime.
End TestHttpServer.

(* ===================================================================== *)
(** * An executable runtime *)
(* ===================================================================== *)

(** One implementation of [Runtime], to run the handlers on concrete
    requests.  A [str] is held as its UTF-8 encoding, a lone surrogate as
    the three bytes that scheme would give it.  The decoder reads the JSON
    of RFC 8259 except fractions and exponents, which it reports as
    [NotImplementedError]; messages carry no position.  The generator
    replays a queue of raw 53-bit outputs.  Standard output is strict
    UTF-8: a [str] with a lone surrogate cannot be printed.  A buffer of up
    to 2 GiB can be allocated; a larger one is a [MemoryError], and one
    within 33 bytes of [sys.maxsize] an [OverflowError]. *)
Module Reference.

Definition value_error (m : string) : exn := {| cls := ValueError; msg := m |}.
Definition json_error (m : string) : exn := {| cls := JSONDecodeError; msg := m |}.
Definition unsupported (m : string) : exn :=
  {| cls := NotImplementedError; msg := m |}.

Definition code (c : ascii) : Z := Z.of_nat (nat_of_ascii c).

Definition is_digit (c : ascii) : bool := (48 <=? code c) && (code c <=? 57).

(** ** [int] *)

Definition is_space (c : ascii) : bool :=
  (code c =? 32) || ((9 <=? code c) && (code c <=? 13)).

Fixpoint lstrip (s : list ascii) : list ascii :=
  match s with
  | c :: rest => if is_space c then lstrip rest else s
  | [] => []
  end.

Definition strip (s : list ascii) : list ascii :=
  rev (lstrip (rev (lstrip s))).

(** Digits, single underscores allowed between them. *)
Fixpoint digits (s : list ascii) (acc : Z) (after_digit : bool) : option Z :=
  match s with
  | [] => if after_digit then Some acc else None
  | c :: rest =>
      if is_digit c then digits rest (10 * acc + (code c - 48)) true
      else if (code c =? 95) && after_digit then
             match rest with
             | [] => None
             | _ => digits rest acc false
             end
           else None
  end.

Definition py_int (s : string) : exn + Z :=
  let bad := inl (value_error
                    (concat_strings
                       ["invalid literal for int() with base 10: '"; s; "'"])) in
  match strip (list_ascii_of_string s) with
  | [] => bad
  | c :: rest =>
      if code c =? 45 then
        match digits rest 0 false with Some n => inr (- n) | None => bad end
      else if code c =? 43 then
        match digits rest 0 false with Some n => inr n | None => bad end
      else
        match digits (c :: rest) 0 false with Some n => inr n | None => bad end
  end.

(** ** [bytes.decode('utf-8')] *)

Definition byte_code (b : Byte.byte) : Z := Z.of_N (Byte.to_N b).

Definition between (lo hi : Z) (b : Byte.byte) : bool :=
  (lo <=? byte_code b) && (byte_code b <=? hi).

(** Well-formed UTF-8 byte sequences (Unicode, table 3-7). *)
Fixpoint well_formed (fuel : nat) (bs : list Byte.byte) : bool :=
  match fuel with
  | O => match bs with [] => true | _ => false end
  | S fuel' =>
      match bs with
      | [] => true
      | b0 :: rest =>
          if between 0 127 b0 then well_formed fuel' rest
          else
            match rest with
            | b1 :: rest1 =>
                if between 194 223 b0 && between 128 191 b1
                then well_formed fuel' rest1
                else
                  match rest1 with
                  | b2 :: rest2 =>
                      if ((between 224 224 b0 && between 160 191 b1)
                          || (between 225 236 b0 && between 128 191 b1)
                          || (between 237 237 b0 && between 128 159 b1)
                          || (between 238 239 b0 && between 128 191 b1))
                         && between 128 191 b2
                      then well_formed fuel' rest2
                      else
                        match rest2 with
                        | b3 :: rest3 =>
                            ((between 240 240 b0 && between 144 191 b1)
                             || (between 241 243 b0 && between 128 191 b1)
                             || (between 244 244 b0 && between 128 143 b1))
                            && between 128 191 b2 && between 128 191 b3
                            && well_formed fuel' rest3
                        | [] => false
                        end
                  | [] => false
                  end
            | [] => false
            end
      end
  end.

Definition utf8_decode (bs : list Byte.byte) : exn + string :=
  if well_formed (List.length bs) bs then inr (string_of_list_byte bs)
  else inl {| cls := UnicodeDecodeError;
              msg := "'utf-8' codec can't decode bytes: invalid data" |}.

(** ** [json.loads] *)

Definition is_json_space (c : ascii) : bool :=
  (code c =? 32) || (code c =? 9) || (code c =? 10) || (code c =? 13).

Fixpoint skip_space (s : list ascii) : list ascii :=
  match s with
  | c :: rest => if is_json_space c then skip_space rest else s
  | [] => []
  end.

(** The value of a hexadecimal digit. *)
Definition hex_digit (c : ascii) : option Z :=
  if is_digit c then Some (code c - 48)
  else if (97 <=? code c) && (code c <=? 102) then Some (code c - 87)
  else if (65 <=? code c) && (code c <=? 70) then Some (code c - 55)
  else None.

Definition hex4 (a b c d : ascii) : option Z :=
  match hex_digit a, hex_digit b, hex_digit c, hex_digit d with
  | Some w, Some x, Some y, Some z => Some (4096 * w + 256 * x + 16 * y + z)
  | _, _, _, _ => None
  end.

Definition is_high_surrogate (cp : Z) : bool := (55296 <=? cp) && (cp <=? 56319).
Definition is_low_surrogate (cp : Z) : bool := (56320 <=? cp) && (cp <=? 57343).

Definition char_of (n : Z) : ascii := ascii_of_nat (Z.to_nat n).

(** The bytes of a code point, surrogates included. *)
Definition utf8_encode (cp : Z) : list ascii :=
  if cp <? 128 then [char_of cp]
  else if cp <? 2048 then [char_of (192 + cp / 64); char_of (128 + cp mod 64)]
  else if cp <? 65536 then
    [char_of (224 + cp / 4096); char_of (128 + (cp / 64) mod 64);
     char_of (128 + cp mod 64)]
  else
    [char_of (240 + cp / 262144); char_of (128 + (cp / 4096) mod 64);
     char_of (128 + (cp / 64) mod 64); char_of (128 + cp mod 64)].

(** The characters of a string after its opening quote. *)
Fixpoint scan_string (s : list ascii) (acc : list ascii)
  : exn + (string * list ascii) :=
  match s with
  | [] => inl (json_error "Unterminated string starting at")
  | c :: rest =>
      if code c =? 34 then inr (string_of_list_ascii (rev acc), rest)
      else if code c =? 92 then
        match rest with
        | [] => inl (json_error "Unterminated string starting at")
        | e :: rest' =>
            let put (n : nat) := scan_string rest' (ascii_of_nat n :: acc) in
            if code e =? 34 then put 34%nat
            else if code e =? 92 then put 92%nat
            else if code e =? 47 then put 47%nat
            else if code e =? 98 then put 8%nat
            else if code e =? 102 then put 12%nat
            else if code e =? 110 then put 10%nat
            else if code e =? 114 then put 13%nat
            else if code e =? 116 then put 9%nat
            else if code e =? 117 then
              match rest' with
              | h1 :: h2 :: h3 :: h4 :: rest4 =>
                  match hex4 h1 h2 h3 h4 with
                  | None => inl (json_error "Invalid \uXXXX escape")
                  | Some hi =>
                      let alone :=
                        scan_string rest4 (rev (utf8_encode hi) ++ acc) in
                      match rest4 with
                      | b :: u :: l1 :: l2 :: l3 :: l4 :: rest6 =>
                          if is_high_surrogate hi && (code b =? 92)
                             && (code u =? 117)
                          then
                            match hex4 l1 l2 l3 l4 with
                            | Some lo =>
                                if is_low_surrogate lo then
                                  scan_string rest6
                                    (rev (utf8_encode
                                            (65536 + 1024 * (hi - 55296)
                                             + (lo - 56320)))
                                       ++ acc)
                                else alone
                            | None => alone
                            end
                          else alone
                      | _ => alone
                      end
                  end
              | _ => inl (json_error "Invalid \uXXXX escape")
              end
            else inl (json_error "Invalid \escape")
        end
      else if code c <? 32 then inl (json_error "Invalid control character at")
      else scan_string rest (c :: acc)
  end.

Fixpoint scan_digits (s : list ascii) (acc : Z) : Z * list ascii :=
  match s with
  | c :: rest =>
      if is_digit c then scan_digits rest (10 * acc + (code c - 48))
      else (acc, s)
  | [] => (acc, [])
  end.

(** An integer literal: [0] or a digit string without a leading zero. *)
Definition scan_int (s : list ascii) : option (Z * list ascii) :=
  match s with
  | c :: rest =>
      if code c =? 48 then Some (0, rest)
      else if is_digit c then Some (scan_digits s 0)
      else None
  | [] => None
  end.

Definition starts_fraction (s : list ascii) : bool :=
  match s with
  | c :: d :: _ =>
      ((code c =? 46) && is_digit d)
      || (((code c =? 101) || (code c =? 69))
          && (is_digit d || (code d =? 43) || (code d =? 45)))
  | _ => false
  end.

Fixpoint strip_prefix (p s : list ascii) : option (list ascii) :=
  match p, s with
  | [], _ => Some s
  | a :: p', b :: s' => if Ascii.eqb a b then strip_prefix p' s' else None
  | _ :: _, [] => None
  end.

(** [d[key] = v] while the object is being built. *)
Fixpoint dict_set (d : list (string * value)) (key : string) (v : value)
  : list (string * value) :=
  match d with
  | [] => [(key, v)]
  | (k, x) :: rest =>
      if String.eqb k key then (k, v) :: rest
      else (k, x) :: dict_set rest key v
  end.

Definition too_deep : exn :=
  {| cls := RecursionError;
     msg := "maximum recursion depth exceeded while decoding a JSON document" |}.

Definition literal (word : string) (v : value) (s : list ascii)
  : option (value * list ascii) :=
  match strip_prefix (list_ascii_of_string word) s with
  | Some rest => Some (v, rest)
  | None => None
  end.

Definition scan_number (s : list ascii) : exn + (value * list ascii) :=
  let expecting := inl (json_error "Expecting value") in
  let finish (sign : Z) (r : option (Z * list ascii)) :=
    match r with
    | Some (n, rest) =>
        if starts_fraction rest then inl (unsupported "fraction or exponent")
        else inr (PyInt (sign * n), rest)
    | None => expecting
    end in
  match s with
  | c :: rest => if code c =? 45 then finish (-1) (scan_int rest)
                 else finish 1 (scan_int s)
  | [] => expecting
  end.

Definition scan_atom (s : list ascii) : exn + (value * list ascii) :=
  match literal "null" PyNone s with
  | Some r => inr r
  | None =>
  match literal "true" (PyBool true) s with
  | Some r => inr r
  | None =>
  match literal "false" (PyBool false) s with
  | Some r => inr r
  | None =>
  match literal "NaN" (PyFloat PrimFloat.nan) s with
  | Some r => inr r
  | None =>
  match literal "Infinity" (PyFloat PrimFloat.infinity) s with
  | Some r => inr r
  | None =>
  match literal "-Infinity" (PyFloat PrimFloat.neg_infinity) s with
  | Some r => inr r
  | None => scan_number s
  end end end end end end.

(** [scan_value] reads one value; [scan_items] the rest of an array after
    its first bracket or a comma; [scan_members] the rest of an object. *)
Fixpoint scan_value (fuel : nat) (s : list ascii) {struct fuel}
  : exn + (value * list ascii) :=
  match fuel with
  | O => inl too_deep
  | S fuel' =>
      let fix scan_items (budget : nat) (acc : list value) (s : list ascii)
        {struct budget} : exn + (value * list ascii) :=
        match budget with
        | O => inl too_deep
        | S budget' =>
            match scan_value fuel' s with
            | inl e => inl e
            | inr (v, rest) =>
                match skip_space rest with
                | c :: rest' =>
                    if code c =? 44 then
                      scan_items budget' (v :: acc) (skip_space rest')
                    else if code c =? 93 then
                      inr (PyList (rev (v :: acc)), rest')
                    else inl (json_error "Expecting ',' delimiter")
                | [] => inl (json_error "Expecting ',' delimiter")
                end
            end
        end in
      let fix scan_members (budget : nat) (acc : list (string * value))
              (s : list ascii) {struct budget}
        : exn + (value * list ascii) :=
        match budget with
        | O => inl too_deep
        | S budget' =>
            match s with
            | q :: after_quote =>
                if code q =? 34 then
                  match scan_string after_quote [] with
                  | inl e => inl e
                  | inr (key, rest) =>
                      match skip_space rest with
                      | c :: rest' =>
                          if code c =? 58 then
                            match scan_value fuel' (skip_space rest') with
                            | inl e => inl e
                            | inr (v, rest'') =>
                                let acc' := dict_set acc key v in
                                match skip_space rest'' with
                                | d :: rest3 =>
                                    if code d =? 44 then
                                      scan_members budget' acc' (skip_space rest3)
                                    else if code d =? 125 then
                                      inr (PyDict acc', rest3)
                                    else inl (json_error "Expecting ',' delimiter")
                                | [] => inl (json_error "Expecting ',' delimiter")
                                end
                            end
                          else inl (json_error "Expecting ':' delimiter")
                      | [] => inl (json_error "Expecting ':' delimiter")
                      end
                  end
                else inl (json_error
                            "Expecting property name enclosed in double quotes")
            | [] => inl (json_error
                           "Expecting property name enclosed in double quotes")
            end
        end in
      match s with
      | [] => inl (json_error "Expecting value")
      | c :: rest =>
          if code c =? 34 then
            match scan_string rest [] with
            | inl e => inl e
            | inr (str, rest') => inr (PyStr str, rest')
            end
          else if code c =? 91 then
            match skip_space rest with
            | [] => inl (json_error "Expecting value")
            | d :: rest' =>
                if code d =? 93 then inr (PyList [], rest')
                else scan_items (List.length rest) [] (d :: rest')
            end
          else if code c =? 123 then
            match skip_space rest with
            | [] => inl (json_error
                           "Expecting property name enclosed in double quotes")
            | d :: rest' =>
                if code d =? 125 then inr (PyDict [], rest')
                else scan_members (List.length rest) [] (d :: rest')
            end
          else scan_atom s
      end
  end.

Definition json_loads (s : string) : exn + value :=
  let chars := list_ascii_of_string s in
  match scan_value (S (List.length chars)) (skip_space chars) with
  | inl e => inl e
  | inr (v, rest) =>
      match skip_space rest with
      | [] => inr v
      | _ => inl (json_error "Extra data")
      end
  end.

(** ** The generator *)

Definition two53 : Z := 9007199254740992.

Definition next_float (g : list Z) : float * list Z :=
  match g with
  | [] => (0%float, [])
  | k :: g' =>
      (PrimFloat.mul (PrimFloat.of_uint63 (Uint63.of_Z (k mod two53)))
                     0x1p-53%float, g')
  end.

Definition next_index (n : nat) (g : list Z) : nat * list Z :=
  match g with
  | [] => (O, [])
  | k :: g' => (Z.to_nat (k mod Z.of_nat n), g')
  end.

Definition next_index_lt (n : nat) (g : list Z) (Hn : (0 < n)%nat)
  : (fst (next_index n g) < n)%nat.
Proof.
  destruct g as [|k g']; simpl; [exact Hn|].
  pose proof (Z.mod_pos_bound k (Z.of_nat n)). lia.
Qed.

(** ** [read] and [print] *)

Definition alloc (n : Z) : option exn :=
  if n <=? 2147483648 then None
  else if 9223372036854775807 - 33 <? n
       then Some {| cls := OverflowError; msg := "byte string is too large" |}
       else Some {| cls := MemoryError; msg := EmptyString |}.

Definition cannot_encode : exn :=
  {| cls := UnicodeEncodeError;
     msg := "'utf-8' codec can't encode character: surrogates not allowed" |}.

(** Inside a list or a dict a [str] is shown by its [repr], which
    escapes what cannot be written. *)
Definition unprintable (v : value) : option exn :=
  match v with
  | PyStr s =>
      if well_formed (String.length s) (list_byte_of_string s) then None
      else Some cannot_encode
  | _ => None
  end.

Definition prints_scalar (v : value) (H : is_scalar v = true)
  : unprintable v = None.
Proof. destruct v; try discriminate H; reflexivity. Qed.

Definition ascii_is_one_byte (c : ascii) (H : (nat_of_ascii c <? 128)%nat = true)
  : between 0 127 (byte_of_ascii c) = true.
Proof.
  destruct c as [b0 b1 b2 b3 b4 b5 b6 b7].
  destruct b7; [destruct b0, b1, b2, b3, b4, b5, b6; discriminate H|].
  destruct b0, b1, b2, b3, b4, b5, b6; reflexivity.
Qed.

Definition ascii_well_formed (s : string) (H : ascii_only s = true)
  : well_formed (String.length s) (list_byte_of_string s) = true.
Proof.
  induction s as [|c s IH]; [reflexivity|].
  cbn [ascii_only] in H. apply andb_true_iff in H. destruct H as [Hc Hs].
  change (list_byte_of_string (String c s))
    with (byte_of_ascii c :: list_byte_of_string s).
  cbn [String.length well_formed].
  rewrite (ascii_is_one_byte c Hc). exact (IH Hs).
Qed.

Definition prints_ascii (s : string) (H : ascii_only s = true)
  : unprintable (PyStr s) = None.
Proof. unfold unprintable. rewrite (ascii_well_formed s H). reflexivity. Qed.

Definition print_raises (v : value) (e : exn) (H : unprintable v = Some e)
  : isinstance e Exception = true /\ isinstance e JSONDecodeError = false.
Proof.
  destruct v; try discriminate H. unfold unprintable in H.
  destruct (well_formed _ _); [discriminate H|].
  injection H as <-. split; reflexivity.
Qed.

#[export] Instance runtime : Runtime := {|
  rt_int := py_int;
  rt_decode := utf8_decode;
  rt_loads := json_loads;
  rng := list Z;
  rt_random := next_float;
  rt_randbelow := next_index;
  rt_randbelow_lt := next_index_lt;
  rt_maxsize := 9223372036854775807;
  rt_maxsize_pos := eq_refl;
  rt_alloc := alloc;
  rt_unprintable := unprintable;
  rt_prints_scalar := prints_scalar;
  rt_prints_ascii := prints_ascii;
  rt_print_raises := print_raises
|}.

End Reference.

(* ===================================================================== *)
(** * What is observed of a run *)
(* ===================================================================== *)

(** The status codes sent, in order. *)
Definition status_of (e : event) : list Z :=
  match e with
  | SendResponse c => [c]
  | SendError c _ => [c]
  | _ => []
  end.

Definition statuses (evs : list event) : list Z := flat_map status_of evs.

(** The JSON documents written as response bodies, in order. *)
Definition body_of (e : event) : list value :=
  match e with
  | WriteJson v => [v]
  | _ => []
  end.

Definition bodies (evs : list event) : list value := flat_map body_of evs.

(** What goes to the client, as opposed to the console and the clock. *)
Definition on_wire (e : event) : bool :=
  match e with
  | Print _ | Sleep _ => false
  | _ => true
  end.

Definition wire (evs : list event) : list event := filter on_wire evs.

(** The same request under another method name. *)
Definition with_command (c : string) (req : Request) : Request :=
  {| command := c; path := path req; request_version := request_version req;
     headers := headers req; rfile := rfile req; wfile := wfile req |}.

(** The [requestCount] field of a response body. *)
Definition request_count_of (v : value) : option value :=
  match v with
  | PyDict d => lookup d "requestCount"
  | _ => None
  end.

(** The [messageId] field of a response body. *)
Definition message_id_in (v : value) : option value :=
  match v with
  | PyDict d => lookup d "messageId"
  | _ => None
  end.

(** What a call returns, or raises, when it stops this way. *)
Definition result_of (stop : option exn) : result unit :=
  match stop with
  | Some e => Raised e
  | None => Returned tt
  end.

Section Observations.
Context {R : Runtime}.

(** The events a run added to the trace. *)
Definition added (before after : World) : list event :=
  skipn (List.length (events before)) (events after).

(** The world [n] clock readings and some events later. *)
Definition later (w : World) (n : nat) (new : list event) : World :=
  {| entropy := entropy w; clock := clock w; ticks := n + ticks w;
     events := events w ++ new |}.

(** The process with some events added to the trace. *)
Definition emitted {L} (p : Proc L) (new : list event) : Proc L :=
  Build_Proc (mem p) (later (world p) 0 new).

(** A run that only adds events, each of them satisfying [P]. *)
Definition extends (P : event -> Prop) (before after : World) : Prop :=
  exists new, events after = events before ++ new /\ Forall P new.

(** [int(self.headers.get('Content-Length', 0))], as a value. *)
Definition content_length (req : Request) : exn + Z :=
  match headers_get (headers req) "Content-Length" with
  | None => inr 0
  | Some s => rt_int s
  end.

(** The bytes [self.rfile.read(content_length)] returns. *)
Definition post_data (req : Request) : exn + list Byte.byte :=
  match content_length req with
  | inl e => inl e
  | inr n => rfile_read (rfile req) n
  end.

(** The request body as text. *)
Definition request_body (req : Request) : exn + string :=
  match post_data req with
  | inl e => inl e
  | inr raw => rt_decode raw
  end.

End Observations.

Module FaultRun.
Import TransactionTestServer.
Section WithRuntime.
Context {R : Runtime}.

(** What lines 37-45 of [do_POST] compute. *)
Definition message_id_of (req : Request) : exn + value :=
  match request_body req with
  | inl e => inl e
  | inr text =>
      match rt_loads text with
      | inl e =>
          if isinstance e JSONDecodeError then inr (PyStr "unknown") else inl e
      | inr (PyDict d) => inr (dict_get d "messageId" (PyStr "unknown"))
      | inr v => inl (no_attribute v "get")
      end
  end.

Definition unbound_timestamp : exn :=
  {| cls := UnboundLocalError;
     msg := "cannot access local variable 'timestamp' where it is not associated with a value" |}.

(** The instance after [self.request_count += 1]. *)
Definition counted (h : TransactionTestHandler) : TransactionTestHandler :=
  {| fail_rate := fail_rate h; delay_ms := delay_ms h;
     request_count := request_count h + 1 |}.

Definition pause (h : TransactionTestHandler) : list event :=
  if 0 <? delay_ms h then [Sleep (delay_ms h)] else [].

(** The draw of [random.random()] and the generator after it. *)
Definition the_draw (w : World) : float := fst (rt_random (entropy w)).
Definition after_draw (w : World) : rng := snd (rt_random (entropy w)).

Definition should_fail (h : TransactionTestHandler) (w : World) : bool :=
  PrimFloat.ltb (the_draw w) (fail_rate h).

(** The pair [random.choice(failure_types)] picks after the draw. *)
Definition the_choice (w : World) : Z * string :=
  nth (fst (rt_randbelow 4 (after_draw w))) failure_types
      (500, "Internal Server Error").

Definition after_choice (w : World) : rng :=
  snd (rt_randbelow 4 (after_draw w)).

(** The value assigned to [timestamp]. *)
Definition the_timestamp (w : World) : string :=
  drop_last 3 (datetime_.strftime_full (local (clock w (ticks w)))).

Definition success_events (h : TransactionTestHandler) (w : World)
           (message_id : value) : list event :=
  [ Print [Text "["; Text (the_timestamp w); Text "] SUCCESS ";
           Fmt (PyInt (request_count h + 1)); Text ": Message ";
           Fmt message_id; Text " processed successfully"];
    SendResponse 200;
    SendHeader "Content-Type" "application/json";
    EndHeaders;
    WriteJson
      (PyDict [ ("status", PyStr "success");
                ("timestamp", PyStr (the_timestamp w));
                ("messageId", message_id);
                ("requestCount", PyInt (request_count h + 1));
                ("message", PyStr "Message processed successfully") ]) ].

Definition failure_events (h : TransactionTestHandler) (w : World)
           (message_id : value) : list event :=
  [ Print [Text "["; Text (the_timestamp w); Text "] FAILURE ";
           Fmt (PyInt (request_count h + 1)); Text ": ";
           Fmt (PyInt (fst (the_choice w))); Text " ";
           Text (snd (the_choice w));
           Text " for message "; Fmt message_id];
    SendResponse (fst (the_choice w));
    SendHeader "Content-Type" "application/json";
    EndHeaders;
    WriteJson
      (PyDict [ ("error", PyStr (snd (the_choice w)));
                ("timestamp", PyStr (the_timestamp w));
                ("messageId", message_id);
                ("requestCount", PyInt (request_count h + 1)) ]) ].

(** The console line of a request that is answered as designated. *)
Definition answer_line (h : TransactionTestHandler) (w : World)
           (message_id : value) : line :=
  if should_fail h w
  then [Text "["; Text (the_timestamp w); Text "] FAILURE ";
        Fmt (PyInt (request_count h + 1)); Text ": ";
        Fmt (PyInt (fst (the_choice w))); Text " ";
        Text (snd (the_choice w));
        Text " for message "; Fmt message_id]
  else [Text "["; Text (the_timestamp w); Text "] SUCCESS ";
        Fmt (PyInt (request_count h + 1)); Text ": Message ";
        Fmt message_id; Text " processed successfully"].

(** What the [except] clause prints and sends once [timestamp] is bound. *)
Definition error_line (h : TransactionTestHandler) (w : World) (e : exn)
  : line :=
  [Text "["; Text (the_timestamp w); Text "] ERROR ";
   Fmt (PyInt (request_count h + 1));
   Text ": Exception processing request: "; Text (msg e)].

Definition error_events (h : TransactionTestHandler) (w : World) (e : exn)
  : list event :=
  [ Print (error_line h w e);
    SendResponse 500;
    SendHeader "Content-Type" "application/json";
    EndHeaders;
    WriteJson
      (PyDict [ ("error", PyStr (String.append "Server exception: " (msg e)));
                ("timestamp", PyStr (the_timestamp w));
                ("requestCount", PyInt (request_count h + 1)) ]) ].

(** The process once the body has been used, the timestamp taken and the
    failure row drawn, with the events [new] after the pause. *)
Definition reached (p : Proc Frame) (new : list event) : Proc Frame :=
  let h := self (mem p) in
  let w := world p in
  Build_Proc
    {| self := counted h; timestamp := Some (the_timestamp w) |}
    {| entropy := if should_fail h w then after_choice w else after_draw w;
       clock := clock w;
       ticks := S (ticks w);
       events := events w ++ pause h ++ new |}.

(** The process after a request that was answered as designated. *)
Definition answered (p : Proc Frame) (message_id : value) : Proc Frame :=
  let h := self (mem p) in
  let w := world p in
  Build_Proc
    {| self := counted h; timestamp := Some (the_timestamp w) |}
    {| entropy := if should_fail h w then after_choice w else after_draw w;
       clock := clock w;
       ticks := S (ticks w);
       events := events w ++ pause h ++
                 (if should_fail h w then failure_events h w message_id
                  else success_events h w message_id) |}.

(** The process after a request whose body could not be used. *)
Definition dropped (p : Proc Frame) : Proc Frame :=
  let h := self (mem p) in
  let w := world p in
  Build_Proc
    {| self := counted h; timestamp := None |}
    {| entropy := after_draw w; clock := clock w; ticks := ticks w;
       events := events w ++ pause h |}.

(** The [except Exception] clause entered with [timestamp] bound, after
    the events [sofar]: it prints the ERROR line and answers 500, unless
    the client does not take the response. *)
Definition recovered (req : Request) (p : Proc Frame) (sofar : list event)
           (e : exn) : result unit * Proc Frame :=
  let h := self (mem p) in
  let w := world p in
  if isinstance e Exception then
    match wfile req with
    | Accepting => (Returned tt, reached p (sofar ++ error_events h w e))
    | Failing x =>
        (Raised x, reached p (sofar ++ [Print (error_line h w e)]))
    end
  else (Raised e, reached p sofar).

(** What [do_POST] does, case by case.  An exception of lines 37-45
    reaches the [except] clause, which fails on the unbound [timestamp];
    an exception that is no [Exception] goes straight through.  With the
    body used, the line of the designated answer is printed and the
    response written; when the line cannot be printed, or the client does
    not take the response, the [except] clause runs. *)
Definition fault_outcome (req : Request) (p : Proc Frame)
  : result unit * Proc Frame :=
  let h := self (mem p) in
  let w := world p in
  match message_id_of req with
  | inl e =>
      (Raised (if isinstance e Exception then unbound_timestamp else e),
       dropped p)
  | inr message_id =>
      match rt_unprintable message_id with
      | Some e => recovered req p [] e
      | None =>
          match wfile req with
          | Accepting => (Returned tt, answered p message_id)
          | Failing x =>
              recovered req p [Print (answer_line h w message_id)] x
          end
      end
  end.

(** The handler instance [__init__] sets up, and the answer to a command
    without a method. *)
Definition fresh (rate : float) (delay : Z) (w : World) : Proc Frame :=
  Build_Proc
    {| self := {| fail_rate := rate; delay_ms := delay; request_count := 0 |};
       timestamp := None |}
    w.

Definition unsupported_method (req : Request) : event :=
  SendError 501 (concat_strings ["Unsupported method ('"; command req; "')"]).

(** A response body that reports the first request. *)
Definition counts_one (e : event) : Prop :=
  forall v, e = WriteJson v -> request_count_of v = Some (PyInt 1).

End WithRuntime.
End FaultRun.


Module EchoRun.
Import TestHttpServer.
Section WithRuntime.
Context {R : Runtime}.

(** What [json.loads(post_data.decode('utf-8'))] gives. *)
Definition json_of (raw : list Byte.byte) : exn + value :=
  match rt_decode raw with
  | inl e => inl e
  | inr text => rt_loads text
  end.

(** The prefix [log_message] prints at reading [t] of the clock. *)
Definition at_time (w : World) (t : nat) (l : line) : event :=
  Print ([Text "["; Text (datetime_.strftime_hms (local (clock w t)));
          Text "] "] ++ l).

Definition access_line (req : Request) (w : World) (t : nat) (code : Z)
  : event :=
  at_time w t [Text dquote; Text (requestline req); Text dquote; Text " ";
               Fmt (PyInt code); Text " "; Text "-"].

(** What [send_error(code, message)] logs from reading [t] on, *)
Definition error_log (req : Request) (w : World) (t : nat) (code : Z)
           (message : string) : list event :=
  [ at_time w t [Text "code "; Fmt (PyInt code); Text ", message ";
                 Text message];
    access_line req w (S t) code ].

(** and all it adds when the client takes the response. *)
Definition error_reply (req : Request) (w : World) (t : nat) (code : Z)
           (message : string) : list event :=
  error_log req w t code message ++ [SendError code message].

Definition field_line (label : string) (d : list (string * value))
           (key : string) : line :=
  [Text label; Fmt (dict_get d key (PyStr "N/A"))].

Definition header_lines (w : World) : list line :=
  [ [Text (String (ascii_of_nat 10) (rule 50))];
    [Text "HTTP Callback Received at ";
     Text (datetime_.str (local (clock w (ticks w))))];
    [Text (rule 50)] ].

Definition first_fields (d : list (string * value)) : list line :=
  [ field_line "Message ID: " d "messageId";
    field_line "Message Type: " d "messageType";
    field_line "Content Type: " d "contentType";
    field_line "Content: " d "content" ].

Definition correlation_lines (d : list (string * value)) : list line :=
  if truthy (dict_get d "correlationId" PyNone)
  then [[Text "Correlation ID: "; Fmt (dict_get d "correlationId" PyNone)]]
  else [].

Definition property_line (kv : string * value) : line :=
  [Text "  "; Fmt (PyStr (fst kv)); Text ": "; Fmt (snd kv)].

(** The lines printed for [properties], and the [AttributeError] of
    [.items()] that ends them, if there is one. *)
Definition property_lines (d : list (string * value))
  : list line * option exn :=
  let props := dict_get d "properties" PyNone in
  if truthy props then
    match props with
    | PyDict items =>
        ([Text "Properties:"] :: map property_line items, None)
    | _ => ([[Text "Properties:"]], Some (no_attribute props "items"))
    end
  else ([], None).

Definition last_fields (d : list (string * value)) : list line :=
  [ field_line "JMS Timestamp: " d "jmsTimestamp";
    field_line "Priority: " d "priority";
    field_line "Delivery Mode: " d "deliveryMode";
    [Text (rule 50)] ].

(** Lines printed one after the other: those that were written, and the
    exception of the first that could not be. *)
Fixpoint print_all (ls : list line) : list event * option exn :=
  match ls with
  | [] => ([], None)
  | l :: rest =>
      match print_error l with
      | Some e => ([], Some e)
      | None => (Print l :: fst (print_all rest), snd (print_all rest))
      end
  end.

(** One piece of the console output after another. *)
Definition and_then (a b : list event * option exn)
  : list event * option exn :=
  match snd a with
  | Some _ => a
  | None => (fst a ++ fst b, snd b)
  end.

(** The computation prints what [a] lists and ends as [a] says. *)
Definition plays (c : Comp (Proc JMSMessageHandler) unit)
           (a : list event * option exn) : Prop :=
  forall p, c p = (result_of (snd a), emitted p (fst a)).

(** What [log_received] prints for a parsed body, and the exception that
    stops it, if one does. *)
Definition received (v : value) (w : World) : list event * option exn :=
  match v with
  | PyDict d =>
      and_then (print_all (header_lines w))
        (and_then (print_all (first_fields d))
           (and_then (print_all (correlation_lines d))
              (and_then
                 (and_then (print_all (fst (property_lines d)))
                           ([], snd (property_lines d)))
                 (print_all (last_fields d)))))
  | _ =>
      and_then (print_all (header_lines w)) ([], Some (no_attribute v "get"))
  end.

(** The envelope is one [log_received] has the methods for: an object
    whose [properties], when present and not empty, are an object too. *)
Definition printable (v : value) : bool :=
  match v with
  | PyDict d =>
      match dict_get d "properties" PyNone with
      | PyDict _ => true
      | props => negb (truthy props)
      end
  | _ => false
  end.

(** The lines [log_received] prints from the fields of an envelope. *)
Definition spoken (d : list (string * value)) : list line :=
  first_fields d ++ correlation_lines d ++ fst (property_lines d)
    ++ last_fields d.

Definition writable (l : line) : bool :=
  match print_error l with
  | None => true
  | Some _ => false
  end.

(** Every one of them can be written to standard output. *)
Definition legible (d : list (string * value)) : bool :=
  forallb writable (spoken d).

(** The success response, written from reading [t] of the clock on. *)
Definition success_reply (req : Request) (v : value) (w : World) (t : nat)
  : list event :=
  [ access_line req w t 200;
    SendResponse 200;
    SendHeader "Content-type" "application/json";
    EndHeaders;
    WriteJson
      (PyDict [ ("status", PyStr "success");
                ("message", PyStr "Message processed successfully");
                ("messageId",
                 match v with
                 | PyDict d => dict_get d "messageId" PyNone
                 | _ => PyNone
                 end);
                ("timestamp", PyInt (epoch_millis (clock w (S t)))) ]) ].

(** The console line and the response of an [except] clause, when the
    client takes it. *)
Definition rejected (req : Request) (w : World) (e : exn) : list event :=
  Print [Text "ERROR: Invalid JSON received: "; Text (msg e)]
  :: error_reply req w (ticks w) 400 "Invalid JSON".

Definition failed (req : Request) (w : World) (t : nat) (e : exn)
  : list event :=
  Print [Text "ERROR: Exception processing request: "; Text (msg e)]
  :: error_reply req w t 500 "Internal server error".

(** The [except Exception] clause of [do_POST], entered [n] clock readings
    and the events [lines] after the start; other exceptions go through,
    and so does the exception of the write when the client does not take
    the response. *)
Definition outer (req : Request) (w : World) (n : nat) (lines : list event)
           (e : exn) : result unit * World :=
  if isinstance e Exception then
    match wfile req with
    | Accepting =>
        (Returned tt, later w (2 + n) (lines ++ failed req w (n + ticks w) e))
    | Failing x =>
        (Raised x,
         later w (2 + n)
           (lines
              ++ Print [Text "ERROR: Exception processing request: ";
                        Text (msg e)]
              :: error_log req w (n + ticks w) 500 "Internal server error"))
    end
  else (Raised e, later w n lines).

(** The [except json.JSONDecodeError] clause inside it, entered likewise;
    what it does not catch, and what its own write raises, goes to the
    outer clause. *)
Definition inner (req : Request) (w : World) (n : nat) (lines : list event)
           (e : exn) : result unit * World :=
  if isinstance e JSONDecodeError then
    match wfile req with
    | Accepting =>
        (Returned tt,
         later w (2 + n)
           (lines
              ++ Print [Text "ERROR: Invalid JSON received: "; Text (msg e)]
              :: error_reply req w (n + ticks w) 400 "Invalid JSON"))
    | Failing x =>
        outer req w (2 + n)
          (lines
             ++ Print [Text "ERROR: Invalid JSON received: "; Text (msg e)]
             :: error_log req w (n + ticks w) 400 "Invalid JSON")
          x
    end
  else outer req w n lines e.

(** What [do_POST] does to the world, case by case. *)
Definition echo_outcome (req : Request) (w : World) : result unit * World :=
  match post_data req with
  | inl e => outer req w 0 [] e
  | inr raw =>
      match json_of raw with
      | inl e => inner req w 0 [] e
      | inr v =>
          match snd (received v w) with
          | Some e => inner req w 1 (fst (received v w)) e
          | None =>
              match wfile req with
              | Accepting =>
                  (Returned tt,
                   later w 3 (fst (received v w)
                                ++ success_reply req v w (S (ticks w))))
              | Failing x =>
                  inner req w 2
                    (fst (received v w) ++ [access_line req w (S (ticks w)) 200])
                    x
              end
          end
      end
  end.

End WithRuntime.
End EchoRun.

(** The status the interpreter exits with: 0 when the script runs to its
    end, the argument of [sys.exit], 1 after any other exception. *)
Definition exit_status (r : result unit) : Z :=
  match r with
  | Returned _ => 0
  | Raised e =>
      if exn_class_eqb (cls e) SystemExit then
        match Reference.py_int (msg e) with
        | inr n => n
        | inl _ => 1
        end
      else 1
  end.

Module MainRun.
Import TransactionTestServer.

(** The fail rate once the demo override is applied. *)
Definition resolved_fail_rate (args : Args) : float :=
  if demo args then 0.3%float else args_fail_rate args.

(** [0.0 <= rate <= 1.0]. *)
Definition in_unit_interval (rate : float) : bool :=
  PrimFloat.leb 0 rate && PrimFloat.leb rate 1.

Definition demo_notice : event :=
  Print [Text "Demo mode: 30% failure rate, 500ms delay"].

Definition range_error : event :=
  Print [Text "Error: fail-rate must be between 0.0 and 1.0"].

(** What [main] prints between binding the port and serving. *)
Definition banner (port0 : Z) (rate : float) (delay : Z) : list event :=
  [ Print [Text "Transaction Rollback Test Server starting..."];
    Print [Text "  Port: "; Fmt (PyInt port0)];
    Print [Text "  Failure Rate: "; FmtSpec (PyFloat rate) ".1%"];
    Print [Text "  Delay: "; Fmt (PyInt delay); Text "ms"];
    Print [Text "  URL: http://localhost:"; Fmt (PyInt port0);
           Text "/api/jms-messages"];
    Print [];
    Print [Text "This server will simulate HTTP callback failures to test JMS transaction rollback."];
    Print [Text "Configure your JMS listener with:"];
    Print [Text "  http.callback.url=http://localhost:"; Fmt (PyInt port0);
           Text "/api/jms-messages"];
    Print [Text "  jms.session.transacted=true"];
    Print [];
    Print [Text "Press Ctrl+C to stop..."];
    Print [] ].

(** The delay once the demo override is applied. *)
Definition effective_delay (args : Args) : Z :=
  if demo args then 500 else args_delay_ms args.

(** Everything [main] does before the first connection. *)
Definition startup (args : Args) : list event :=
  (if demo args then [demo_notice] else [])
    ++ Bind "localhost" (port args)
    :: banner (port args) (resolved_fail_rate args) (effective_delay args).

Definition shutdown_events : list event :=
  [ Print [Text (String (ascii_of_nat 10) "Shutting down server...")];
    Shutdown;
    ServerClose;
    Print [Text "Server stopped."] ].

(** The [except KeyboardInterrupt] clause of [main], applied to the way the
    serving loop ended. *)
Definition stop {R : Runtime} (run : result unit * World)
  : result unit * World :=
  match run with
  | (Raised e, w) =>
      if isinstance e KeyboardInterrupt
      then (Returned tt, later w 0 shutdown_events)
      else (Raised e, w)
  | (Returned a, w) => (Returned a, w)
  end.

Definition exit_1 : exn := {| cls := SystemExit; msg := "1" |}.

End MainRun.


(** The status codes of the failure table. *)
Definition failure_statuses : list Z := [500; 503; 502; 504].

Definition is_print (e : event) : Prop :=
  match e with
  | Print _ => True
  | _ => False
  end.

(* ===================================================================== *)
(** * Concrete requests and worlds *)
(* ===================================================================== *)

Module Examples.

(** JSON text is written with apostrophes for its double quotes. *)
Fixpoint json_text (s : string) : string :=
  match s with
  | EmptyString => EmptyString
  | String c rest =>
      String (if Ascii.eqb c "'"%char then ascii_of_nat 34 else c)
             (json_text rest)
  end.

Definition clock0 (n : nat) : Instant :=
  {| local := {| year := 2024; month := 5; day := 17;
                 hour := 9; minute := 30; second := Z.of_nat n mod 60;
                 microsecond := 123456 |};
     epoch_millis := 1715938200123 + 1000 * Z.of_nat n |}.

(** A world with nothing done yet, on the reference runtime, whose
    generator will replay [g]. *)
Definition world0 (g : list Z) : @World Reference.runtime :=
  @Build_World Reference.runtime g clock0 0%nat [].

Definition broken_pipe : exn :=
  {| cls := BrokenPipeError; msg := "[Errno 32] Broken pipe" |}.

(** A request with a [Content-Length] header; a connection that fails
    when it is read does not take a response either. *)
Definition request (method : string) (length : string) (stream : Rfile)
  : Request :=
  {| command := method;
     path := "/api/jms-messages";
     request_version := "HTTP/1.1";
     headers := [ ("Content-Type", "application/json");
                  ("Content-Length", length) ];
     rfile := stream;
     wfile := match stream with
              | Incoming _ => Accepting
              | Broken _ => Failing broken_pipe
              end |}.

Definition sent (s : string) : Rfile := Incoming (list_byte_of_string s).

Definition m1_request : Request :=
  request "POST" "49"
    (sent (json_text "{'messageId':'m1','properties':{'a':'1','b':'2'}}")).

Definition m2_request : Request :=
  request "POST" "18" (sent (json_text "{'messageId':'m2'}")).

Definition bad_json_request : Request :=
  request "POST" "9" (sent "{bad json").



(** A body that is not UTF-8: the single byte 0xFF. *)
Definition bad_utf8_request : Request :=
  request "POST" "1" (Incoming [Byte.xff]).

(** The connection fails while the body is read. *)
Definition connection_reset : exn :=
  {| cls := OSError; msg := "[Errno 104] Connection reset by peer" |}.

Definition broken_request : Request :=
  request "POST" "18" (Broken connection_reset).

(** A message id that is a lone surrogate, which JSON can spell in ASCII. *)
Definition surrogate_request : Request :=
  request "POST" "22" (sent (json_text "{'messageId':'\ud800'}")).

(** A length below -1. *)
Definition negative_length_request : Request :=
  request "POST" "-5" (sent "{bad json").

(** A length no buffer can be had for. *)
Definition huge_length_request : Request :=
  request "POST" "1000000000000000" (sent (json_text "{'messageId':'m2'}")).

(** The client sends its request and leaves without waiting for the
    answer. *)
Definition hung_up_request : Request :=
  {| command := "POST";
     path := "/api/jms-messages";
     request_version := "HTTP/1.1";
     headers := [ ("Content-Type", "application/json");
                  ("Content-Length", "18") ];
     rfile := sent (json_text "{'messageId':'m2'}");
     wfile := Failing broken_pipe |}.

Definition hung_up_bad_json_request : Request :=
  {| command := "POST";
     path := "/api/jms-messages";
     request_version := "HTTP/1.1";
     headers := [ ("Content-Type", "application/json");
                  ("Content-Length", "9") ];
     rfile := sent "{bad json";
     wfile := Failing broken_pipe |}.

(** No [Content-Length] header. *)
Definition no_length_request : Request :=
  {| command := "POST";
     path := "/api/jms-messages";
     request_version := "HTTP/1.1";
     headers := [ ("Content-Type", "application/json") ];
     rfile := sent "{bad json";
     wfile := Accepting |}.


Definition handler0 (rate : float)
  : @TransactionTestServer.TransactionTestHandler :=
  {| TransactionTestServer.fail_rate := rate;
     TransactionTestServer.delay_ms := 0;
     TransactionTestServer.request_count := 0 |}.

Definition fault_proc (rate : float) (g : list Z)
  : @Proc Reference.runtime TransactionTestServer.Frame :=
  Build_Proc
    {| TransactionTestServer.self := handler0 rate;
       TransactionTestServer.timestamp := None |}
    (world0 g).

Definition echo_proc : @Proc Reference.runtime TestHttpServer.JMSMessageHandler :=
  Build_Proc tt (world0 []).

Definition plain_args (rate : float) : TransactionTestServer.Args :=
  {| TransactionTestServer.port := 8080;
     TransactionTestServer.args_fail_rate := rate;
     TransactionTestServer.args_delay_ms := 0;
     TransactionTestServer.demo := false |}.

Definition demo_args : TransactionTestServer.Args :=
  {| TransactionTestServer.port := 9090;
     TransactionTestServer.args_fail_rate := 1.5%float;
     TransactionTestServer.args_delay_ms := 7;
     TransactionTestServer.demo := true |}.

End Examples.

(* ===================================================================== *)
(** * Further observations: console, reports, decision tables *)
(* ===================================================================== *)

(** The lines printed, the exceptions the serving loop reported and the
    pauses taken, in order. *)
Definition line_of (e : event) : list line :=
  match e with
  | Print l => [l]
  | _ => []
  end.

Definition console (evs : list event) : list line := flat_map line_of evs.



Definition sleep_of (e : event) : list Z :=
  match e with
  | Sleep ms => [ms]
  | _ => []
  end.

Definition sleeps (evs : list event) : list Z := flat_map sleep_of evs.

(** How a connection ends, seen from the serving loop: with a status sent
    to the client, or with an exception given to [handle_error]. *)
Definition outcome_of (e : event) : list (Z + exn) :=
  match e with
  | SendResponse c => [inl c]
  | SendError c _ => [inl c]
  | HandleError x => [inr x]
  | _ => []
  end.

Definition outcomes (evs : list event) : list (Z + exn) :=
  flat_map outcome_of evs.

(** What the script does to the server object, as opposed to what a
    handler does on a connection. *)
Definition is_server_event (e : event) : bool :=
  match e with
  | Bind _ _ | Shutdown | ServerClose => true
  | _ => false
  end.

Definition on_connection (e : event) : Prop := is_server_event e = false.

(** The headers and the body that follow a status line. *)
Definition is_payload (e : event) : Prop :=
  match e with
  | SendHeader _ _ | EndHeaders | WriteJson _ => True
  | _ => False
  end.

(** The [timestamp] field of a response body. *)
Definition timestamp_in (v : value) : option value :=
  match v with
  | PyDict d => lookup d "timestamp"
  | _ => None
  end.

(** The request names a method the handlers define. *)
Definition has_method (req : Request) : bool :=
  String.eqb (command req) "POST" || String.eqb (command req) "PUT".


(** A line of literal text and numbers only. *)
Definition plain_piece (x : piece) : bool :=
  match x with
  | Text _ => true
  | Fmt v | FmtSpec v _ => is_scalar v
  end.

Definition plain (l : line) : bool := forallb plain_piece l.

(** Two runs that differ on the console only. *)
Definition same_wire {R : Runtime} (a b : result unit * World) : Prop :=
  fst a = fst b /\
  wire (events (snd a)) = wire (events (snd b)) /\
  ticks (snd a) = ticks (snd b) /\
  entropy (snd a) = entropy (snd b).

Module EchoTable.
Import TestHttpServer EchoRun.
Section WithRuntime.
Context {R : Runtime}.

(** The exception that stops [log_received], if one does: that of the
    first line that cannot be written, or of the method the value does
    not have. *)
Definition stopped (v : value) : option exn :=
  match v with
  | PyDict d =>
      snd (and_then (print_all (first_fields d))
             (and_then (print_all (correlation_lines d))
                (and_then
                   (and_then (print_all (fst (property_lines d)))
                             ([], snd (property_lines d)))
                   (print_all (last_fields d)))))
  | _ => Some (no_attribute v "get")
  end.

(** How the [except Exception] clause of [do_POST] ends for an exception:
    with the status 500, or with what the write raises, or with the
    exception itself when it is no [Exception]. *)
Definition outer_end (req : Request) (e : exn) : Z + exn :=
  if isinstance e Exception then
    match wfile req with
    | Accepting => inl 500
    | Failing x => inr x
    end
  else inr e.

(** The same for the [except json.JSONDecodeError] clause inside it. *)
Definition inner_end (req : Request) (e : exn) : Z + exn :=
  if isinstance e JSONDecodeError then
    match wfile req with
    | Accepting => inl 400
    | Failing x => outer_end req x
    end
  else outer_end req e.

(** How the echo logger's [do_POST] ends, read off its two [except]
    clauses: with one status sent, or with an exception. *)
Definition post_end (req : Request) : Z + exn :=
  match post_data req with
  | inl e => outer_end req e
  | inr raw =>
      match json_of raw with
      | inl e => inner_end req e
      | inr v =>
          match stopped v with
          | Some e => inner_end req e
          | None =>
              match wfile req with
              | Accepting => inl 200
              | Failing x => inner_end req x
              end
          end
      end
  end.




(** What [log_received] prints for the request, if it gets that far. *)
Definition echo_console (req : Request) (w : World) : list event :=
  match post_data req with
  | inl _ => []
  | inr raw =>
      match json_of raw with
      | inl _ => []
      | inr v => fst (received v w)
      end
  end.

(** An event of an [except] clause or of a response: a console line that
    starts with the time of [log_message] or with ERROR, or anything that
    is no console line. *)
Definition is_reply (e : event) : Prop :=
  match e with
  | Print (Text s :: _) =>
      s = "[" \/ s = "ERROR: Invalid JSON received: "
      \/ s = "ERROR: Exception processing request: "
  | Print _ => False
  | _ => True
  end.

(** How the end [o] of [do_POST] shows in its result [r] and in the
    events [tail] that follow what [log_received] printed: a status comes
    right after its access line, with console lines before and only
    headers and body after; an exception leaves console lines only. *)
Definition ends_with (req : Request) (w : World) (o : Z + exn)
           (r : result unit) (tail : list event) : Prop :=
  match o with
  | inl c =>
      r = Returned tt /\
      exists logs t e rest,
        tail = logs ++ access_line req w t c :: e :: rest /\
        Forall is_print logs /\ status_of e = [c] /\ Forall is_payload rest
  | inr x => r = Raised x /\ Forall is_print tail
  end.




End WithRuntime.
End EchoTable.

Module FaultTable.
Import TransactionTestServer FaultRun.
Section WithRuntime.
Context {R : Runtime}.

(** The status the generator designates for a request handled from [p]:
    200 when [random.random()] is not below the fail rate, else the
    status of the row [random.choice] picks. *)
Definition designated_status (p : Proc Frame) : Z :=
  if PrimFloat.ltb (fst (rt_random (entropy (world p))))
                   (fail_rate (self (mem p)))
  then fst (nth (fst (rt_randbelow 4 (snd (rt_random (entropy (world p))))))
                failure_types (500, "Internal Server Error"))
  else 200.



(** What [do_POST] adds to the trace after the pause. *)
Definition fault_added (req : Request) (p : Proc Frame) : list event :=
  let h := self (mem p) in
  let w := world p in
  match message_id_of req with
  | inl _ => []
  | inr message_id =>
      match rt_unprintable message_id with
      | Some e =>
          if isinstance e Exception then
            match wfile req with
            | Accepting => error_events h w e
            | Failing _ => [Print (error_line h w e)]
            end
          else []
      | None =>
          match wfile req with
          | Accepting =>
              if should_fail h w then failure_events h w message_id
              else success_events h w message_id
          | Failing x =>
              Print (answer_line h w message_id)
              :: (if isinstance x Exception
                  then [Print (error_line h w x)] else [])
          end
      end
  end.

(** [strftime('%Y-%m-%d %H:%M:%S.%f')] with milliseconds in place of the
    microseconds. *)
Definition millisecond_stamp (dt : datetime) : string :=
  concat_strings
    [zero_pad 4 (year dt); "-"; zero_pad 2 (month dt); "-";
     zero_pad 2 (day dt); " "; zero_pad 2 (hour dt); ":";
     zero_pad 2 (minute dt); ":"; zero_pad 2 (second dt); ".";
     zero_pad 3 (microsecond dt / 1000)].

End WithRuntime.
End FaultTable.

(* ===================================================================== *)
(** * Running computations step by step *)
(* ===================================================================== *)

Section Steps.
Context {S A B : Type}.

Lemma bind_returned (c : Comp S A) (k : A -> Comp S B) s a s' :
  c s = (Returned a, s') -> bind c k s = k a s'.
Proof. intros H. unfold bind. rewrite H. reflexivity. Qed.

Lemma bind_raised (c : Comp S A) (k : A -> Comp S B) s e s' :
  c s = (Raised e, s') -> bind c k s = (Raised e, s').
Proof. intros H. unfold bind. rewrite H. reflexivity. Qed.

Lemma try_returned (body : Comp S A) target handler s a s' :
  body s = (Returned a, s') ->
  try_except body target handler s = (Returned a, s').
Proof. intros H. unfold try_except. rewrite H. reflexivity. Qed.

Lemma try_caught (body : Comp S A) target handler s e s' :
  body s = (Raised e, s') -> isinstance e target = true ->
  try_except body target handler s = handler e s'.
Proof. intros H Hc. unfold try_except. rewrite H, Hc. reflexivity. Qed.

Lemma try_passed (body : Comp S A) target handler s e s' :
  body s = (Raised e, s') -> isinstance e target = false ->
  try_except body target handler s = (Raised e, s').
Proof. intros H Hc. unfold try_except. rewrite H, Hc. reflexivity. Qed.

(** A [try] statement runs its body from the state it is entered in. *)
Lemma try_body (body body' : Comp S A) target handler s :
  body s = body' s ->
  try_except body target handler s = try_except body' target handler s.
Proof. intros H. unfold try_except. rewrite H. reflexivity. Qed.

Lemma lift_run (r : exn + A) (s : S) :
  lift r s = match r with inl e => (Raised e, s) | inr a => (Returned a, s) end.
Proof. destruct r; reflexivity. Qed.

End Steps.

Ltac tidy :=
  cbn [mem world events entropy clock ticks fst snd
       TransactionTestServer.self TransactionTestServer.timestamp
       TransactionTestServer.fail_rate TransactionTestServer.delay_ms
       TransactionTestServer.request_count].

Ltac step := erewrite bind_returned by reflexivity; tidy.

Section Console.
Context {R : Runtime} {L : Type}.

Lemma plain_prints (l : line) : plain l = true -> print_error l = None.
Proof.
  induction l as [|x l IH]; [reflexivity|].
  cbn [plain forallb]. intros H. apply andb_true_iff in H.
  destruct H as [Hx Hl]. specialize (IH Hl).
  destruct x as [s|v|v spec]; cbn [print_error plain_piece] in *;
    [exact IH | | ]; rewrite (rt_prints_scalar v Hx); exact IH.
Qed.

Lemma print_run (l : line) (p : Proc L) :
  print l p = match print_error l with
              | Some e => (Raised e, p)
              | None => (Returned tt, emitted p [Print l])
              end.
Proof. unfold print. destruct (print_error l); reflexivity. Qed.

Lemma print_then {A} (l : line) (k : unit -> Comp (Proc L) A) (p : Proc L) :
  bind (print l) k p = match print_error l with
                       | Some e => (Raised e, p)
                       | None => k tt (emitted p [Print l])
                       end.
Proof. unfold bind. rewrite print_run. destruct (print_error l); reflexivity. Qed.

Lemma print_plain (l : line) (p : Proc L) :
  plain l = true -> print l p = (Returned tt, emitted p [Print l]).
Proof. intros H. rewrite print_run, (plain_prints l H). reflexivity. Qed.

Lemma emitted_emitted (p : Proc L) a b :
  emitted (emitted p a) b = emitted p (a ++ b).
Proof.
  unfold emitted, later. cbn [mem world events entropy clock ticks Nat.add].
  rewrite <- app_assoc. reflexivity.
Qed.

Lemma emitted_nil (p : Proc L) : emitted p [] = p.
Proof.
  destruct p as [m [g c t evs]]. unfold emitted, later.
  cbn [mem world events entropy clock ticks Nat.add].
  rewrite app_nil_r. reflexivity.
Qed.

(** Reading nothing succeeds on every connection. *)
Lemma read_nothing (f : Rfile) : rfile_read f 0 = inr [].
Proof.
  unfold rfile_read. cbn [Z.ltb Z.compare].
  pose proof rt_maxsize_pos as Hpos.
  destruct (rt_maxsize <? 0) eqn:Hlt; [apply Z.ltb_lt in Hlt; lia|].
  reflexivity.
Qed.

End Console.

Module FaultFacts.
Import TransactionTestServer FaultRun.
Section WithRuntime.
Context {R : Runtime}.

Lemma read_message_id_run req (p : Proc Frame) :
  read_message_id req p = lift (message_id_of req) p.
Proof.
  unfold read_message_id, message_id_of, request_body, post_data, content_length,
    content_length_header.
  unfold bind, try_except, json.loads, method_get.
  destruct (headers_get (headers req) "Content-Length") as [s|];
    cbn [lift raise ret].
  - destruct (rt_int s) as [e|n]; cbn [lift raise ret]; [reflexivity|].
    destruct (rfile_read (rfile req) n) as [e|raw]; cbn [lift raise ret];
      [reflexivity|].
    destruct (rt_decode raw) as [e|text]; cbn [lift raise ret]; [reflexivity|].
    destruct (rt_loads text) as [e|[]]; cbn [lift raise ret]; try reflexivity.
    destruct (isinstance e JSONDecodeError); reflexivity.
  - destruct (rfile_read (rfile req) 0) as [e|raw]; cbn [lift raise ret];
      [reflexivity|].
    destruct (rt_decode raw) as [e|text]; cbn [lift raise ret]; [reflexivity|].
    destruct (rt_loads text) as [e|[]]; cbn [lift raise ret]; try reflexivity.
    destruct (isinstance e JSONDecodeError); reflexivity.
Qed.

Lemma exception_response_unbound req e (p : Proc Frame) :
  timestamp (mem p) = None ->
  exception_response req e p = (Raised unbound_timestamp, p).
Proof.
  destruct p as [[h ts] w]. simpl. intros ->. reflexivity.
Qed.

#[local] Opaque drop_last datetime_.strftime_full.

Lemma do_POST_enter req (p : Proc Frame) :
  do_POST req p =
  try_except
    (message_id <- read_message_id req ;;
     now <- datetime_.now ;;
     assign_timestamp (drop_last 3 (datetime_.strftime_full now)) ;;
     if should_fail (self (mem p)) (world p) then failure_response req message_id
     else success_response req message_id)
    Exception
    (exception_response req)
    (dropped p).
Proof.
  destruct p as [[h ts] w]. unfold do_POST, dropped, pause.
  do 3 step. cbn [delay_ms self mem world].
  destruct (0 <? delay_ms h); do 3 step; rewrite ?app_nil_r; reflexivity.
Qed.

(** Only the message id decides whether the line of the answer can be
    printed, *)
Lemma answer_line_error h (w : World) message_id :
  print_error (answer_line h w message_id) = rt_unprintable message_id.
Proof.
  unfold answer_line.
  destruct (should_fail h w); cbn [print_error];
    repeat rewrite rt_prints_scalar by reflexivity;
    destruct (rt_unprintable message_id); reflexivity.
Qed.

(** and the ERROR line always can. *)
Lemma error_line_error h (w : World) e : print_error (error_line h w e) = None.
Proof. apply plain_prints. reflexivity. Qed.

Ltac run :=
  repeat (first [ erewrite bind_returned by reflexivity
                | erewrite bind_raised by reflexivity ]; tidy).

Ltac flat := unfold reached, emitted, later, emit, raise, ret; tidy;
             cbn [Nat.add counted request_count];
             repeat rewrite <- app_assoc; cbn [app].

(** The [except Exception] clause once [timestamp] is bound. *)
Lemma exception_response_run req e (p : Proc Frame) sofar :
  exception_response req e (reached p sofar)
  = match wfile req with
    | Accepting =>
        (Returned tt,
         reached p (sofar ++ error_events (self (mem p)) (world p) e))
    | Failing x =>
        (Raised x,
         reached p (sofar ++ [Print (error_line (self (mem p)) (world p) e)]))
    end.
Proof.
  destruct p as [[h ts] w]. unfold exception_response, reached.
  cbn [self mem world]. do 2 step.
  rewrite print_then.
  change [Text "["; Text (the_timestamp w); Text "] ERROR ";
          Fmt (PyInt (request_count (counted h)));
          Text ": Exception processing request: "; Text (msg e)]
    with (error_line h w e).
  rewrite error_line_error.
  unfold send_response, log_request, log_message, send_header, end_headers,
    write_json, buffer, write, emitted.
  destruct (wfile req); run; unfold error_events; flat; reflexivity.
Qed.

Lemma recovered_run req (p : Proc Frame) sofar e
      (body : Comp (Proc Frame) unit) s :
  body s = (Raised e, reached p sofar) ->
  try_except body Exception (exception_response req) s = recovered req p sofar e.
Proof.
  intros Hb. unfold recovered.
  destruct (isinstance e Exception) eqn:He.
  - erewrite try_caught by eassumption. apply exception_response_run.
  - erewrite try_passed by eassumption. reflexivity.
Qed.

(** The state in which the answer is chosen: the body used, the clock
    read, [timestamp] assigned. *)
Lemma answer_run req (p : Proc Frame) message_id :
  (if should_fail (self (mem p)) (world p)
   then failure_response req message_id
   else success_response req message_id)
    (Build_Proc
       {| self := counted (self (mem p));
          timestamp := Some (the_timestamp (world p)) |}
       {| entropy := after_draw (world p); clock := clock (world p);
          ticks := S (ticks (world p));
          events := events (world p) ++ pause (self (mem p)) |})
  = match rt_unprintable message_id with
    | Some e => (Raised e, reached p [])
    | None =>
        match wfile req with
        | Accepting => (Returned tt, answered p message_id)
        | Failing x =>
            (Raised x,
             reached p [Print (answer_line (self (mem p)) (world p) message_id)])
        end
    end.
Proof.
  destruct p as [[h ts] w]. cbn [self mem world].
  pose proof (answer_line_error h w message_id) as Hline.
  unfold answer_line in Hline. unfold reached, answered, answer_line.
  cbn [self mem world].
  destruct (should_fail h w).
  - unfold failure_response. unfold random.choice, failure_types at 1.
    do 3 step. rewrite print_then.
    change (fst (nth (fst (rt_randbelow (List.length failure_types) (after_draw w)))
                     failure_types (500, "Internal Server Error")))
      with (fst (the_choice w)).
    change (snd (nth (fst (rt_randbelow (List.length failure_types) (after_draw w)))
                     failure_types (500, "Internal Server Error")))
      with (snd (the_choice w)).
    change (request_count (counted h)) with (request_count h + 1).
    rewrite Hline.
    destruct (rt_unprintable message_id);
      [unfold after_choice; rewrite app_nil_r; reflexivity|].
    unfold send_response, log_request, log_message, send_header, end_headers,
      write_json, buffer, write, emitted.
    destruct (wfile req); run; unfold failure_events; flat; reflexivity.
  - unfold success_response. do 2 step. rewrite print_then.
    change (request_count (counted h)) with (request_count h + 1).
    rewrite Hline.
    destruct (rt_unprintable message_id);
      [rewrite app_nil_r; reflexivity|].
    unfold send_response, log_request, log_message, send_header, end_headers,
      write_json, buffer, write, emitted.
    destruct (wfile req); run; unfold success_events; flat; reflexivity.
Qed.

Lemma fault_do_POST_outcome req p : do_POST req p = fault_outcome req p.
Proof.
  rewrite do_POST_enter. unfold fault_outcome.
  destruct (message_id_of req) as [e|message_id] eqn:Hm.
  - destruct (isinstance e Exception) eqn:He.
    + erewrite try_caught; [ | | exact He ].
      * apply exception_response_unbound. reflexivity.
      * apply bind_raised. rewrite read_message_id_run, Hm. reflexivity.
    + apply try_passed; [ | exact He ].
      apply bind_raised. rewrite read_message_id_run, Hm. reflexivity.
  - pose proof (answer_run req p message_id) as Hrun.
    assert (Hbody :
      (message_id0 <- read_message_id req ;;
       now <- datetime_.now ;;
       assign_timestamp (drop_last 3 (datetime_.strftime_full now)) ;;
       (if should_fail (self (mem p)) (world p)
        then failure_response req message_id0
        else success_response req message_id0)) (dropped p)
      = (if should_fail (self (mem p)) (world p)
         then failure_response req message_id
         else success_response req message_id)
          (Build_Proc
             {| self := counted (self (mem p));
                timestamp := Some (the_timestamp (world p)) |}
             {| entropy := after_draw (world p); clock := clock (world p);
                ticks := S (ticks (world p));
                events := events (world p) ++ pause (self (mem p)) |})).
    { erewrite bind_returned by (rewrite read_message_id_run, Hm; reflexivity).
      destruct p as [[h ts] w]. unfold dropped. cbn [self mem world].
      do 2 step. reflexivity. }
    destruct (rt_unprintable message_id) as [e1|] eqn:Hp.
    + eapply recovered_run. rewrite Hbody. exact Hrun.
    + destruct (wfile req) as [|x] eqn:Hw.
      * apply try_returned. rewrite Hbody. exact Hrun.
      * eapply recovered_run. rewrite Hbody. exact Hrun.
Qed.

End WithRuntime.
End FaultFacts.

Module EchoFacts.
Import TestHttpServer EchoRun.
Section WithRuntime.
Context {R : Runtime}.

#[local] Opaque datetime_.strftime_hms datetime_.str rule requestline.

Ltac flatten := repeat rewrite <- app_assoc; cbn [app].

Lemma truthy_get_lookup d key :
  truthy (dict_get d key PyNone) = true ->
  lookup d key = Some (dict_get d key PyNone).
Proof.
  unfold dict_get. destruct (lookup d key); [reflexivity | discriminate].
Qed.

Lemma bind_assoc {S A B C} (c : Comp S A) (k1 : A -> Comp S B)
      (k2 : B -> Comp S C) s :
  bind (bind c k1) k2 s = bind c (fun a => bind (k1 a) k2) s.
Proof. unfold bind. destruct (c s) as [[a|e] s']; reflexivity. Qed.

(** ** Pieces of console output, one after the other *)

Lemma and_then_first (b : list event * option exn) : and_then ([], None) b = b.
Proof. destruct b. reflexivity. Qed.

Lemma and_then_last (a : list event * option exn) : and_then a ([], None) = a.
Proof.
  destruct a as [evs [e|]]; unfold and_then; cbn [fst snd]; [reflexivity|].
  rewrite app_nil_r. reflexivity.
Qed.

Lemma and_then_assoc (a b c : list event * option exn) :
  and_then (and_then a b) c = and_then a (and_then b c).
Proof.
  destruct a as [ea [xa|]], b as [eb [xb|]]; unfold and_then; cbn [fst snd];
    try reflexivity.
  rewrite app_assoc. reflexivity.
Qed.

Lemma print_all_cons l ls :
  print_all (l :: ls) = and_then (print_all [l]) (print_all ls).
Proof.
  cbn [print_all]. destruct (print_error l); reflexivity.
Qed.

Lemma print_all_writable ls :
  forallb writable ls = true -> print_all ls = (map Print ls, None).
Proof.
  induction ls as [|l ls IH]; [reflexivity|].
  cbn [forallb]. intros H. apply andb_true_iff in H. destruct H as [Hl Hls].
  cbn [print_all map]. unfold writable in Hl.
  destruct (print_error l); [discriminate Hl|].
  rewrite (IH Hls). reflexivity.
Qed.


Lemma plays_ret : plays (ret tt) ([], None).
Proof. intros p. cbn [fst snd result_of]. rewrite emitted_nil. reflexivity. Qed.

Lemma plays_raise {A} e (k : A -> Comp (Proc JMSMessageHandler) unit) :
  plays (bind (raise e) k) ([], Some e).
Proof. intros p. cbn [fst snd result_of]. rewrite emitted_nil. reflexivity. Qed.

Lemma plays_print l : plays (print l) (print_all [l]).
Proof.
  intros p. rewrite print_run. cbn [print_all].
  destruct (print_error l); cbn [fst snd result_of]; [|reflexivity].
  rewrite emitted_nil. reflexivity.
Qed.

Lemma plays_bind c k a b :
  plays c a -> plays k b -> plays (c ;; k) (and_then a b).
Proof.
  intros Hc Hk p. unfold bind, and_then. rewrite Hc.
  destruct a as [ea [xa|]]; cbn [result_of fst snd]; [reflexivity|].
  rewrite Hk, emitted_emitted. reflexivity.
Qed.

(** A lookup that succeeds is no step of its own. *)
Lemma plays_get {A} (x : A) (f : A -> Comp (Proc JMSMessageHandler) unit) b :
  plays (f x) b -> plays (bind (ret x) f) b.
Proof. intros H p. exact (H p). Qed.

Lemma plays_print_cons l ls k b :
  plays k (and_then (print_all ls) b) ->
  plays (print l ;; k) (and_then (print_all (l :: ls)) b).
Proof.
  intros H. rewrite print_all_cons, and_then_assoc.
  apply plays_bind; [apply plays_print | exact H].
Qed.

Lemma plays_print_last l ls k :
  plays k (print_all ls) -> plays (print l ;; k) (print_all (l :: ls)).
Proof.
  intros H. rewrite print_all_cons.
  apply plays_bind; [apply plays_print | exact H].
Qed.

Lemma plays_each {A} (f : A -> line) items :
  plays (for_each items (fun x => print (f x))) (print_all (map f items)).
Proof.
  induction items as [|x items IH]; cbn [for_each map].
  - apply plays_ret.
  - apply plays_print_last. exact IH.
Qed.

Lemma plays_correlation d :
  plays (if truthy (dict_get d "correlationId" PyNone)
         then c <- subscript (PyDict d) "correlationId" ;;
              print [Text "Correlation ID: "; Fmt c]
         else ret tt)
        (print_all (correlation_lines d)).
Proof.
  unfold correlation_lines.
  destruct (truthy (dict_get d "correlationId" PyNone)) eqn:Hc.
  - unfold subscript. rewrite (truthy_get_lookup _ _ Hc).
    apply plays_get. apply plays_print.
  - apply plays_ret.
Qed.

Lemma plays_properties d :
  plays (if truthy (dict_get d "properties" PyNone)
         then print [Text "Properties:"] ;;
              props <- subscript (PyDict d) "properties" ;;
              items <- method_items props ;;
              for_each items
                (fun kv => print [Text "  "; Fmt (PyStr (fst kv)); Text ": ";
                                  Fmt (snd kv)])
         else ret tt)
        (and_then (print_all (fst (property_lines d)))
                  ([], snd (property_lines d))).
Proof.
  unfold property_lines.
  destruct (truthy (dict_get d "properties" PyNone)) eqn:Hp.
  - unfold subscript. rewrite (truthy_get_lookup _ _ Hp).
    destruct (dict_get d "properties" PyNone) as [ | b | z | f | s | l | items ];
      cbn [fst snd];
      try (apply plays_bind; [apply plays_print|];
           apply plays_get; apply plays_raise).
    rewrite and_then_last. apply plays_print_last.
    apply plays_get. apply plays_get.
    apply (plays_each property_line).
  - cbn [fst snd print_all and_then app]. apply plays_ret.
Qed.

(** The fields of an envelope, from the message id on. *)
Lemma plays_fields d :
  plays
    (v <- method_get (PyDict d) "messageId" (PyStr "N/A") ;;
     print [Text "Message ID: "; Fmt v] ;;
     v <- method_get (PyDict d) "messageType" (PyStr "N/A") ;;
     print [Text "Message Type: "; Fmt v] ;;
     v <- method_get (PyDict d) "contentType" (PyStr "N/A") ;;
     print [Text "Content Type: "; Fmt v] ;;
     v <- method_get (PyDict d) "content" (PyStr "N/A") ;;
     print [Text "Content: "; Fmt v] ;;
     v <- method_get (PyDict d) "correlationId" PyNone ;;
     (if truthy v then
        c <- subscript (PyDict d) "correlationId" ;;
        print [Text "Correlation ID: "; Fmt c]
      else ret tt) ;;
     v <- method_get (PyDict d) "properties" PyNone ;;
     (if truthy v then
        print [Text "Properties:"] ;;
        props <- subscript (PyDict d) "properties" ;;
        items <- method_items props ;;
        for_each items
          (fun kv => print [Text "  "; Fmt (PyStr (fst kv)); Text ": ";
                            Fmt (snd kv)])
      else ret tt) ;;
     v <- method_get (PyDict d) "jmsTimestamp" (PyStr "N/A") ;;
     print [Text "JMS Timestamp: "; Fmt v] ;;
     v <- method_get (PyDict d) "priority" (PyStr "N/A") ;;
     print [Text "Priority: "; Fmt v] ;;
     v <- method_get (PyDict d) "deliveryMode" (PyStr "N/A") ;;
     print [Text "Delivery Mode: "; Fmt v] ;;
     print [Text (rule 50)])
    (and_then (print_all (first_fields d))
       (and_then (print_all (correlation_lines d))
          (and_then
             (and_then (print_all (fst (property_lines d)))
                       ([], snd (property_lines d)))
             (print_all (last_fields d))))).
Proof.
  unfold first_fields, last_fields, field_line. cbn [method_get].
  do 4 (apply plays_get; apply plays_print_cons).
  rewrite and_then_first.
  apply plays_get. apply plays_bind; [apply plays_correlation|].
  apply plays_get. apply plays_bind; [apply plays_properties|].
  do 3 (apply plays_get; apply plays_print_last).
  apply plays_print.
Qed.

Lemma log_received_run v (p : Proc JMSMessageHandler) :
  log_received v p =
  (result_of (snd (received v (world p))),
   Build_Proc (mem p) (later (world p) 1 (fst (received v (world p))))).
Proof.
  destruct p as [m w]. unfold log_received.
  rewrite print_then. cbn [print_error]. step.
  rewrite print_then. cbn [print_error].
  rewrite print_then. cbn [print_error].
  destruct v as [ | b | z | f | s | l | d ];
    try (erewrite bind_raised by reflexivity;
         cbn [received and_then print_all header_lines print_error fst snd app
              result_of world mem];
         unfold emitted, later; cbn [world mem events entropy clock ticks Nat.add];
         flatten; reflexivity).
  rewrite (plays_fields d).
  cbn [received and_then print_all header_lines print_error fst snd app
       result_of world mem].
  unfold emitted, later. cbn [world mem events entropy clock ticks Nat.add].
  flatten. reflexivity.
Qed.

(** The exception that stops [log_received] does not depend on the
    clock, and all it adds to the trace is console output. *)
Lemma received_stopped v (w : World) : snd (received v w) = EchoTable.stopped v.
Proof.
  destruct v; reflexivity.
Qed.



(** ** The log of the handler and its responses *)

Lemma log_message_run l m (w : World) :
  plain l = true ->
  log_message l (Build_Proc m w)
  = (Returned tt, Build_Proc m (later w 1 [at_time w (ticks w) l])).
Proof.
  intros Hl. unfold log_message. step. rewrite print_plain; [reflexivity|].
  exact Hl.
Qed.

Lemma send_error_run req code message m (w : World) :
  send_error log_message req code message (Build_Proc m w)
  = match wfile req with
    | Accepting =>
        (Returned tt,
         Build_Proc m (later w 2 (error_reply req w (ticks w) code message)))
    | Failing x =>
        (Raised x,
         Build_Proc m (later w 2 (error_log req w (ticks w) code message)))
    end.
Proof.
  unfold send_error, log_error, log_request.
  erewrite bind_returned by (apply log_message_run; reflexivity).
  erewrite bind_returned by (apply log_message_run; reflexivity).
  unfold write, emit, raise, later, error_reply, error_log, access_line.
  destruct (wfile req);
    cbn [world mem events entropy clock ticks Nat.add];
    flatten; reflexivity.
Qed.

Lemma handler_500 req e m (w : World) :
  (print [Text "ERROR: Exception processing request: "; Text (msg e)] ;;
   send_error log_message req 500 "Internal server error") (Build_Proc m w)
  = match wfile req with
    | Accepting =>
        (Returned tt, Build_Proc m (later w 2 (failed req w (ticks w) e)))
    | Failing x =>
        (Raised x,
         Build_Proc m
           (later w 2
              (Print [Text "ERROR: Exception processing request: ";
                      Text (msg e)]
               :: error_log req w (ticks w) 500 "Internal server error")))
    end.
Proof.
  rewrite print_then. cbn [print_error]. unfold emitted, later.
  cbn [world mem events entropy clock ticks Nat.add].
  rewrite send_error_run. unfold later, failed.
  cbn [world mem events entropy clock ticks Nat.add].
  destruct (wfile req); flatten; reflexivity.
Qed.

Lemma handler_400 req e m (w : World) :
  (print [Text "ERROR: Invalid JSON received: "; Text (msg e)] ;;
   send_error log_message req 400 "Invalid JSON") (Build_Proc m w)
  = match wfile req with
    | Accepting =>
        (Returned tt, Build_Proc m (later w 2 (rejected req w e)))
    | Failing x =>
        (Raised x,
         Build_Proc m
           (later w 2
              (Print [Text "ERROR: Invalid JSON received: "; Text (msg e)]
               :: error_log req w (ticks w) 400 "Invalid JSON")))
    end.
Proof.
  rewrite print_then. cbn [print_error]. unfold emitted, later.
  cbn [world mem events entropy clock ticks Nat.add].
  rewrite send_error_run. unfold later, rejected.
  cbn [world mem events entropy clock ticks Nat.add].
  destruct (wfile req); flatten; reflexivity.
Qed.

Lemma send_success_run req d m (w : World) :
  send_success req (PyDict d) (Build_Proc m w)
  = match wfile req with
    | Accepting =>
        (Returned tt,
         Build_Proc m (later w 2 (success_reply req (PyDict d) w (ticks w))))
    | Failing x =>
        (Raised x, Build_Proc m (later w 1 [access_line req w (ticks w) 200]))
    end.
Proof.
  unfold send_success, send_response, log_request.
  rewrite bind_assoc.
  erewrite bind_returned by (apply log_message_run; reflexivity).
  unfold send_header, end_headers, write_json, buffer, write, success_reply,
    access_line, later.
  destruct (wfile req).
  - repeat step. unfold emit. cbn [world mem events entropy clock ticks Nat.add].
    flatten. reflexivity.
  - step. erewrite bind_returned by reflexivity.
    erewrite bind_raised by reflexivity. reflexivity.
Qed.

(** ** The two [except] clauses *)

Lemma later_later_n (w : World) n a k b :
  later (later w n a) k b = later w (k + n) (a ++ b).
Proof.
  unfold later. cbn [events entropy clock ticks].
  rewrite <- app_assoc, Nat.add_assoc. reflexivity.
Qed.

Lemma later_0_nil (w : World) : later w 0 [] = w.
Proof. unfold later. rewrite app_nil_r. destruct w; reflexivity. Qed.

Lemma outer_run req (body : Comp (Proc JMSMessageHandler) unit) m w n lines e :
  body (Build_Proc m w) = (Raised e, Build_Proc m (later w n lines)) ->
  try_except body Exception
    (fun e =>
       print [Text "ERROR: Exception processing request: "; Text (msg e)] ;;
       send_error log_message req 500 "Internal server error")
    (Build_Proc m w) =
  (fst (outer req w n lines e), Build_Proc m (snd (outer req w n lines e))).
Proof.
  intros Hb. unfold outer.
  destruct (isinstance e Exception) eqn:He.
  - erewrite try_caught by eassumption. rewrite handler_500.
    destruct (wfile req); cbn [fst snd]; rewrite later_later_n;
      unfold failed, later; cbn [ticks]; reflexivity.
  - erewrite try_passed by eassumption. reflexivity.
Qed.

(** What the inner [try] statement gives, as the body of the outer one. *)
Lemma inner_try req (body : Comp (Proc JMSMessageHandler) unit) m w n lines e :
  body (Build_Proc m w) = (Raised e, Build_Proc m (later w n lines)) ->
  try_except body JSONDecodeError
    (fun e =>
       print [Text "ERROR: Invalid JSON received: "; Text (msg e)] ;;
       send_error log_message req 400 "Invalid JSON")
    (Build_Proc m w)
  = if isinstance e JSONDecodeError then
      match wfile req with
      | Accepting =>
          (Returned tt,
           Build_Proc m
             (later w (2 + n)
                (lines
                   ++ Print [Text "ERROR: Invalid JSON received: ";
                             Text (msg e)]
                   :: error_reply req w (n + ticks w) 400 "Invalid JSON")))
      | Failing x =>
          (Raised x,
           Build_Proc m
             (later w (2 + n)
                (lines
                   ++ Print [Text "ERROR: Invalid JSON received: ";
                             Text (msg e)]
                   :: error_log req w (n + ticks w) 400 "Invalid JSON")))
      end
    else (Raised e, Build_Proc m (later w n lines)).
Proof.
  intros Hb. destruct (isinstance e JSONDecodeError) eqn:Hj.
  - erewrite try_caught by eassumption. rewrite handler_400.
    destruct (wfile req); rewrite later_later_n;
      unfold rejected, later; cbn [ticks]; reflexivity.
  - erewrite try_passed by eassumption. reflexivity.
Qed.

Lemma inner_run req (obody ibody : Comp (Proc JMSMessageHandler) unit)
      m w n lines e :
  obody (Build_Proc m w)
  = try_except ibody JSONDecodeError
      (fun e =>
         print [Text "ERROR: Invalid JSON received: "; Text (msg e)] ;;
         send_error log_message req 400 "Invalid JSON")
      (Build_Proc m w) ->
  ibody (Build_Proc m w) = (Raised e, Build_Proc m (later w n lines)) ->
  try_except obody Exception
    (fun e =>
       print [Text "ERROR: Exception processing request: "; Text (msg e)] ;;
       send_error log_message req 500 "Internal server error")
    (Build_Proc m w) =
  (fst (inner req w n lines e), Build_Proc m (snd (inner req w n lines e))).
Proof.
  intros Ho Hb. rewrite (@inner_try req ibody m w n lines e Hb) in Ho.
  unfold inner. destruct (isinstance e JSONDecodeError).
  - destruct (wfile req) as [|x] eqn:Hw.
    + erewrite try_returned by exact Ho. reflexivity.
    + pose proof (@outer_run req _ m w _ _ x Ho) as Hout.
      rewrite Hout. unfold outer. rewrite Hw. reflexivity.
  - apply outer_run. exact Ho.
Qed.

Lemma read_run {L A} req (k : list Byte.byte -> Comp (Proc L) A) (p : Proc L) :
  (content_length <- content_length_header req ;;
   raw <- lift (rfile_read (rfile req) content_length) ;;
   k raw) p =
  match post_data req with
  | inl e => (Raised e, p)
  | inr raw => k raw p
  end.
Proof.
  unfold post_data, content_length, content_length_header, bind.
  destruct (headers_get (headers req) "Content-Length") as [s|].
  - destruct (rt_int s) as [e|n]; cbn [lift raise ret]; [reflexivity|].
    destruct (rfile_read (rfile req) n); reflexivity.
  - cbn [ret]. destruct (rfile_read (rfile req) 0); reflexivity.
Qed.

Lemma parse_run {L A} raw (k : value -> Comp (Proc L) A) (p : Proc L) :
  (text <- lift (rt_decode raw) ;;
   message_data <- json.loads text ;;
   k message_data) p =
  match json_of raw with
  | inl e => (Raised e, p)
  | inr v => k v p
  end.
Proof.
  unfold json_of, json.loads, bind.
  destruct (rt_decode raw) as [e|text]; cbn [lift raise ret]; [reflexivity|].
  destruct (rt_loads text); reflexivity.
Qed.

Lemma received_none_dict v (w : World) :
  snd (received v w) = None -> exists d, v = PyDict d.
Proof. destruct v; try discriminate. eauto. Qed.

Lemma echo_do_POST_outcome req m w :
  do_POST req (Build_Proc m w) =
  (fst (echo_outcome req w), Build_Proc m (snd (echo_outcome req w))).
Proof.
  unfold do_POST, echo_outcome.
  destruct (post_data req) as [e|raw] eqn:Hread.
  { apply outer_run. rewrite read_run, Hread, later_0_nil. reflexivity. }
  destruct (json_of raw) as [e|v] eqn:Hjson.
  { eapply inner_run; [rewrite read_run, Hread; reflexivity|].
    rewrite parse_run, Hjson, later_0_nil. reflexivity. }
  destruct (snd (received v w)) as [e|] eqn:Hstop.
  - eapply inner_run; [rewrite read_run, Hread; reflexivity|].
    rewrite parse_run, Hjson. apply bind_raised.
    rewrite log_received_run. cbn [world mem]. rewrite Hstop. reflexivity.
  - assert (Hlog : log_received v (Build_Proc m w)
                   = (Returned tt,
                      Build_Proc m (later w 1 (fst (received v w))))).
    { rewrite log_received_run. cbn [world mem]. rewrite Hstop. reflexivity. }
    destruct (received_none_dict _ _ Hstop) as [d ->].
    destruct (wfile req) as [|x] eqn:Hw.
    + cbn [fst snd]. apply try_returned. rewrite read_run, Hread.
      apply try_returned. rewrite parse_run, Hjson.
      erewrite bind_returned by exact Hlog.
      rewrite send_success_run, Hw, later_later_n. reflexivity.
    + eapply inner_run; [rewrite read_run, Hread; reflexivity|].
      rewrite parse_run, Hjson.
      erewrite bind_returned by exact Hlog.
      rewrite send_success_run, Hw, later_later_n. reflexivity.
Qed.

End WithRuntime.
End EchoFacts.

(* ===================================================================== *)
(** * Traces *)
(* ===================================================================== *)

Lemma skipn_prefix {A} (l new : list A) : skipn (List.length l) (l ++ new) = new.
Proof. induction l as [|a l IH]; [reflexivity | exact IH]. Qed.

Section TraceFacts.
Context {R : Runtime}.

Lemma added_app (w w' : World) new :
  events w' = events w ++ new -> added w w' = new.
Proof. intros H. unfold added. rewrite H. apply skipn_prefix. Qed.

Lemma added_later (w : World) n new : added w (later w n new) = new.
Proof. apply added_app. reflexivity. Qed.

Lemma extends_refl P (w : World) : extends P w w.
Proof. exists []. split; [symmetry; apply app_nil_r | constructor]. Qed.

Lemma extends_trans P (w1 w2 w3 : World) :
  extends P w1 w2 -> extends P w2 w3 -> extends P w1 w3.
Proof.
  intros [n1 [H1 F1]] [n2 [H2 F2]]. exists (n1 ++ n2). split.
  - rewrite H2, H1. symmetry. apply app_assoc.
  - apply Forall_app. split; assumption.
Qed.

Lemma extends_later P (w : World) n new : Forall P new -> extends P w (later w n new).
Proof. intros H. exists new. split; [reflexivity | exact H]. Qed.

Lemma extends_weaken (P Q : event -> Prop) (w w' : World) :
  (forall e, P e -> Q e) -> extends P w w' -> extends Q w w'.
Proof.
  intros HPQ [new [H F]]. exists new. split; [exact H|].
  eapply Forall_impl; eauto.
Qed.

(** The loop of the server keeps what its handlers keep. *)
Lemma serve_forever_extends (P : event -> Prop)
      (handler : Request -> Comp World unit) :
  (forall e, P (HandleError e)) ->
  (forall req w, extends P w (snd (handler req w))) ->
  forall incoming w, extends P w (snd (serve_forever handler incoming w)).
Proof.
  intros Herr Hh incoming.
  induction incoming as [|req rest IH]; intros w; cbn [serve_forever].
  - apply extends_refl.
  - specialize (Hh req w). destruct (handler req w) as [[[]|e] w1]; cbn [snd] in Hh.
    + eapply extends_trans; [exact Hh | apply IH].
    + destruct (isinstance e Exception).
      * eapply extends_trans; [exact Hh|].
        eapply extends_trans; [ | apply IH ].
        exists [HandleError e]. split; [reflexivity|].
        constructor; [apply Herr | constructor].
      * exact Hh.
Qed.

End TraceFacts.

Module FaultServerFacts.
Import TransactionTestServer FaultRun MainRun FaultFacts FaultTable.
Section WithRuntime.
Context {R : Runtime}.

(** A connection is served by a handler that counts from zero. *)
Lemma create_handler_run rate delay req (w : World) :
  create_handler rate delay req w =
  if String.eqb (command req) "POST" || String.eqb (command req) "PUT"
  then (fst (fault_outcome req (fresh rate delay w)),
        world (snd (fault_outcome req (fresh rate delay w))))
  else match wfile req with
       | Accepting => (Returned tt, later w 0 [unsupported_method req])
       | Failing x => (Raised x, w)
       end.
Proof.
  unfold create_handler, __init__, handle_one_request, do_PUT.
  destruct (String.eqb (command req) "POST"); cbn [orb].
  - rewrite fault_do_POST_outcome. unfold fresh. destruct (fault_outcome req _); reflexivity.
  - destruct (String.eqb (command req) "PUT").
    + rewrite fault_do_POST_outcome. unfold fresh. destruct (fault_outcome req _); reflexivity.
    + unfold send_error, log_error, log_request, log_message, write.
      destruct (wfile req); reflexivity.
Qed.

(** The [except Exception] clause does what it is meant to do once
    [timestamp] is bound and the client takes the response. *)
Lemma exception_response_bound req e (p : Proc Frame) sofar :
  wfile req = Accepting ->
  exception_response req e (reached p sofar)
  = (Returned tt,
     reached p (sofar ++ error_events (self (mem p)) (world p) e)).
Proof. intros Hw. rewrite exception_response_run, Hw. reflexivity. Qed.

Lemma fault_outcome_events req (p : Proc Frame) :
  events (world (snd (fault_outcome req p)))
  = events (world p) ++ pause (self (mem p)) ++ fault_added req p.
Proof.
  unfold fault_outcome, fault_added, recovered.
  destruct (message_id_of req) as [e|message_id]; cbn [snd].
  - unfold dropped. cbn [world events]. rewrite app_nil_r. reflexivity.
  - destruct (rt_unprintable message_id) as [e|].
    + destruct (isinstance e Exception); [destruct (wfile req)|]; reflexivity.
    + destruct (wfile req) as [|x]; [reflexivity|].
      destruct (isinstance x Exception); reflexivity.
Qed.

Lemma do_POST_added req (p : Proc Frame) :
  added (world p) (world (snd (do_POST req p)))
  = pause (self (mem p)) ++ fault_added req p.
Proof.
  rewrite fault_do_POST_outcome. apply added_app. apply fault_outcome_events.
Qed.

Lemma outcome_extends P req (p : Proc Frame) :
  (forall e, on_wire e = false -> P e) ->
  (forall message_id,
      Forall P (failure_events (self (mem p)) (world p) message_id)) ->
  (forall message_id,
      Forall P (success_events (self (mem p)) (world p) message_id)) ->
  (forall e, Forall P (error_events (self (mem p)) (world p) e)) ->
  extends P (world p) (world (snd (fault_outcome req p))).
Proof.
  intros Hquiet Hfail Hok Herr.
  exists (pause (self (mem p)) ++ fault_added req p).
  split; [apply fault_outcome_events|].
  apply Forall_app. split.
  - unfold pause. destruct (0 <? delay_ms (self (mem p))); repeat constructor.
    apply Hquiet. reflexivity.
  - unfold fault_added.
    destruct (message_id_of req) as [e|message_id]; [constructor|].
    destruct (rt_unprintable message_id) as [e|].
    + destruct (isinstance e Exception); [|constructor].
      destruct (wfile req); [apply Herr|].
      repeat constructor. apply Hquiet. reflexivity.
    + destruct (wfile req) as [|x].
      * destruct (should_fail _ _); auto.
      * constructor; [apply Hquiet; reflexivity|].
        destruct (isinstance x Exception); repeat constructor.
        apply Hquiet. reflexivity.
Qed.

(** Every handler reports [requestCount] 1. *)
Lemma create_handler_counts_one rate delay req (w : World) :
  extends counts_one w (snd (create_handler rate delay req w)).
Proof.
  rewrite create_handler_run.
  destruct (String.eqb (command req) "POST" || String.eqb (command req) "PUT");
    cbn [snd].
  - apply (outcome_extends (P := counts_one) req (fresh rate delay w)).
    + intros e He v ->. discriminate He.
    + intros message_id. unfold failure_events.
      repeat constructor; intros v [= <-]; reflexivity.
    + intros message_id. unfold success_events.
      repeat constructor; intros v [= <-]; reflexivity.
    + intros e. unfold error_events, error_line.
      repeat constructor; intros v [= <-]; reflexivity.
  - destruct (wfile req); cbn [snd]; [|apply extends_refl].
    apply extends_later. repeat constructor. intros v [=].
Qed.

Lemma say_run l (w : World) :
  plain l = true -> say l w = (Returned tt, later w 0 [Print l]).
Proof.
  intros H. unfold say, on_world. rewrite print_plain by exact H. reflexivity.
Qed.

Lemma tell_run e (w : World) : tell e w = (Returned tt, later w 0 [e]).
Proof. reflexivity. Qed.

End WithRuntime.
End FaultServerFacts.

Module MainFacts.
Import TransactionTestServer FaultRun MainRun FaultFacts FaultServerFacts.
Section WithRuntime.
Context {R : Runtime}.

Lemma later_later (w : World) a b : later (later w 0 a) 0 b = later w 0 (a ++ b).
Proof. unfold later. cbn [events entropy clock ticks Nat.add]. rewrite <- app_assoc. reflexivity. Qed.

Ltac world_step :=
  erewrite bind_returned
    by (first [apply say_run; reflexivity | apply tell_run]);
  rewrite ?later_later; cbn [app].

Lemma demo_rate_valid : in_unit_interval 0.3%float = true.
Proof. reflexivity. Qed.

(** A fail rate outside the interval ends [main] at once. *)
Lemma main_rejects args incoming (w : World) :
  in_unit_interval (resolved_fail_rate args) = false ->
  main args incoming w = (Raised exit_1, later w 0 [range_error]).
Proof.
  unfold resolved_fail_rate, main.
  destruct args as [port0 rate delay [|]]; cbn [demo args_fail_rate].
  - rewrite demo_rate_valid. discriminate.
  - unfold in_unit_interval. intros H.
    erewrite bind_returned by reflexivity. cbn [args_fail_rate].
    rewrite H. cbn [negb].
    erewrite bind_raised
      by (erewrite bind_returned by (apply say_run; reflexivity);
          reflexivity).
    reflexivity.
Qed.

(** A fail rate inside it lets [main] bind the port, print the banner and
    serve until interrupted. *)
Lemma main_serves args incoming (w : World) :
  in_unit_interval (resolved_fail_rate args) = true ->
  main args incoming w =
  stop (serve_forever
          (create_handler (resolved_fail_rate args) (effective_delay args))
          incoming (later w 0 (startup args))).
Proof.
  unfold resolved_fail_rate, effective_delay, startup, main.
  destruct args as [port0 rate delay [|]];
    cbn [demo args_fail_rate args_delay_ms port]; intros H.
  - erewrite bind_returned
      by (erewrite bind_returned by (apply say_run; reflexivity);
          reflexivity).
    cbn [demo args_fail_rate args_delay_ms port].
    fold (in_unit_interval 0.3%float). rewrite H. cbn [negb].
    erewrite bind_returned by reflexivity.
    unfold try_except, stop.
    repeat world_step.
    unfold banner, demo_notice. cbn [app].
    destruct (serve_forever _ _ _) as [[[]|e] w']; [reflexivity|].
    destruct (isinstance e KeyboardInterrupt); [|reflexivity].
    repeat world_step. rewrite say_run, later_later by reflexivity.
    reflexivity.
  - erewrite bind_returned by reflexivity.
    cbn [demo args_fail_rate args_delay_ms port].
    fold (in_unit_interval rate). rewrite H. cbn [negb].
    erewrite bind_returned by reflexivity.
    unfold try_except, stop.
    repeat world_step.
    unfold banner. cbn [app].
    destruct (serve_forever _ _ _) as [[[]|e] w']; [reflexivity|].
    destruct (isinstance e KeyboardInterrupt); [|reflexivity].
    repeat world_step. rewrite say_run, later_later by reflexivity.
    reflexivity.
Qed.

Lemma stop_extends P (run : result unit * World) :
  Forall P shutdown_events -> extends P (snd run) (snd (stop run)).
Proof.
  intros H. destruct run as [[a|e] w]; cbn [stop snd].
  - apply extends_refl.
  - destruct (isinstance e KeyboardInterrupt); cbn [snd].
    + apply extends_later. exact H.
    + apply extends_refl.
Qed.

End WithRuntime.
End MainFacts.

Module EchoServerFacts.
Import TestHttpServer EchoRun EchoFacts EchoTable.
Section WithRuntime.
Context {R : Runtime}.


(** ** What stops [log_received] *)





Lemma printable_properties d :
  printable (PyDict d) = true -> snd (property_lines d) = None.
Proof.
  unfold printable, property_lines.
  destruct (dict_get d "properties" PyNone) as [ | b | z | f | s | l | items ];
    intros H; try (apply negb_true_iff in H; rewrite H; reflexivity).
  destruct (truthy (PyDict items)); reflexivity.
Qed.


Lemma forallb_app {A} (f : A -> bool) (a b : list A) :
  forallb f (a ++ b) = forallb f a && forallb f b.
Proof.
  induction a as [|x a IH]; [reflexivity|].
  cbn [app forallb]. rewrite IH. apply andb_assoc.
Qed.



(** An envelope with all its lines printed. *)
Lemma received_legible d (w : World) :
  printable (PyDict d) = true -> legible d = true ->
  received (PyDict d) w = (map Print (header_lines w ++ spoken d), None).
Proof.
  intros Hp Hl. unfold legible, spoken in Hl.
  rewrite !forallb_app in Hl.
  apply andb_true_iff in Hl. destruct Hl as [H1 Hl].
  apply andb_true_iff in Hl. destruct Hl as [H2 Hl].
  apply andb_true_iff in Hl. destruct Hl as [H3 H4].
  cbn [received].
  rewrite (print_all_writable _ H1), (print_all_writable _ H2),
    (print_all_writable _ H3), (print_all_writable _ H4),
    (printable_properties d Hp).
  rewrite (print_all_writable (header_lines w)) by reflexivity.
  unfold and_then, spoken. cbn [fst snd]. rewrite app_nil_r, !map_app.
  reflexivity.
Qed.


(** ** How [do_POST] ends *)

Lemma ends_with_more req (w : World) o r pre tail :
  Forall is_print pre ->
  ends_with req w o r tail -> ends_with req w o r (pre ++ tail).
Proof.
  intros Hpre. unfold ends_with. destruct o as [c|x].
  - intros [Hr [logs [t [e [rest [-> [Hl [He Hrest]]]]]]]].
    split; [exact Hr|]. exists (pre ++ logs), t, e, rest.
    split; [apply app_assoc|]. split; [|split; assumption].
    apply Forall_app. split; assumption.
  - intros [Hr Ht]. split; [exact Hr|]. apply Forall_app. split; assumption.
Qed.

Lemma error_log_prints req (w : World) t code message :
  Forall is_print (error_log req w t code message)
  /\ Forall is_reply (error_log req w t code message).
Proof.
  unfold error_log, access_line, at_time. cbn [app].
  split; repeat constructor.
Qed.

Lemma outer_ends req (w : World) n lines e :
  exists n' tail,
    snd (outer req w n lines e) = later w n' (lines ++ tail) /\
    Forall is_reply tail /\
    ends_with req w (outer_end req e) (fst (outer req w n lines e)) tail.
Proof.
  unfold outer, outer_end, ends_with.
  destruct (isinstance e Exception).
  - destruct (wfile req) as [|x]; cbn [fst snd].
    + exists (2 + n)%nat, (failed req w (n + ticks w) e).
      split; [reflexivity|].
      unfold failed, error_reply, error_log, access_line, at_time.
      cbn [app]. split; [repeat constructor; tauto|].
      split; [reflexivity|].
      eexists [_; _], _, _, []. split; [reflexivity|].
      repeat constructor.
    + eexists _, _. split; [reflexivity|].
      destruct (error_log_prints req w (n + ticks w) 500 "Internal server error")
        as [H1 H2].
      split; [constructor; [cbn; tauto | exact H2]|].
      split; [reflexivity|]. constructor; [exact I | exact H1].
  - cbn [fst snd]. exists n, []. rewrite app_nil_r.
    repeat split; constructor.
Qed.

Lemma inner_ends req (w : World) n lines e :
  exists n' tail,
    snd (inner req w n lines e) = later w n' (lines ++ tail) /\
    Forall is_reply tail /\
    ends_with req w (inner_end req e) (fst (inner req w n lines e)) tail.
Proof.
  unfold inner, inner_end.
  destruct (isinstance e JSONDecodeError); [|apply outer_ends].
  destruct (wfile req) as [|x] eqn:Hw; cbn [fst snd].
  - exists (2 + n)%nat,
      (Print [Text "ERROR: Invalid JSON received: "; Text (msg e)]
       :: error_reply req w (n + ticks w) 400 "Invalid JSON").
    split; [reflexivity|].
    unfold error_reply, error_log, access_line, at_time. cbn [app].
    split; [repeat constructor; tauto|].
    split; [reflexivity|].
    eexists [_; _], _, _, []. split; [reflexivity|]. repeat constructor.
  - destruct (outer_ends req w (2 + n)
                (lines
                   ++ Print [Text "ERROR: Invalid JSON received: ";
                             Text (msg e)]
                   :: error_log req w (n + ticks w) 400 "Invalid JSON") x)
      as [n' [tail [Hs [Hr He]]]].
    destruct (error_log_prints req w (n + ticks w) 400 "Invalid JSON")
      as [H1 H2].
    exists n', ((Print [Text "ERROR: Invalid JSON received: "; Text (msg e)]
                 :: error_log req w (n + ticks w) 400 "Invalid JSON") ++ tail).
    split; [rewrite Hs, <- app_assoc; reflexivity|].
    split.
    + apply Forall_app. split; [|exact Hr].
      constructor; [cbn; tauto | exact H2].
    + apply ends_with_more; [constructor; [exact I | exact H1] | exact He].
Qed.

Lemma echo_outcome_ends req (w : World) :
  exists n tail,
    snd (echo_outcome req w) = later w n (echo_console req w ++ tail) /\
    Forall is_reply tail /\
    ends_with req w (post_end req) (fst (echo_outcome req w)) tail.
Proof.
  unfold echo_outcome, post_end, echo_console.
  destruct (post_data req) as [e|raw]; [apply outer_ends|].
  destruct (json_of raw) as [e|v]; [apply inner_ends|].
  rewrite received_stopped.
  destruct (stopped v) as [e|]; [apply inner_ends|].
  destruct (wfile req) as [|x] eqn:Hw; cbn [fst snd].
  - eexists _, _. split; [reflexivity|].
    unfold success_reply, access_line, at_time.
    split; [repeat constructor; tauto|].
    split; [reflexivity|].
    eexists [], _, _, _. split; [reflexivity|]. repeat constructor.
  - destruct (inner_ends req w 2
                (fst (received v w) ++ [access_line req w (S (ticks w)) 200]) x)
      as [n' [tail [Hs [Hr He]]]].
    exists n', ([access_line req w (S (ticks w)) 200] ++ tail).
    split; [rewrite Hs, <- app_assoc; reflexivity|].
    split.
    + apply Forall_app. split; [|exact Hr].
      unfold access_line, at_time. repeat constructor.
    + apply ends_with_more; [repeat constructor | exact He].
Qed.



(** A connection with a POST or a PUT is served by [do_POST]. *)
Lemma init_run req (w : World) :
  String.eqb (command req) "POST" || String.eqb (command req) "PUT" = true ->
  __init__ req w = echo_outcome req w.
Proof.
  intros Hc. unfold __init__, on_world, handle_one_request, do_PUT.
  destruct (String.eqb (command req) "POST").
  - rewrite echo_do_POST_outcome. destruct (echo_outcome req w); reflexivity.
  - cbn [orb] in Hc. rewrite Hc.
    rewrite echo_do_POST_outcome. destruct (echo_outcome req w); reflexivity.
Qed.


(** ** The same request under another method name *)

Lemma wire_later (w : World) n new :
  wire (events (later w n new)) = wire (events w) ++ wire new.
Proof. unfold wire, later. cbn [events]. apply filter_app. Qed.

Lemma wire_app (a b : list event) : wire (a ++ b) = wire a ++ wire b.
Proof. apply filter_app. Qed.

Lemma outer_same req1 req2 (w : World) n lines1 lines2 e :
  wfile req1 = wfile req2 -> wire lines1 = wire lines2 ->
  same_wire (outer req1 w n lines1 e) (outer req2 w n lines2 e).
Proof.
  intros Hw Hl. unfold outer, same_wire. rewrite <- Hw.
  destruct (isinstance e Exception); [destruct (wfile req1)|];
    cbn [fst snd]; rewrite !wire_later, ?wire_app, Hl;
    repeat split; reflexivity.
Qed.

Lemma inner_same req1 req2 (w : World) n lines1 lines2 e :
  wfile req1 = wfile req2 -> wire lines1 = wire lines2 ->
  same_wire (inner req1 w n lines1 e) (inner req2 w n lines2 e).
Proof.
  intros Hw Hl. unfold inner.
  destruct (isinstance e JSONDecodeError); [|apply outer_same; assumption].
  rewrite <- Hw. destruct (wfile req1) eqn:H1.
  - unfold same_wire. cbn [fst snd]. rewrite !wire_later, !wire_app, Hl.
    repeat split; reflexivity.
  - apply outer_same; [rewrite H1; exact Hw|].
    rewrite !wire_app, Hl. reflexivity.
Qed.

(** Two requests with the same headers and body on the same connection
    get the same answer; only the request line in the console log can
    differ. *)
Lemma outcome_wire req1 req2 (w : World) :
  headers req1 = headers req2 -> rfile req1 = rfile req2 ->
  wfile req1 = wfile req2 ->
  same_wire (echo_outcome req1 w) (echo_outcome req2 w).
Proof.
  intros Hh Hr Hw.
  assert (Hpost : post_data req1 = post_data req2).
  { unfold post_data, content_length. rewrite Hh, Hr. reflexivity. }
  unfold echo_outcome. rewrite <- Hpost.
  destruct (post_data req1) as [e|raw]; [apply outer_same; auto|].
  destruct (json_of raw) as [e|v]; [apply inner_same; auto|].
  destruct (snd (received v w)); [apply inner_same; auto|].
  rewrite <- Hw. destruct (wfile req1) eqn:H1.
  - unfold same_wire. cbn [fst snd]. rewrite !wire_later, !wire_app.
    repeat split; reflexivity.
  - apply inner_same; [rewrite H1; exact Hw|].
    rewrite !wire_app. reflexivity.
Qed.

End WithRuntime.
End EchoServerFacts.
(* ===================================================================== *)
(** * The fault-injection server: counter, exceptions, message id *)
(* ===================================================================== *)

Section FaultClaims.
Import TransactionTestServer FaultRun MainRun FaultFacts FaultServerFacts MainFacts.
Import FaultTable.

(** Every response body written during a run of the server carries
    [requestCount] 1, whatever the number of requests served: each
    connection is handled by an instance whose counter [__init__] has just
    set to 0. *)
Lemma every_response_counts_one {R : Runtime} rate delay incoming (w : World) :
  extends counts_one w
          (snd (serve_forever (create_handler rate delay) incoming w)).
Proof.
  apply serve_forever_extends.
  - intros e v [=].
  - apply create_handler_counts_one.
Qed.

(** C1 (code defect).  The claim wants [requestCount] to be 1, 2, 3, ...
    over the requests of one running server.  Run on two POST requests in
    a row, the server answers both with [requestCount] 1. *)
Theorem C1_request_count_restarts :
  map request_count_of
      (bodies (events (snd (main (Examples.plain_args 0)
                                 [Examples.m1_request; Examples.m2_request]
                                 (Examples.world0 [])))))
  = [Some (PyInt 1); Some (PyInt 1)].
Proof. vm_compute. reflexivity. Qed.

(** An exception raised before [timestamp] is assigned (a failing read, a
    body that does not decode, JSON that is no object) reaches the
    [except Exception] clause, where reading [timestamp] raises in turn:
    nothing is printed or sent. *)
Lemma early_exception_escapes {R : Runtime} req (p : Proc Frame) e :
  message_id_of req = inl e -> isinstance e Exception = true ->
  do_POST req p = (Raised unbound_timestamp, dropped p) /\
  wire (added (world p) (world (dropped p))) = [].
Proof.
  intros Hm He. split.
  - rewrite fault_do_POST_outcome. unfold fault_outcome. rewrite Hm, He. reflexivity.
  - unfold dropped. cbn [world]. erewrite added_app by reflexivity.
    unfold pause. destruct (0 <? delay_ms (self (mem p))); reflexivity.
Qed.

(** C2 (code defect).  The claim wants an I/O error while the body is read
    to end in an HTTP 500 response and an ERROR line.  On a connection that
    is reset during the read, the handler raises [UnboundLocalError]
    instead and sends nothing; the server itself goes on and answers the
    next request. *)
Theorem C2_read_error_gets_no_response :
  fst (create_handler 0 0 Examples.broken_request (Examples.world0 []))
    = Raised unbound_timestamp /\
  events (snd (create_handler 0 0 Examples.broken_request (Examples.world0 [])))
    = [] /\
  wire (events (snd (serve_forever (create_handler 0 0)
                       [Examples.broken_request; Examples.m2_request]
                       (Examples.world0 []))))
    = [ HandleError unbound_timestamp;
        SendResponse 200;
        SendHeader "Content-Type" "application/json";
        EndHeaders;
        WriteJson
          (PyDict [ ("status", PyStr "success");
                    ("timestamp", PyStr "2024-05-17 09:30:00.123");
                    ("messageId", PyStr "m2");
                    ("requestCount", PyInt 1);
                    ("message", PyStr "Message processed successfully") ]) ].
Proof. repeat split; vm_compute; reflexivity. Qed.

(** The same happens whenever the body cannot be read, also while the
    client is still there to take a response: a [Content-Length] below -1
    makes [rfile.read] raise [ValueError], one no buffer can be had for
    makes it raise [MemoryError]. *)
Example unreadable_lengths_get_no_response :
  post_data (R := Reference.runtime) Examples.negative_length_request
    = inl {| cls := ValueError;
             msg := "read length must be non-negative or -1" |} /\
  fst (do_POST Examples.negative_length_request (Examples.fault_proc 0 []))
    = Raised unbound_timestamp /\
  events (world (snd (do_POST Examples.negative_length_request
                              (Examples.fault_proc 0 [])))) = [] /\
  fst (do_POST Examples.huge_length_request (Examples.fault_proc 0 []))
    = Raised unbound_timestamp /\
  events (world (snd (do_POST Examples.huge_length_request
                              (Examples.fault_proc 0 [])))) = [].
Proof. repeat split; vm_compute; reflexivity. Qed.

(** C3, the claim as stated, fails on a body that is not UTF-8: nothing
    can be parsed from it, yet no id ["unknown"] is used and no response is
    produced; the exception leaves [do_POST]. *)
Lemma C3_undecodable_body_escapes :
  request_body (R := Reference.runtime) Examples.bad_utf8_request
    = inl {| cls := UnicodeDecodeError;
             msg := "'utf-8' codec can't decode bytes: invalid data" |} /\
  fst (do_POST Examples.bad_utf8_request (Examples.fault_proc 0 []))
    = Raised unbound_timestamp /\
  events (world (snd (do_POST Examples.bad_utf8_request
                              (Examples.fault_proc 0 [])))) = [].
Proof. repeat split; vm_compute; reflexivity. Qed.

(** What an answered request adds to the trace: one status, decided by the
    draw alone, and one body carrying the message id. *)
Lemma answered_statuses {R : Runtime} (p : Proc Frame) message_id :
  statuses (added (world p) (world (answered p message_id)))
  = [designated_status p].
Proof.
  unfold answered, designated_status. cbn [world].
  erewrite added_app by reflexivity.
  unfold pause, statuses.
  fold (the_draw (world p)). fold (should_fail (self (mem p)) (world p)).
  destruct (0 <? delay_ms (self (mem p)));
    destruct (should_fail (self (mem p)) (world p)); reflexivity.
Qed.

Lemma answered_message_id {R : Runtime} (p : Proc Frame) message_id :
  map message_id_in (bodies (added (world p) (world (answered p message_id))))
  = [Some message_id].
Proof.
  unfold answered. cbn [world]. erewrite added_app by reflexivity.
  unfold pause, bodies.
  destruct (0 <? delay_ms (self (mem p)));
    destruct (should_fail (self (mem p)) (world p)); reflexivity.
Qed.

Lemma the_choice_listed {R : Runtime} (w : World) :
  In (fst (the_choice w)) failure_statuses.
Proof.
  unfold the_choice, failure_types, failure_statuses.
  destruct (fst (rt_randbelow 4 (after_draw w))) as [|[|[|[|[|n]]]]];
    cbn [nth fst In]; tauto.
Qed.

Lemma designated_status_listed {R : Runtime} (p : Proc Frame) :
  In (designated_status p) (200 :: failure_statuses).
Proof.
  unfold designated_status.
  destruct (PrimFloat.ltb _ _); [right|left; reflexivity].
  apply (the_choice_listed (world p)).
Qed.

(** The id ["unknown"] can always be printed. *)
Lemma unknown_prints {R : Runtime} : rt_unprintable (PyStr "unknown") = None.
Proof. apply rt_prints_ascii. reflexivity. Qed.

(** A request whose message id can be printed, from a client that takes
    the response, is answered as designated. *)
Lemma answered_run {R : Runtime} req (p : Proc Frame) message_id :
  message_id_of req = inr message_id ->
  rt_unprintable message_id = None ->
  wfile req = Accepting ->
  do_POST req p = (Returned tt, answered p message_id).
Proof.
  intros Hm Hp Hw. rewrite fault_do_POST_outcome. unfold fault_outcome.
  rewrite Hm, Hp, Hw. reflexivity.
Qed.

(** C3 (amended).  For every request whose body is read, decodes as UTF-8
    and is rejected by [json.loads] with a [JSONDecodeError], from a
    client that takes the response, the id ["unknown"] is used: [do_POST]
    returns normally and writes exactly one response, a success (200) or a
    simulated failure (500, 503, 502, 504), whose [messageId] is
    ["unknown"]. *)
Theorem C3_rejected_text_is_unknown {R : Runtime} req (p : Proc Frame) text e :
  request_body req = inr text ->
  rt_loads text = inl e ->
  isinstance e JSONDecodeError = true ->
  wfile req = Accepting ->
  do_POST req p = (Returned tt, answered p (PyStr "unknown")) /\
  map message_id_in
      (bodies (added (world p) (world (answered p (PyStr "unknown")))))
    = [Some (PyStr "unknown")] /\
  exists s,
    statuses (added (world p) (world (answered p (PyStr "unknown")))) = [s] /\
    In s (200 :: failure_statuses).
Proof.
  intros Hb Hl He Hw.
  assert (Hm : message_id_of req = inr (PyStr "unknown")).
  { unfold message_id_of. rewrite Hb, Hl, He. reflexivity. }
  split; [apply answered_run; auto using unknown_prints|].
  split; [apply answered_message_id|].
  eexists. split; [apply answered_statuses|].
  apply designated_status_listed.
Qed.

Lemma C3_rejected_text_is_unknown_witness :
  request_body (R := Reference.runtime) Examples.bad_json_request
    = inr "{bad json" /\
  wfile Examples.bad_json_request = Accepting /\
  do_POST Examples.bad_json_request (Examples.fault_proc 0 [])
    = (Returned tt, answered (Examples.fault_proc 0 []) (PyStr "unknown")).
Proof.
  split; [reflexivity|]. split; [reflexivity|].
  apply (C3_rejected_text_is_unknown
           (R := Reference.runtime) Examples.bad_json_request
           (Examples.fault_proc 0 []) (text := "{bad json")
           (e := Reference.json_error
                   "Expecting property name enclosed in double quotes"));
    reflexivity.
Defined.

(** The id is ["unknown"] also when the client has gone, but then no
    response reaches it: the write raises, the [except] clause prints its
    ERROR line, and its own write raises again. *)
Example hung_up_client_gets_nothing :
  fst (do_POST Examples.hung_up_request (Examples.fault_proc 0 []))
    = Raised Examples.broken_pipe /\
  wire (events (world (snd (do_POST Examples.hung_up_request
                                    (Examples.fault_proc 0 []))))) = [] /\
  List.length
    (console (events (world (snd (do_POST Examples.hung_up_request
                                          (Examples.fault_proc 0 []))))))
    = 2%nat.
Proof. repeat split; vm_compute; reflexivity. Qed.

(* ===================================================================== *)
(** * The fault-injection server: the random designation *)
(* ===================================================================== *)

(** A float that is at least [0.0] is not below [0.0]. *)
Lemma not_below_zero (d : float) :
  PrimFloat.leb 0 d = true -> PrimFloat.ltb d 0 = false.
Proof.
  rewrite FloatAxioms.leb_spec, FloatAxioms.ltb_spec. unfold SFleb, SFltb.
  change (Prim2SF 0) with (S754_zero false).
  destruct (Prim2SF d) as [s|s| |s m e]; cbn [SFcompare];
    try destruct s; cbn; congruence.
Qed.

Lemma statuses_app (a b : list event) : statuses (a ++ b) = statuses a ++ statuses b.
Proof. apply flat_map_app. Qed.

Lemma pause_quiet {R : Runtime} (h : TransactionTestHandler) :
  statuses (pause h) = [] /\ bodies (pause h) = [] /\ console (pause h) = []
  /\ outcomes (pause h) = [] /\ wire (pause h) = []
  /\ Forall on_connection (pause h).
Proof.
  unfold pause. destruct (0 <? delay_ms h); repeat split; repeat constructor.
Qed.

(** The statuses [do_POST] sends, for every request. *)
Lemma do_POST_statuses {R : Runtime} req (p : Proc Frame) :
  statuses (added (world p) (world (snd (do_POST req p))))
  = match message_id_of req with
    | inl _ => []
    | inr message_id =>
        match wfile req with
        | Failing _ => []
        | Accepting =>
            match rt_unprintable message_id with
            | Some _ => [500]
            | None => [designated_status p]
            end
        end
    end.
Proof.
  rewrite do_POST_added, statuses_app.
  destruct (pause_quiet (self (mem p))) as [-> _]. cbn [app].
  unfold fault_added, designated_status.
  fold (the_draw (world p)). fold (should_fail (self (mem p)) (world p)).
  destruct (message_id_of req) as [e|message_id]; [reflexivity|].
  destruct (rt_unprintable message_id) as [e|] eqn:Hp.
  - destruct (rt_print_raises _ Hp) as [-> _].
    destruct (wfile req); reflexivity.
  - destruct (wfile req) as [|x].
    + destruct (should_fail _ _); reflexivity.
    + destruct (isinstance x Exception); reflexivity.
Qed.

(** C6, the claim as stated, fails at fail rate 0.0, with a draw in
    [0, 1): a request whose [messageId] is a lone surrogate is designated
    a success and yet answered 500, since the SUCCESS line cannot be
    printed and the [except] clause answers; a request whose body is not
    UTF-8 yields no status at all. *)
Lemma C6_rate_zero_does_not_give_200 :
  fail_rate (self (mem (Examples.fault_proc 0 [4503599627370496]))) = 0%float /\
  PrimFloat.leb 0 (the_draw (world (Examples.fault_proc 0 [4503599627370496])))
    = true /\
  PrimFloat.ltb (the_draw (world (Examples.fault_proc 0 [4503599627370496]))) 1
    = true /\
  designated_status (Examples.fault_proc 0 [4503599627370496]) = 200 /\
  fst (do_POST Examples.surrogate_request
               (Examples.fault_proc 0 [4503599627370496])) = Returned tt /\
  statuses (events (world (snd (do_POST Examples.surrogate_request
                                  (Examples.fault_proc 0 [4503599627370496])))))
    = [500] /\
  statuses (events (world (snd (do_POST Examples.bad_utf8_request
                                  (Examples.fault_proc 0 [4503599627370496])))))
    = [].
Proof. repeat split; vm_compute; reflexivity. Qed.

(** C6 (amended).  The request is designated by comparing the draw
    [random.random()] takes from the generator with the fail rate, by
    strict less-than; a request whose message id is extracted and can be
    printed, from a client that takes the response, is sent exactly the
    status so designated.  With a draw in [0, 1) that status is 200 at
    fail rate 0.0 and one of 500, 503, 502, 504 at fail rate 1.0. *)
Theorem C6_fail_rate_extremes {R : Runtime} req (p : Proc Frame) message_id :
  message_id_of req = inr message_id ->
  rt_unprintable message_id = None ->
  wfile req = Accepting ->
  PrimFloat.leb 0 (fst (rt_random (entropy (world p)))) = true ->
  PrimFloat.ltb (fst (rt_random (entropy (world p)))) 1 = true ->
  fst (do_POST req p) = Returned tt /\
  statuses (added (world p) (world (snd (do_POST req p))))
    = [if PrimFloat.ltb (fst (rt_random (entropy (world p))))
                        (fail_rate (self (mem p)))
       then fst (nth (fst (rt_randbelow 4
                             (snd (rt_random (entropy (world p))))))
                     failure_types (500, "Internal Server Error"))
       else 200] /\
  (fail_rate (self (mem p)) = 0%float ->
     statuses (added (world p) (world (snd (do_POST req p)))) = [200]) /\
  (fail_rate (self (mem p)) = 1%float ->
     exists s,
       statuses (added (world p) (world (snd (do_POST req p)))) = [s] /\
       In s failure_statuses).
Proof.
  intros Hm Hp Hw Hlo Hhi.
  assert (Hs : statuses (added (world p) (world (snd (do_POST req p))))
               = [designated_status p]).
  { rewrite do_POST_statuses, Hm, Hw, Hp. reflexivity. }
  split; [rewrite (answered_run req p Hm Hp Hw); reflexivity|].
  split; [exact Hs|]. rewrite Hs. unfold designated_status.
  split; intros Hrate; rewrite Hrate.
  - rewrite (not_below_zero Hlo). reflexivity.
  - rewrite Hhi. eexists. split; [reflexivity|].
    apply (the_choice_listed (world p)).
Qed.

Lemma C6_fail_rate_extremes_witness :
  message_id_of (R := Reference.runtime) Examples.m2_request
    = inr (PyStr "m2") /\
  PrimFloat.ltb (the_draw (world (Examples.fault_proc 1 [4503599627370496; 6]))) 1
    = true /\
  exists s,
    statuses (added (world (Examples.fault_proc 1 [4503599627370496; 6]))
                    (world (snd (do_POST Examples.m2_request
                                   (Examples.fault_proc 1 [4503599627370496; 6])))))
      = [s] /\
    In s failure_statuses.
Proof.
  split; [reflexivity|]. split; [reflexivity|].
  destruct (C6_fail_rate_extremes
              (R := Reference.runtime) Examples.m2_request
              (Examples.fault_proc 1 [4503599627370496; 6])
              (message_id := PyStr "m2")
              eq_refl eq_refl eq_refl eq_refl eq_refl) as [_ [_ [_ Hone]]].
  exact (Hone eq_refl).
Defined.



Lemma fault_added_no_sleep {R : Runtime} req (p : Proc Frame) :
  sleeps (fault_added req p) = [].
Proof.
  unfold fault_added.
  destruct (message_id_of req) as [e|message_id]; [reflexivity|].
  destruct (rt_unprintable message_id) as [e|].
  - destruct (isinstance e Exception); [destruct (wfile req)|]; reflexivity.
  - destruct (wfile req) as [|x].
    + destruct (should_fail _ _); reflexivity.
    + destruct (isinstance x Exception); reflexivity.
Qed.





(* ===================================================================== *)
(** * The fault-injection server: start-up *)
(* ===================================================================== *)

Lemma main_extends {R : Runtime} args incoming (w : World) :
  in_unit_interval (resolved_fail_rate args) = true ->
  extends (fun _ => True) (later w 0 (startup args)) (snd (main args incoming w)).
Proof.
  intros H. rewrite main_serves by exact H.
  eapply extends_trans; [ | apply stop_extends ].
  - apply serve_forever_extends; [exact (fun _ => I)|].
    intros req w0. eapply extends_weaken; [ | apply create_handler_counts_one ].
    exact (fun _ _ => I).
  - unfold shutdown_events. repeat constructor.
Qed.

(** C7.  A resolved fail rate outside [0.0, 1.0] makes [main] print the
    error and exit with status 1, and nothing else: no port is bound.  A
    resolved fail rate inside the interval passes: [main] goes on to bind
    the port and print the banner. *)
Theorem C7_fail_rate_validated {R : Runtime} args incoming (w : World) :
  (in_unit_interval (resolved_fail_rate args) = false ->
     fst (main args incoming w) = Raised exit_1 /\
     exit_status (fst (main args incoming w)) = 1 /\
     added w (snd (main args incoming w)) = [range_error]) /\
  (in_unit_interval (resolved_fail_rate args) = true ->
     exists rest,
       added w (snd (main args incoming w)) = startup args ++ rest).
Proof.
  split; intros H.
  - rewrite main_rejects by exact H. cbn [fst snd].
    repeat split. apply added_later.
  - destruct (main_extends args incoming w H) as [rest [Hev _]].
    exists rest. apply added_app. rewrite Hev. cbn [later events].
    symmetry. apply app_assoc.
Qed.

Lemma C7_fail_rate_validated_witness :
  in_unit_interval (resolved_fail_rate (Examples.plain_args 1.5)) = false /\
  added (Examples.world0 [])
        (snd (main (Examples.plain_args 1.5) [Examples.m2_request]
                   (Examples.world0 [])))
    = [range_error] /\
  in_unit_interval (resolved_fail_rate (Examples.plain_args 1)) = true /\
  exists rest,
    added (Examples.world0 [])
          (snd (main (Examples.plain_args 1) [Examples.m2_request]
                     (Examples.world0 [])))
      = startup (Examples.plain_args 1) ++ rest.
Proof.
  split; [reflexivity|]. split.
  - apply (proj1 (C7_fail_rate_validated
                    (R := Reference.runtime) (Examples.plain_args 1.5)
                    [Examples.m2_request] (Examples.world0 []))).
    reflexivity.
  - split; [reflexivity|].
    apply (proj2 (C7_fail_rate_validated
                    (R := Reference.runtime) (Examples.plain_args 1)
                    [Examples.m2_request] (Examples.world0 []))).
    reflexivity.
Defined.

(** C8.  With the demo flag set, whatever fail rate and delay came with
    it, [main] prints the notice and then runs exactly as it does for fail
    rate 0.3 and delay 500 without the flag: it binds the port, prints the
    banner for 0.3 and 500 and serves with handlers created for 0.3 and
    500. *)
Theorem C8_demo_overrides {R : Runtime} args incoming (w : World) :
  demo args = true ->
  main args incoming w
    = (say [Text "Demo mode: 30% failure rate, 500ms delay"] ;;
       main {| port := port args; args_fail_rate := 0.3%float;
               args_delay_ms := 500; demo := false |} incoming) w /\
  main args incoming w
    = stop (serve_forever (create_handler 0.3%float 500) incoming
              (later w 0 (demo_notice :: Bind "localhost" (port args)
                            :: banner (port args) 0.3%float 500))).
Proof.
  intros Hd. destruct args as [port0 rate delay flag]. cbn [demo] in Hd. subst flag.
  cbn [port]. split.
  - rewrite main_serves by reflexivity.
    erewrite bind_returned by (apply say_run; reflexivity).
    rewrite main_serves by reflexivity.
    unfold startup, resolved_fail_rate, effective_delay.
    cbn [demo port args_fail_rate args_delay_ms app].
    rewrite later_later. reflexivity.
  - rewrite main_serves by reflexivity. reflexivity.
Qed.

Lemma C8_demo_overrides_witness :
  demo Examples.demo_args = true /\
  main Examples.demo_args [Examples.m2_request] (Examples.world0 [3; 5])
    = stop (serve_forever (create_handler 0.3%float 500) [Examples.m2_request]
              (later (Examples.world0 [3; 5]) 0
                     (demo_notice :: Bind "localhost" 9090
                        :: banner 9090 0.3%float 500))).
Proof.
  split; [reflexivity|].
  apply (proj2 (C8_demo_overrides
                  (R := Reference.runtime) Examples.demo_args
                  [Examples.m2_request] (Examples.world0 [3; 5]) eq_refl)).
Defined.

End FaultClaims.

(* ===================================================================== *)
(** * The echo logger *)
(* ===================================================================== *)

Section EchoClaims.
Import TestHttpServer EchoRun EchoFacts EchoServerFacts EchoTable.




(** The two sample deliveries of the specification: an envelope with two
    properties is answered 200 and echoed, with a console line for each
    property; a malformed body is answered 400. *)
Example sample_envelope_run :
  wire (events (snd (__init__ Examples.m1_request (Examples.world0 []))))
    = [ SendResponse 200;
        SendHeader "Content-type" "application/json";
        EndHeaders;
        WriteJson
          (PyDict [ ("status", PyStr "success");
                    ("message", PyStr "Message processed successfully");
                    ("messageId", PyStr "m1");
                    ("timestamp", PyInt 1715938202123) ]) ] /\
  In (Print [Text "  "; Fmt (PyStr "a"); Text ": "; Fmt (PyStr "1")])
     (events (snd (__init__ Examples.m1_request (Examples.world0 [])))) /\
  In (Print [Text "  "; Fmt (PyStr "b"); Text ": "; Fmt (PyStr "2")])
     (events (snd (__init__ Examples.m1_request (Examples.world0 [])))).
Proof.
  split; [vm_compute; reflexivity|].
  split; vm_compute; repeat (try (left; reflexivity); right).
Qed.

Example sample_malformed_run :
  wire (events (snd (__init__ Examples.bad_json_request (Examples.world0 []))))
    = [SendError 400 "Invalid JSON"].
Proof. vm_compute. reflexivity. Qed.




(** C5, the claim as stated, fails on a body that is not UTF-8: no JSON
    can be parsed from it, and the answer is 500 "Internal server error",
    not 400.  The same answer is given when the malformed body is not even
    read, its [Content-Length] being refused by [rfile.read]. *)
Lemma C5_undecodable_body_gets_500 :
  json_of (R := Reference.runtime) [Byte.xff]
    = inl {| cls := UnicodeDecodeError;
             msg := "'utf-8' codec can't decode bytes: invalid data" |} /\
  fst (__init__ Examples.bad_utf8_request (Examples.world0 [])) = Returned tt /\
  wire (events (snd (__init__ Examples.bad_utf8_request (Examples.world0 []))))
    = [SendError 500 "Internal server error"] /\
  post_data (R := Reference.runtime) Examples.negative_length_request
    = inl {| cls := ValueError;
             msg := "read length must be non-negative or -1" |} /\
  wire (events (snd (__init__ Examples.negative_length_request
                              (Examples.world0 []))))
    = [SendError 500 "Internal server error"].
Proof. repeat split; vm_compute; reflexivity. Qed.

(** C5 (amended).  For every request whose body is read, decodes as UTF-8
    and is rejected by [json.loads] with a [JSONDecodeError], from a
    client that takes the response: [do_POST] prints the parse error,
    answers 400 with the message "Invalid JSON" and nothing else, and
    returns normally. *)
Theorem C5_rejected_text_gets_400 {R : Runtime} req m (w : World) raw text e :
  post_data req = inr raw ->
  rt_decode raw = inr text ->
  rt_loads text = inl e ->
  isinstance e JSONDecodeError = true ->
  wfile req = Accepting ->
  do_POST req (Build_Proc m w)
    = (Returned tt, Build_Proc m (later w 2 (rejected req w e))) /\
  hd_error (added w (later w 2 (rejected req w e)))
    = Some (Print [Text "ERROR: Invalid JSON received: "; Text (msg e)]) /\
  wire (added w (later w 2 (rejected req w e)))
    = [SendError 400 "Invalid JSON"].
Proof.
  intros Hread Hdecode Hloads He Hw.
  assert (Hjson : json_of raw = inl e).
  { unfold json_of. rewrite Hdecode. exact Hloads. }
  rewrite added_later. repeat split.
  rewrite echo_do_POST_outcome. unfold echo_outcome, inner.
  rewrite Hread, Hjson, He, Hw. reflexivity.
Qed.

Lemma C5_rejected_text_gets_400_witness :
  post_data (R := Reference.runtime) Examples.bad_json_request
    = inr (list_byte_of_string "{bad json") /\
  wfile Examples.bad_json_request = Accepting /\
  wire (added (Examples.world0 [])
              (later (Examples.world0 []) 2
                 (rejected Examples.bad_json_request (Examples.world0 [])
                    (Reference.json_error
                       "Expecting property name enclosed in double quotes"))))
    = [SendError 400 "Invalid JSON"].
Proof.
  split; [reflexivity|]. split; [reflexivity|].
  apply (C5_rejected_text_gets_400
           (R := Reference.runtime) Examples.bad_json_request tt
           (Examples.world0 [])
           (raw := list_byte_of_string "{bad json") (text := "{bad json")
           eq_refl eq_refl eq_refl eq_refl eq_refl).
Defined.

(** When the client has gone, the 400 does not reach it: the write of
    [send_error] raises, the outer [except] clause prints its line, and
    its own write raises again, out of [do_POST]. *)
Example hung_up_client_gets_no_400 :
  fst (__init__ Examples.hung_up_bad_json_request (Examples.world0 []))
    = Raised Examples.broken_pipe /\
  wire (events (snd (__init__ Examples.hung_up_bad_json_request
                              (Examples.world0 [])))) = [].
Proof. split; vm_compute; reflexivity. Qed.

End EchoClaims.

(* ===================================================================== *)
(** * Both servers: PUT *)
(* ===================================================================== *)

(** C9.  In both handlers [do_PUT] is [do_POST].  A connection carrying a
    PUT is served as the same connection carrying a POST: by the
    fault-injection server with the very same result and trace; by the
    echo logger with the same result and the same bytes on the wire, after
    the same number of clock readings (its console log quotes the request
    line, which names the method). *)
Theorem C9_put_is_post {R : Runtime} req :
  (forall p, TransactionTestServer.do_PUT req p = TransactionTestServer.do_POST req p) /\
  (forall p, TestHttpServer.do_PUT req p = TestHttpServer.do_POST req p) /\
  (forall rate delay (w : World),
      TransactionTestServer.create_handler rate delay (with_command "PUT" req) w
      = TransactionTestServer.create_handler rate delay (with_command "POST" req) w) /\
  (forall w : World,
      fst (TestHttpServer.__init__ (with_command "PUT" req) w)
      = fst (TestHttpServer.__init__ (with_command "POST" req) w) /\
      wire (events (snd (TestHttpServer.__init__ (with_command "PUT" req) w)))
      = wire (events (snd (TestHttpServer.__init__ (with_command "POST" req) w))) /\
      ticks (snd (TestHttpServer.__init__ (with_command "PUT" req) w))
      = ticks (snd (TestHttpServer.__init__ (with_command "POST" req) w)) /\
      entropy (snd (TestHttpServer.__init__ (with_command "PUT" req) w))
      = entropy (snd (TestHttpServer.__init__ (with_command "POST" req) w))).
Proof.
  split; [reflexivity|]. split; [reflexivity|]. split.
  - intros rate delay w.
    rewrite !FaultServerFacts.create_handler_run. reflexivity.
  - intros w. rewrite !EchoServerFacts.init_run by reflexivity.
    apply EchoServerFacts.outcome_wire; reflexivity.
Qed.

(* ===================================================================== *)
(** * The serving loop, one connection after the other *)
(* ===================================================================== *)



Lemma console_app (a b : list event) : console (a ++ b) = console a ++ console b.
Proof. apply flat_map_app. Qed.

Lemma bodies_app (a b : list event) : bodies (a ++ b) = bodies a ++ bodies b.
Proof. apply flat_map_app. Qed.

Section ServingLoop.
Context {R : Runtime}.
Variable handler : Request -> Comp World unit.
Variable verdict : Request -> Z + exn -> Prop.
Variable calm : Request -> bool.

(** Each connection only adds events, none of them on the server object,
    and ends either with one status sent or with an [Exception] and no
    status. *)
Hypothesis handled :
  forall req (w : World), calm req = true ->
    exists new,
      events (snd (handler req w)) = events w ++ new /\
      Forall on_connection new /\
      match fst (handler req w) with
      | Returned _ => exists c, outcomes new = [inl c] /\ verdict req (inl c)
      | Raised e => isinstance e Exception = true /\ outcomes new = []
                    /\ verdict req (inr e)
      end.


End ServingLoop.





(* ===================================================================== *)
(** * The echo logger: every request, the console, the serving loop *)
(* ===================================================================== *)

Section EchoExtras.
Import TestHttpServer EchoRun EchoFacts EchoServerFacts EchoTable.
Import FaultServerFacts MainFacts.











(** The events of a delivery whose envelope is printed in full: the lines
    of [log_received], then what answers the client or fails to. *)
Lemma delivered_events {R : Runtime} req m (w : World) raw d :
  post_data req = inr raw ->
  json_of raw = inr (PyDict d) ->
  printable (PyDict d) = true ->
  legible d = true ->
  exists tail,
    added w (world (snd (do_POST req (Build_Proc m w))))
    = map Print (header_lines w ++ spoken d) ++ tail /\
    Forall is_reply tail.
Proof.
  intros Hread Hjson Hp Hl.
  rewrite echo_do_POST_outcome. cbn [snd world].
  destruct (echo_outcome_ends req w) as [n [tail [Hs [Hr _]]]].
  exists tail. split; [|exact Hr].
  rewrite Hs, added_later. unfold echo_console.
  rewrite Hread, Hjson, received_legible by assumption. reflexivity.
Qed.

Lemma property_lines_of_object d items :
  dict_get d "properties" PyNone = PyDict items ->
  printable (PyDict d) = true /\
  fst (property_lines d)
  = match items with
    | [] => []
    | _ => [Text "Properties:"] :: map property_line items
    end.
Proof.
  intros Hd. unfold printable, property_lines. rewrite Hd.
  split; [reflexivity|]. destruct items; reflexivity.
Qed.

Lemma in_property_lines d l :
  In l (fst (property_lines d)) ->
  l = [Text "Properties:"] \/ exists kv, l = property_line kv.
Proof.
  unfold property_lines.
  destruct (truthy (dict_get d "properties" PyNone)); [|intros []].
  destruct (dict_get d "properties" PyNone); cbn [fst In];
    try (intros [<-|[]]; left; reflexivity).
  intros [<-|Hin]; [left; reflexivity|]. right.
  apply in_map_iff in Hin. destruct Hin as [kv [<- _]]. exists kv. reflexivity.
Qed.

(** The lines before and after the optional ones are neither a
    correlation line nor a properties heading, *)
Lemma fixed_lines_are_labelled {R : Runtime} d (w : World) l :
  In l (header_lines w ++ first_fields d ++ last_fields d) ->
  l <> [Text "Properties:"] /\
  (forall c, l <> [Text "Correlation ID: "; Fmt c]).
Proof.
  unfold header_lines, first_fields, last_fields, field_line.
  cbn [app In]. intros H.
  repeat (destruct H as [<-|H]; [split; [|intros c]; discriminate|]).
  contradiction.
Qed.

(** and neither is anything an [except] clause or a response adds. *)
Lemma replies_are_labelled (tail : list event) l :
  Forall is_reply tail -> In (Print l) tail ->
  l <> [Text "Properties:"] /\
  (forall c, l <> [Text "Correlation ID: "; Fmt c]).
Proof.
  intros Hr Hin. rewrite Forall_forall in Hr. specialize (Hr _ Hin).
  destruct l as [|[s|v|v spec] rest]; cbn [is_reply] in Hr; try contradiction.
  split; [|intros c]; intros [= -> _];
    destruct Hr as [Hr|[Hr|Hr]]; discriminate Hr.
Qed.

Lemma in_map_Print (ls : list line) l : In (Print l) (map Print ls) -> In l ls.
Proof.
  intros H. apply in_map_iff in H. destruct H as [l' [[= ->] Hin]]. exact Hin.
Qed.

(** X2.  The [properties] of an envelope on the console, when all the
    lines of the envelope can be printed: a non-empty object is printed as
    the heading followed by one line per key and value, in the order of
    the object, with nothing in between; an empty object prints nothing,
    not even the heading. *)
Theorem X2_properties_are_listed_in_order {R : Runtime} req m (w : World)
        raw d items :
  post_data req = inr raw ->
  json_of raw = inr (PyDict d) ->
  dict_get d "properties" PyNone = PyDict items ->
  legible d = true ->
  (items <> [] ->
     exists before after,
       added w (world (snd (do_POST req (Build_Proc m w))))
       = before
           ++ Print [Text "Properties:"]
           :: map (fun kv => Print [Text "  "; Fmt (PyStr (fst kv));
                                    Text ": "; Fmt (snd kv)]) items
           ++ after) /\
  (items = [] ->
     ~ In (Print [Text "Properties:"])
          (added w (world (snd (do_POST req (Build_Proc m w)))))).
Proof.
  intros Hread Hjson Hd Hl.
  destruct (property_lines_of_object d Hd) as [Hp Hlines].
  destruct (delivered_events req m w Hread Hjson Hp Hl) as [tail [-> Hr]].
  unfold spoken. rewrite Hlines. split.
  - intros Hne. destruct items as [|kv rest]; [contradiction|].
    exists (map Print (header_lines w ++ first_fields d ++ correlation_lines d)),
           (map Print (last_fields d) ++ tail).
    rewrite !map_app. cbn [map]. rewrite map_map.
    repeat rewrite <- app_assoc. cbn [app]. repeat rewrite <- app_assoc.
    reflexivity.
  - intros ->. cbn [app]. intros Hin.
    apply in_app_or in Hin. destruct Hin as [Hin|Hin].
    + apply in_map_Print in Hin.
      assert (Hcases : In [Text "Properties:"]
                          (header_lines w ++ first_fields d ++ last_fields d)
                       \/ In [Text "Properties:"] (correlation_lines d)).
      { repeat rewrite in_app_iff in Hin. repeat rewrite in_app_iff. tauto. }
      destruct Hcases as [Hf|Hc].
      * apply fixed_lines_are_labelled in Hf. destruct Hf as [Hf _].
        apply Hf. reflexivity.
      * unfold correlation_lines in Hc.
        destruct (truthy (dict_get d "correlationId" PyNone));
          [destruct Hc as [Hc|[]]; discriminate Hc | destruct Hc].
    + destruct (replies_are_labelled _ Hr Hin) as [Hf _].
      apply Hf. reflexivity.
Qed.

Lemma X2_properties_are_listed_in_order_witness :
  legible (R := Reference.runtime)
          [ ("messageId", PyStr "m1");
            ("properties", PyDict [("a", PyStr "1"); ("b", PyStr "2")]) ]
    = true /\
  exists before after,
    added (Examples.world0 [])
          (world (snd (do_POST Examples.m1_request
                                   (Build_Proc tt (Examples.world0 [])))))
    = before
        ++ Print [Text "Properties:"]
        :: map (fun kv => Print [Text "  "; Fmt (PyStr (fst kv));
                                 Text ": "; Fmt (snd kv)])
               [("a", PyStr "1"); ("b", PyStr "2")]
        ++ after.
Proof.
  split; [reflexivity|].
  refine (proj1 (X2_properties_are_listed_in_order
                   (R := Reference.runtime) Examples.m1_request tt
                   (Examples.world0 [])
                   (raw := list_byte_of_string
                             (Examples.json_text
                                "{'messageId':'m1','properties':{'a':'1','b':'2'}}"))
                   (d := [ ("messageId", PyStr "m1");
                           ("properties",
                            PyDict [("a", PyStr "1"); ("b", PyStr "2")]) ])
                   (items := [("a", PyStr "1"); ("b", PyStr "2")])
                   eq_refl eq_refl eq_refl eq_refl) _).
  discriminate.
Defined.

(** X3.  The correlation id on the console of a delivery whose envelope
    can be printed in full: it is printed when the field is present and
    true in the Python sense, and no correlation line is printed when it
    is missing, [null] or empty. *)
Theorem X3_correlation_id_only_when_set {R : Runtime} req m (w : World) raw d :
  post_data req = inr raw ->
  json_of raw = inr (PyDict d) ->
  printable (PyDict d) = true ->
  legible d = true ->
  (truthy (dict_get d "correlationId" PyNone) = true ->
     In (Print [Text "Correlation ID: ";
                Fmt (dict_get d "correlationId" PyNone)])
        (added w (world (snd (do_POST req (Build_Proc m w)))))) /\
  (truthy (dict_get d "correlationId" PyNone) = false ->
     forall c,
       ~ In (Print [Text "Correlation ID: "; Fmt c])
            (added w (world (snd (do_POST req (Build_Proc m w)))))).
Proof.
  intros Hread Hjson Hp Hl.
  destruct (delivered_events req m w Hread Hjson Hp Hl) as [tail [-> Hr]].
  unfold spoken, correlation_lines. split; intros Ht; rewrite Ht.
  - apply in_or_app. left. apply in_map.
    repeat rewrite in_app_iff. cbn [In]. tauto.
  - intros c Hin. cbn [app] in Hin.
    apply in_app_or in Hin. destruct Hin as [Hin|Hin].
    + apply in_map_Print in Hin.
      assert (Hcases : In [Text "Correlation ID: "; Fmt c]
                          (header_lines w ++ first_fields d ++ last_fields d)
                       \/ In [Text "Correlation ID: "; Fmt c]
                             (fst (property_lines d))).
      { repeat rewrite in_app_iff in Hin. repeat rewrite in_app_iff. tauto. }
      destruct Hcases as [Hf|Hprops].
      * apply fixed_lines_are_labelled in Hf. destruct Hf as [_ Hf].
        apply (Hf c). reflexivity.
      * apply in_property_lines in Hprops.
        destruct Hprops as [Hh|[kv Hkv]]; discriminate.
    + destruct (replies_are_labelled _ Hr Hin) as [_ Hf].
      apply (Hf c). reflexivity.
Qed.

Lemma X3_correlation_id_only_when_set_witness :
  legible (R := Reference.runtime)
          [ ("messageId", PyStr "m1");
            ("properties", PyDict [("a", PyStr "1"); ("b", PyStr "2")]) ]
    = true /\
  truthy (dict_get [ ("messageId", PyStr "m1");
                     ("properties", PyDict [("a", PyStr "1"); ("b", PyStr "2")]) ]
                   "correlationId" PyNone) = false /\
  (forall c,
     ~ In (Print [Text "Correlation ID: "; Fmt c])
          (added (Examples.world0 [])
                 (world (snd (do_POST Examples.m1_request
                                      (Build_Proc tt (Examples.world0 []))))))).
Proof.
  split; [reflexivity|]. split; [reflexivity|].
  refine (proj2 (X3_correlation_id_only_when_set
                   (R := Reference.runtime) Examples.m1_request tt
                   (Examples.world0 [])
                   (raw := list_byte_of_string
                             (Examples.json_text
                                "{'messageId':'m1','properties':{'a':'1','b':'2'}}"))
                   (d := [ ("messageId", PyStr "m1");
                           ("properties",
                            PyDict [("a", PyStr "1"); ("b", PyStr "2")]) ])
                   eq_refl eq_refl eq_refl eq_refl) _).
  reflexivity.
Defined.



Ltac world_step :=
  erewrite bind_returned
    by (first [apply say_run; reflexivity | apply tell_run]);
  rewrite ?later_later; cbn [app].




End EchoExtras.

(* ===================================================================== *)
(** * Text: the timestamp cut to milliseconds *)
(* ===================================================================== *)

Section Text.

Lemma string_app_assoc (a b c : string) :
  String.append (String.append a b) c = String.append a (String.append b c).
Proof. induction a as [|x a IH]; cbn [String.append]; congruence. Qed.

Lemma string_app_nil_r (a : string) : String.append a EmptyString = a.
Proof. induction a as [|x a IH]; cbn [String.append]; congruence. Qed.

Lemma string_app_length (a b : string) :
  String.length (String.append a b) = (String.length a + String.length b)%nat.
Proof. induction a as [|x a IH]; cbn [String.append String.length Nat.add]; congruence. Qed.

Lemma substring_prefix (a b : string) :
  String.substring 0 (String.length a) (String.append a b) = a.
Proof.
  induction a as [|x a IH]; cbn [String.append String.length String.substring].
  - destruct b; reflexivity.
  - rewrite IH. reflexivity.
Qed.

(** [(a + b)[:-n]] is [a] when [b] has [n] characters. *)
Lemma drop_last_suffix n (a b : string) :
  String.length b = n -> drop_last n (String.append a b) = a.
Proof.
  intros <-. unfold drop_last. rewrite string_app_length.
  replace (String.length a + String.length b - String.length b)%nat
    with (String.length a) by lia.
  apply substring_prefix.
Qed.

Lemma zero_pad_length width n : String.length (zero_pad width n) = width.
Proof.
  revert n. induction width as [|width IH]; intros n; cbn [zero_pad].
  - reflexivity.
  - rewrite string_app_length, IH. unfold digit. cbn [String.length]. lia.
Qed.

(** Six digits are three digits of the thousands, then three digits. *)
Lemma zero_pad_6 n :
  zero_pad 6 n = String.append (zero_pad 3 (n / 1000)) (zero_pad 3 n).
Proof.
  cbn [zero_pad String.append].
  replace (n / 10 / 10 / 10) with (n / 1000)
    by (rewrite !Z.div_div by lia; reflexivity).
  repeat rewrite string_app_assoc. reflexivity.
Qed.

Lemma concat_strings_snoc parts (last : string) :
  concat_strings (parts ++ [last])
  = String.append (concat_strings parts) last.
Proof.
  unfold concat_strings. induction parts as [|x parts IH]; cbn [app fold_right].
  - apply string_app_nil_r.
  - rewrite IH. symmetry. apply string_app_assoc.
Qed.

Lemma strftime_cut dt :
  drop_last 3 (datetime_.strftime_full dt) = FaultTable.millisecond_stamp dt.
Proof.
  unfold datetime_.strftime_full, FaultTable.millisecond_stamp.
  change [zero_pad 4 (year dt); "-"; zero_pad 2 (month dt); "-";
          zero_pad 2 (day dt); " "; zero_pad 2 (hour dt); ":";
          zero_pad 2 (minute dt); ":"; zero_pad 2 (second dt); ".";
          zero_pad 6 (microsecond dt)]
    with ([zero_pad 4 (year dt); "-"; zero_pad 2 (month dt); "-";
           zero_pad 2 (day dt); " "; zero_pad 2 (hour dt); ":";
           zero_pad 2 (minute dt); ":"; zero_pad 2 (second dt); "."]
            ++ [zero_pad 6 (microsecond dt)]).
  change [zero_pad 4 (year dt); "-"; zero_pad 2 (month dt); "-";
          zero_pad 2 (day dt); " "; zero_pad 2 (hour dt); ":";
          zero_pad 2 (minute dt); ":"; zero_pad 2 (second dt); ".";
          zero_pad 3 (microsecond dt / 1000)]
    with ([zero_pad 4 (year dt); "-"; zero_pad 2 (month dt); "-";
           zero_pad 2 (day dt); " "; zero_pad 2 (hour dt); ":";
           zero_pad 2 (minute dt); ":"; zero_pad 2 (second dt); "."]
            ++ [zero_pad 3 (microsecond dt / 1000)]).
  rewrite !concat_strings_snoc, zero_pad_6, <- string_app_assoc.
  apply drop_last_suffix. apply zero_pad_length.
Qed.

Lemma millisecond_stamp_length dt :
  String.length (FaultTable.millisecond_stamp dt) = 23%nat.
Proof.
  unfold FaultTable.millisecond_stamp, concat_strings. cbn [fold_right].
  repeat rewrite string_app_length. repeat rewrite zero_pad_length.
  reflexivity.
Qed.

End Text.

(* ===================================================================== *)
(** * The fault-injection server: what the claims leave out *)
(* ===================================================================== *)

Section FaultExtras.
Import TransactionTestServer FaultRun MainRun FaultFacts FaultServerFacts MainFacts.
Import FaultTable.

(** X6.  The artificial delay: a connection with a POST or a PUT, served
    by a handler that [create_handler] made for [delay_ms], sleeps for
    [delay_ms] before anything else when [delay_ms] is positive, and that
    whether or not the request can be answered afterwards; it never sleeps
    again, and it does not sleep at all when [delay_ms] is zero or
    negative or when the method is another one. *)
Theorem X6_the_delay_comes_first {R : Runtime} rate delay req (w : World) :
  exists rest,
    added w (snd (create_handler rate delay req w))
      = (if has_method req && (0 <? delay) then [Sleep delay] else [])
          ++ rest /\
    sleeps rest = [].
Proof.
  rewrite create_handler_run. fold (has_method req).
  destruct (has_method req); cbn [andb snd].
  - change w with (world (fresh rate delay w)) at 1.
    rewrite <- fault_do_POST_outcome, do_POST_added.
    unfold pause, fresh. cbn [self mem world delay_ms].
    eexists. split; [reflexivity|].
    apply (fault_added_no_sleep req
             (Build_Proc {| self := {| fail_rate := rate; delay_ms := delay;
                                       request_count := 0 |};
                            timestamp := None |} w)).
  - destruct (wfile req); cbn [snd].
    + rewrite added_later. eexists. split; reflexivity.
    + exists []. split; [|reflexivity]. apply added_app.
      symmetry. apply app_nil_r.
Qed.

Lemma fault_added_timestamps {R : Runtime} req (p : Proc Frame) message_id :
  message_id_of req = inr message_id ->
  map timestamp_in (bodies (fault_added req p))
  = match wfile req with
    | Accepting => [Some (PyStr (the_timestamp (world p)))]
    | Failing _ => []
    end.
Proof.
  intros Hm. unfold fault_added. rewrite Hm.
  destruct (rt_unprintable message_id) as [e|] eqn:Hp.
  - destruct (rt_print_raises _ Hp) as [-> _].
    destruct (wfile req); reflexivity.
  - destruct (wfile req) as [|x].
    + destruct (should_fail _ _); reflexivity.
    + destruct (isinstance x Exception); reflexivity.
Qed.

(** X7.  The timestamp of a request whose message id is extracted: the
    reading of the clock formatted with microseconds and cut by three
    characters, which leaves the date, the time and the milliseconds,
    rounded down, in 23 characters.  It is the value of the local variable
    and of the [timestamp] field of the body written, which is the one
    body when the client takes the response and none when it does not. *)
Theorem X7_timestamp_keeps_milliseconds {R : Runtime} req (p : Proc Frame)
        message_id :
  message_id_of req = inr message_id ->
  timestamp (mem (snd (do_POST req p)))
    = Some (millisecond_stamp (local (clock (world p) (ticks (world p))))) /\
  map timestamp_in (bodies (added (world p) (world (snd (do_POST req p)))))
    = match wfile req with
      | Accepting =>
          [Some (PyStr (millisecond_stamp
                          (local (clock (world p) (ticks (world p))))))]
      | Failing _ => []
      end /\
  String.length (millisecond_stamp (local (clock (world p) (ticks (world p)))))
    = 23%nat.
Proof.
  intros Hm. split; [ | split ].
  - rewrite fault_do_POST_outcome. unfold fault_outcome, recovered. rewrite Hm.
    rewrite <- strftime_cut. fold (the_timestamp (world p)).
    destruct (rt_unprintable message_id) as [e|].
    + destruct (isinstance e Exception); [destruct (wfile req)|]; reflexivity.
    + destruct (wfile req) as [|x]; [reflexivity|].
      destruct (isinstance x Exception); reflexivity.
  - rewrite do_POST_added, bodies_app.
    destruct (pause_quiet (self (mem p))) as [_ [-> _]]. cbn [app].
    rewrite (fault_added_timestamps req p Hm).
    unfold the_timestamp. rewrite strftime_cut. reflexivity.
  - apply millisecond_stamp_length.
Qed.

Lemma X7_timestamp_keeps_milliseconds_witness :
  message_id_of (R := Reference.runtime) Examples.m2_request
    = inr (PyStr "m2") /\
  map timestamp_in
      (bodies (added (world (Examples.fault_proc 0 []))
                     (world (snd (do_POST Examples.m2_request
                                          (Examples.fault_proc 0 []))))))
    = [Some (PyStr "2024-05-17 09:30:00.123")].
Proof.
  split; [reflexivity|].
  exact (proj1 (proj2 (X7_timestamp_keeps_milliseconds
                         (R := Reference.runtime) Examples.m2_request
                         (Examples.fault_proc 0 []) eq_refl))).
Defined.

Lemma the_choice_in_table {R : Runtime} (w : World) :
  In (the_choice w) failure_types.
Proof.
  unfold the_choice. apply nth_In.
  change (List.length failure_types) with 4%nat.
  apply rt_randbelow_lt. lia.
Qed.

(** X8.  A simulated failure, sent to a client that takes it, for a
    message id that can be printed: the status sent, the [error] text of
    the body and the two of them in the console line are one row of the
    table of failures, the row [random.choice] draws, so 500 goes with
    "Internal Server Error", 503 with "Service Unavailable", 502 with "Bad
    Gateway" and 504 with "Gateway Timeout"; the body has the four fields
    [error], [timestamp], [messageId], [requestCount] and is sent as
    [application/json]. *)
Theorem X8_failure_status_and_text_belong_together {R : Runtime}
        req (p : Proc Frame) message_id :
  message_id_of req = inr message_id ->
  rt_unprintable message_id = None ->
  wfile req = Accepting ->
  PrimFloat.ltb (fst (rt_random (entropy (world p))))
                (fail_rate (self (mem p))) = true ->
  exists code text,
    (code, text)
      = nth (fst (rt_randbelow 4 (snd (rt_random (entropy (world p))))))
            failure_types (500, "Internal Server Error") /\
    In (code, text) failure_types /\
    fst (do_POST req p) = Returned tt /\
    added (world p) (world (snd (do_POST req p)))
      = pause (self (mem p))
        ++ [ Print [Text "["; Text (the_timestamp (world p));
                    Text "] FAILURE ";
                    Fmt (PyInt (request_count (self (mem p)) + 1));
                    Text ": "; Fmt (PyInt code); Text " "; Text text;
                    Text " for message "; Fmt message_id];
             SendResponse code;
             SendHeader "Content-Type" "application/json";
             EndHeaders;
             WriteJson
               (PyDict [ ("error", PyStr text);
                         ("timestamp", PyStr (the_timestamp (world p)));
                         ("messageId", message_id);
                         ("requestCount",
                          PyInt (request_count (self (mem p)) + 1)) ]) ].
Proof.
  intros Hm Hp Hw Hs.
  exists (fst (the_choice (world p))), (snd (the_choice (world p))).
  split; [rewrite <- surjective_pairing; reflexivity|].
  split; [rewrite <- surjective_pairing; apply the_choice_in_table|].
  split; [rewrite (answered_run req p Hm Hp Hw); reflexivity|].
  rewrite do_POST_added. unfold fault_added, should_fail, the_draw.
  rewrite Hm, Hp, Hw, Hs. reflexivity.
Qed.

Lemma X8_failure_status_and_text_belong_together_witness :
  message_id_of (R := Reference.runtime) Examples.m2_request
    = inr (PyStr "m2") /\
  should_fail (self (mem (Examples.fault_proc 1 [4503599627370496; 6])))
              (world (Examples.fault_proc 1 [4503599627370496; 6])) = true /\
  exists code text,
    In (code, text) failure_types /\
    fst (do_POST Examples.m2_request
                 (Examples.fault_proc 1 [4503599627370496; 6]))
      = Returned tt.
Proof.
  split; [reflexivity|]. split; [reflexivity|].
  destruct (X8_failure_status_and_text_belong_together
              (R := Reference.runtime) Examples.m2_request
              (Examples.fault_proc 1 [4503599627370496; 6])
              (message_id := PyStr "m2") eq_refl eq_refl eq_refl eq_refl)
    as [code [text [_ [Hin [Hret _]]]]].
  exists code, text. split; [exact Hin | exact Hret].
Defined.

(** X9.  Where the message id of the response comes from, for a body that
    parses: from the [messageId] member of a JSON object, whatever its
    type ([null] included), and ["unknown"] when the object has no such
    member; it is the [messageId] of the body written when it can be
    printed and the client takes the response.  JSON that is no object (an
    array, a string, a number) gets no response at all: the handler ends
    with [UnboundLocalError] and nothing is printed. *)
Theorem X9_message_id_comes_from_the_object {R : Runtime}
        req (p : Proc Frame) text v :
  request_body req = inr text ->
  rt_loads text = inr v ->
  match v with
  | PyDict d =>
      message_id_of req = inr (dict_get d "messageId" (PyStr "unknown")) /\
      (rt_unprintable (dict_get d "messageId" (PyStr "unknown")) = None ->
       wfile req = Accepting ->
       fst (do_POST req p) = Returned tt /\
       map message_id_in
           (bodies (added (world p) (world (snd (do_POST req p)))))
         = [Some (dict_get d "messageId" (PyStr "unknown"))]) /\
      (forall x, lookup d "messageId" = Some x ->
                 dict_get d "messageId" (PyStr "unknown") = x) /\
      (lookup d "messageId" = None ->
       dict_get d "messageId" (PyStr "unknown") = PyStr "unknown")
  | _ =>
      fst (do_POST req p) = Raised unbound_timestamp /\
      wire (added (world p) (world (snd (do_POST req p)))) = [] /\
      console (added (world p) (world (snd (do_POST req p)))) = []
  end.
Proof.
  intros Hb Hl.
  assert (Hm : message_id_of req
               = match v with
                 | PyDict d => inr (dict_get d "messageId" (PyStr "unknown"))
                 | _ => inl (no_attribute v "get")
                 end).
  { unfold message_id_of. rewrite Hb, Hl. destruct v; reflexivity. }
  destruct (pause_quiet (self (mem p))) as [_ [_ [Hc [_ [Hw _]]]]].
  destruct v as [ | b | z | f | s | l | d ];
    try (rewrite do_POST_added, fault_do_POST_outcome;
         unfold fault_outcome, fault_added;
         rewrite Hm, app_nil_r; cbn [fst]; repeat split; assumption).
  split; [exact Hm|]. split; [|split].
  - intros Hp Hacc. rewrite (answered_run req p Hm Hp Hacc). cbn [fst snd].
    split; [reflexivity | apply answered_message_id].
  - unfold dict_get. intros x ->. reflexivity.
  - unfold dict_get. intros ->. reflexivity.
Qed.

Lemma X9_message_id_comes_from_the_object_witness :
  request_body (R := Reference.runtime) Examples.m2_request
    = inr (Examples.json_text "{'messageId':'m2'}") /\
  map message_id_in
      (bodies (added (world (Examples.fault_proc 0 []))
                     (world (snd (do_POST Examples.m2_request
                                          (Examples.fault_proc 0 []))))))
    = [Some (PyStr "m2")].
Proof.
  split; [reflexivity|].
  exact (proj2 (proj1 (proj2 (X9_message_id_comes_from_the_object
                                (R := Reference.runtime) Examples.m2_request
                                (Examples.fault_proc 0 [])
                                (text := Examples.json_text "{'messageId':'m2'}")
                                (v := PyDict [("messageId", PyStr "m2")])
                                eq_refl eq_refl))
                      eq_refl eq_refl)).
Defined.

(** X10.  The console of the fault-injection server, whose [log_message]
    does nothing, for every request.  A request whose body cannot be used
    prints nothing.  Otherwise the SUCCESS or the FAILURE line is printed,
    with the timestamp, the count and the message id, and no access line;
    when the client does not take the response the ERROR line of the
    [except] clause follows it; and when the message id cannot be
    printed, the ERROR line is all there is. *)
Theorem X10_one_console_line_per_answer {R : Runtime} req (p : Proc Frame) :
  console (added (world p) (world (snd (do_POST req p))))
  = match message_id_of req with
    | inl _ => []
    | inr message_id =>
        match rt_unprintable message_id with
        | Some e => [error_line (self (mem p)) (world p) e]
        | None =>
            answer_line (self (mem p)) (world p) message_id
            :: match wfile req with
               | Accepting => []
               | Failing x =>
                   if isinstance x Exception
                   then [error_line (self (mem p)) (world p) x]
                   else []
               end
        end
    end.
Proof.
  rewrite do_POST_added, console_app.
  destruct (pause_quiet (self (mem p))) as [_ [_ [-> _]]]. cbn [app].
  unfold fault_added.
  destruct (message_id_of req) as [e|message_id]; [reflexivity|].
  destruct (rt_unprintable message_id) as [e|] eqn:Hp.
  - destruct (rt_print_raises _ Hp) as [-> _].
    destruct (wfile req); reflexivity.
  - destruct (wfile req) as [|x].
    + unfold answer_line. destruct (should_fail _ _); reflexivity.
    + destruct (isinstance x Exception); reflexivity.
Qed.

(** X13.  What [do_POST] takes from the generator and from the clock:
    [random.random()] is drawn once for every request, before the body is
    looked at, so also for a request that is never answered;
    [random.choice] is drawn after it exactly when the message id has been
    extracted and a failure is designated; and the clock is read once,
    exactly when the message id has been extracted. *)
Theorem X13_one_draw_per_request {R : Runtime} req (p : Proc Frame) :
  entropy (world (snd (do_POST req p)))
  = match message_id_of req with
    | inl _ => snd (rt_random (entropy (world p)))
    | inr _ =>
        if PrimFloat.ltb (fst (rt_random (entropy (world p))))
                         (fail_rate (self (mem p)))
        then snd (rt_randbelow 4 (snd (rt_random (entropy (world p)))))
        else snd (rt_random (entropy (world p)))
    end /\
  ticks (world (snd (do_POST req p)))
  = match message_id_of req with
    | inl _ => ticks (world p)
    | inr _ => S (ticks (world p))
    end.
Proof.
  rewrite fault_do_POST_outcome. unfold fault_outcome, recovered.
  destruct (message_id_of req) as [e|message_id]; [split; reflexivity|].
  destruct (rt_unprintable message_id) as [e|].
  - destruct (isinstance e Exception); [destruct (wfile req)|];
      split; reflexivity.
  - destruct (wfile req) as [|x]; [split; reflexivity|].
    destruct (isinstance x Exception); split; reflexivity.
Qed.





End FaultExtras.

(* ===================================================================== *)
(** * Both servers: a request without a length *)
(* ===================================================================== *)

(** X12.  A request without a [Content-Length] header has the length 0:
    nothing is read from the connection, whatever the client has sent,
    and the body is the empty text; when [json.loads] rejects the empty
    text with a [JSONDecodeError] and the client takes the response, the
    echo logger answers 400 "Invalid JSON" and the fault-injection server
    answers with the message id ["unknown"]. *)
Theorem X12_no_length_means_no_body {R : Runtime} req e :
  headers_get (headers req) "Content-Length" = None ->
  rt_decode [] = inr EmptyString ->
  rt_loads EmptyString = inl e ->
  isinstance e JSONDecodeError = true ->
  wfile req = Accepting ->
  post_data req = inr [] /\
  (forall m (w : World),
      fst (TestHttpServer.do_POST req (Build_Proc m w)) = Returned tt /\
      wire (added w (world (snd (TestHttpServer.do_POST req (Build_Proc m w)))))
        = [SendError 400 "Invalid JSON"]) /\
  (forall p,
      TransactionTestServer.do_POST req p
      = (Returned tt, FaultRun.answered p (PyStr "unknown"))).
Proof.
  intros Hh Hd Hl He Hw.
  assert (Hread : post_data req = inr []).
  { unfold post_data, content_length. rewrite Hh. apply read_nothing. }
  split; [exact Hread|]. split.
  - intros m w. rewrite EchoFacts.echo_do_POST_outcome.
    unfold EchoRun.echo_outcome, EchoRun.json_of, EchoRun.inner.
    rewrite Hread, Hd, Hl, He, Hw. cbn [fst snd world]. rewrite added_later.
    split; reflexivity.
  - intros p. apply answered_run; [|apply unknown_prints|exact Hw].
    unfold FaultRun.message_id_of, request_body.
    rewrite Hread, Hd, Hl, He. reflexivity.
Qed.

Lemma X12_no_length_means_no_body_witness :
  headers_get (headers Examples.no_length_request) "Content-Length" = None /\
  wfile Examples.no_length_request = Accepting /\
  wire (added (Examples.world0 [])
              (world (snd (TestHttpServer.do_POST Examples.no_length_request
                             (Build_Proc tt (Examples.world0 []))))))
    = [SendError 400 "Invalid JSON"].
Proof.
  split; [reflexivity|]. split; [reflexivity|].
  exact (proj2 (proj1 (proj2 (X12_no_length_means_no_body
                                (R := Reference.runtime)
                                Examples.no_length_request
                                (e := Reference.json_error "Expecting value")
                                eq_refl eq_refl eq_refl eq_refl eq_refl))
                      tt (Examples.world0 []))).
Defined.
